(** * optimaps-indoor-positioning: distances and expected RSSI

    A shallow embedding of [src/utils/tools.py]: the two functions
    [get_distances] and [expected_rssi], the pandas/numpy operations they
    call, and the properties of the fingerprint table they produce.

    Numbers.  The two functions are embedded twice.  In the first part a
    Python float is an extended real: a finite value carries a real number
    (the binary rounding error and the overflow of IEEE doubles are
    abstracted away), and the three special values [+inf], [-inf] and [nan]
    are kept, because the code reaches them ([np.log10(0.0)] is [-inf], a
    missing cell is [nan]).  That reading carries the properties of the
    shape of the tables: which rows, columns and cells there are, which of
    them are defined, which exception pandas raises.  The properties of the
    digits of a cell, and of [OverflowError], are stated on the second
    embedding (module [Num] and [binary64]), where a float is an IEEE
    binary64 value with the operations of the machine and the two roundings
    of the source are the functions of CPython and of numpy. *)

From Stdlib Require Import Floats QArith Reals Lra Lia ZArith List String Bool
  Arith.
Import ListNotations.

Set Warnings "-inexact-float".

Local Open Scope R_scope.

(** ** Floats *)

Inductive pyfloat : Type :=
| Fin (r : R)
| PInf
| NInf
| NaN.

Definition is_nan (a : pyfloat) : bool :=
  match a with NaN => true | _ => false end.


(** Sign of a real, used by the products with an infinity. *)
Inductive sign : Type := Neg | Zero | Pos.

Definition Rsign (r : R) : sign :=
  match total_order_T r 0 with
  | inleft (left _) => Neg
  | inleft (right _) => Zero
  | inright _ => Pos
  end.

(** Unary minus. *)
Definition fneg (a : pyfloat) : pyfloat :=
  match a with
  | Fin r => Fin (- r)
  | PInf => NInf
  | NInf => PInf
  | NaN => NaN
  end.

Definition fadd (a b : pyfloat) : pyfloat :=
  match a, b with
  | NaN, _ | _, NaN => NaN
  | Fin x, Fin y => Fin (x + y)
  | PInf, NInf | NInf, PInf => NaN
  | PInf, _ | _, PInf => PInf
  | NInf, _ | _, NInf => NInf
  end.

(** [a - b] is [a + (-b)], also on the special values. *)
Definition fsub (a b : pyfloat) : pyfloat := fadd a (fneg b).

Definition finf_of_sign (s : sign) : pyfloat :=
  match s with Neg => NInf | Zero => NaN | Pos => PInf end.

Definition fmul (a b : pyfloat) : pyfloat :=
  match a, b with
  | NaN, _ | _, NaN => NaN
  | Fin x, Fin y => Fin (x * y)
  | Fin x, PInf | PInf, Fin x => finf_of_sign (Rsign x)
  | Fin x, NInf | NInf, Fin x => fneg (finf_of_sign (Rsign x))
  | PInf, PInf | NInf, NInf => PInf
  | PInf, NInf | NInf, PInf => NInf
  end.

(** [x ** 2], on the real value; [B64.float_pow_2] below is the power of
    the doubles, which raises on overflow. *)
Definition fsquare (a : pyfloat) : pyfloat :=
  match a with
  | Fin r => Fin (r * r)
  | PInf | NInf => PInf
  | NaN => NaN
  end.

(** [x ** 0.5].  Python leaves the floats on a negative finite base (the
    result is complex); [get_distances] only takes the root of a sum of
    squares, which is never negative ([sum_squares_not_negative] below), so
    that branch is unreachable and is given the value [nan] here. *)
Definition fpow_half (a : pyfloat) : pyfloat :=
  match a with
  | Fin r => if Rle_dec 0 r then Fin (sqrt r) else NaN
  | PInf | NInf => PInf
  | NaN => NaN
  end.

(** [np.log10]: [-inf] at zero and [nan] below it, no exception. *)
Definition Rlog10 (r : R) : R := ln r / ln 10.

Definition np_log10 (a : pyfloat) : pyfloat :=
  match a with
  | Fin r =>
      match Rsign r with
      | Pos => Fin (Rlog10 r)
      | Zero => NInf
      | Neg => NaN
      end
  | PInf => PInf
  | NInf => NaN
  | NaN => NaN
  end.

(** Rounding to the nearest integer, ties to the even one. *)
Definition Rrint (x : R) : Z :=
  let f := Int_part x in
  match total_order_T (x - IZR f) (1 / 2) with
  | inleft (left _) => f
  | inleft (right _) => if Z.even f then f else (f + 1)%Z
  | inright _ => (f + 1)%Z
  end.

(** Rounding to two decimal places: [round(x, 2)] of Python and
    [Series.round(2)] of pandas, on the real value.  On doubles the two are
    different functions, [B64.py_round2] and [B64.np_round2] below. *)
Definition Rround2 (x : R) : R := IZR (Rrint (x * 100)) / 100.

Definition round2 (a : pyfloat) : pyfloat :=
  match a with
  | Fin r => Fin (Rround2 r)
  | _ => a
  end.

(** [a >= b] of IEEE floats: false as soon as one side is [nan]. *)
Definition fge (a b : pyfloat) : bool :=
  match a, b with
  | NaN, _ | _, NaN => false
  | PInf, _ => true
  | _, NInf => true
  | NInf, _ => false
  | Fin _, PInf => false
  | Fin x, Fin y => if Rle_dec y x then true else false
  end.

(** The order of the extended reals, as a proposition. *)
Definition fle (a b : pyfloat) : Prop :=
  match a, b with
  | NaN, _ | _, NaN => False
  | NInf, _ => True
  | _, PInf => True
  | _, NInf => False
  | PInf, _ => False
  | Fin x, Fin y => x <= y
  end.

(** ** Errors *)

Inductive exn : Type :=
| TypeError
| ValueError
| KeyError
| OverflowError.

Inductive result (A : Type) : Type :=
| Ok (a : A)
| Raise (e : exn).

Arguments Ok {A} a.
Arguments Raise {A} e.

Definition rbind {A B : Type} (m : result A) (k : A -> result B) : result B :=
  match m with
  | Ok a => k a
  | Raise e => Raise e
  end.

Declare Scope result_scope.
Delimit Scope result_scope with result.
Notation "x <- m ;; k" := (rbind m (fun x => k))
  (at level 61, m at next level, right associativity) : result_scope.

Fixpoint mapM {A B : Type} (f : A -> result B) (l : list A) : result (list B) :=
  match l with
  | [] => Ok []
  | a :: l' =>
      (b <- f a ;; bs <- mapM f l' ;; Ok (b :: bs))%result
  end.

(** ** Python dictionaries

    Association lists in insertion order; [dict_set] is [d[k] = v]: it
    overwrites the value of a key that is there and appends a new key. *)

Definition dict (V : Type) : Type := list (string * V).

Fixpoint dict_get {V : Type} (d : dict V) (k : string) : option V :=
  match d with
  | [] => None
  | (k', v) :: d' => if String.eqb k k' then Some v else dict_get d' k
  end.

Fixpoint dict_set {V : Type} (d : dict V) (k : string) (v : V) : dict V :=
  match d with
  | [] => [(k, v)]
  | (k', v') :: d' =>
      if String.eqb k k' then (k', v) :: d' else (k', v') :: dict_set d' k v
  end.

Definition keys {V : Type} (d : dict V) : list string := map fst d.

(** [k in l] on strings. *)
Definition str_in (k : string) (l : list string) : bool :=
  existsb (String.eqb k) l.

(** ** The input tables *)

(** A row of the table of points.  The readings of the WAP columns are not
    part of the record: neither function reads them (only the names of the
    columns are used). *)
Record point : Type := {
  LABEL : string;
  DEVICE : string;
  X : pyfloat;
  Y : pyfloat
}.

Record points_frame : Type := {
  df_columns : list string;
  df_rows : list point
}.

(** A row of the table of access points: columns [AP], [x], [y]. *)
Record access_point : Type := {
  AP : string;
  ap_x : pyfloat;
  ap_y : pyfloat
}.

Definition ap_frame : Type := list access_point.

Record LogParams : Type := {
  rho_0 : pyfloat;
  alpha : pyfloat
}.

(** ** get_distances *)

(** [[col for col in df.columns if col.startswith('WAP')]] *)
Definition wap_columns (df : points_frame) : list string :=
  filter (String.prefix "WAP") (df_columns df).

(** The loop filling [ap_coords]: a later row of the registry overwrites an
    earlier one of the same name. *)
Definition ap_coords (waps : list string) (ap_df : ap_frame)
  : dict (pyfloat * pyfloat) :=
  fold_left
    (fun coords row =>
       if str_in (AP row) waps
       then dict_set coords (AP row) (ap_x row, ap_y row)
       else coords)
    ap_df [].

(** [((px - ap_x) ** 2 + (py - ap_y) ** 2 + H ** 2) ** 0.5] *)
Definition euclid (px py ax ay H : pyfloat) : pyfloat :=
  fpow_half
    (fadd (fadd (fsquare (fsub px ax)) (fsquare (fsub py ay))) (fsquare H)).

(** The inner loop: one distance mapping, [None] for a column without
    coordinates. *)
Definition row_distances (waps : list string)
    (coords : dict (pyfloat * pyfloat)) (H : pyfloat) (row : point)
  : dict (option pyfloat) :=
  fold_left
    (fun distances wap_name =>
       match dict_get coords wap_name with
       | Some (ax, ay) =>
           dict_set distances wap_name
             (Some (round2 (euclid (X row) (Y row) ax ay H)))
       | None => dict_set distances wap_name None
       end)
    waps [].

Definition get_distances (df : points_frame) (ap_df : ap_frame) (H : pyfloat)
  : list (dict (option pyfloat)) :=
  let waps := wap_columns df in
  let coords := ap_coords waps ap_df in
  fold_left
    (fun distances_list row =>
       distances_list ++ [row_distances waps coords H row])
    (df_rows df) [].

(** ** Data frames *)

(** A cell of a column of dtype [object]. *)
Inductive pyobject : Type :=
| ONone
| OFloat (f : pyfloat)
| OStr (s : string).

(** A column is of dtype [float64] or of dtype [object]. *)
Inductive column : Type :=
| FloatCol (vs : list pyfloat)
| ObjCol (vs : list pyobject).

Definition col_length (c : column) : nat :=
  match c with
  | FloatCol vs => List.length vs
  | ObjCol vs => List.length vs
  end.

Definition col_nth (c : column) (i : nat) : option pyobject :=
  match c with
  | FloatCol vs => option_map OFloat (nth_error vs i)
  | ObjCol vs => nth_error vs i
  end.

(** A frame: the length of its index and its columns, in order. *)
Record frame : Type := {
  index : nat;
  columns : dict column
}.

(** The cell of row [i] in column [k]. *)
Definition cell (f : frame) (i : nat) (k : string) : option pyobject :=
  match dict_get (columns f) k with
  | Some c => col_nth c i
  | None => None
  end.

(** The keys of a list of dictionaries, in order of first appearance. *)
Definition add_key (acc : list string) (k : string) : list string :=
  if str_in k acc then acc else acc ++ [k].

Definition union_keys {V : Type} (ds : list (dict V)) : list string :=
  fold_left (fun acc d => fold_left add_key (keys d) acc) ds [].

(** The column [pd.DataFrame] builds for key [k]: of dtype [object] when
    every dictionary has the key and holds [None] there; otherwise of dtype
    [float64], with [nan] for [None] and for a missing key. *)
Definition all_none (vals : list (option (option pyfloat))) : bool :=
  forallb (fun v => match v with Some None => true | _ => false end) vals.

Definition float_of_entry (v : option (option pyfloat)) : pyfloat :=
  match v with
  | Some (Some f) => f
  | _ => NaN
  end.

Definition column_of (ds : list (dict (option pyfloat))) (k : string) : column :=
  let vals := map (fun d => dict_get d k) ds in
  if all_none vals
  then ObjCol (map (fun _ => ONone) vals)
  else FloatCol (map float_of_entry vals).

(** [pd.DataFrame(distances)] *)
Definition DataFrame (ds : list (dict (option pyfloat))) : frame :=
  {| index := List.length ds;
     columns := map (fun k => (k, column_of ds k)) (union_keys ds) |}.

(** [frame[k]] *)
Definition getitem (f : frame) (k : string) : result column :=
  match dict_get (columns f) k with
  | Some c => Ok c
  | None => Raise KeyError
  end.

(** [frame[k] = values].  A frame whose index is empty takes the index of
    the values (its columns, all empty, are filled with [nan]); otherwise
    the lengths must agree. *)
Definition reindex_empty (n : nat) (c : column) : column :=
  match c with
  | FloatCol _ => FloatCol (repeat NaN n)
  | ObjCol _ => ObjCol (repeat (OFloat NaN) n)
  end.

Definition ensure_valid_index (f : frame) (n : nat) : frame :=
  if (index f =? 0)%nat && negb (n =? 0)%nat
  then {| index := n;
          columns := map (fun kc => (fst kc, reindex_empty n (snd kc)))
                         (columns f) |}
  else f.

Definition setitem (f : frame) (k : string) (v : column) : result frame :=
  let f' := ensure_valid_index f (col_length v) in
  if (col_length v =? index f')%nat
  then Ok {| index := index f'; columns := dict_set (columns f') k v |}
  else Raise ValueError.

(** ** expected_rssi *)

(** [np.log10] of a column: numpy has no loop for a column of objects. *)
Definition series_log10 (c : column) : result column :=
  match c with
  | FloatCol vs => Ok (FloatCol (map np_log10 vs))
  | ObjCol _ => Raise TypeError
  end.

(** [- rho_0 - 10 * alpha * s], element by element. *)
Definition path_loss (log_params : LogParams) (l : pyfloat) : pyfloat :=
  fsub (fneg (rho_0 log_params))
       (fmul (fmul (Fin 10) (alpha log_params)) l).

Definition series_path_loss (log_params : LogParams) (c : column)
  : result column :=
  match c with
  | FloatCol vs => Ok (FloatCol (map (path_loss log_params) vs))
  | ObjCol _ => Raise TypeError
  end.

(** [s.round(2)] *)
Definition series_round2 (c : column) : result column :=
  match c with
  | FloatCol vs => Ok (FloatCol (map round2 vs))
  | ObjCol _ => Raise TypeError
  end.

(** The body of the loop over the columns of [rssi_df]. *)
Definition rssi_step (log_params : LogParams) (df_ap : ap_frame)
    (rssi_df : frame) (wap : string) : result frame :=
  if str_in wap (map AP df_ap)
  then (s <- getitem rssi_df wap ;;
        l <- series_log10 s ;;
        v <- series_path_loss log_params l ;;
        rssi_df <- setitem rssi_df wap v ;;
        s <- getitem rssi_df wap ;;
        r <- series_round2 s ;;
        setitem rssi_df wap r)%result
  else Ok rssi_df.

(** [frame.clip(lower=..., upper=None)]: a cell that is missing ([None],
    [nan]) or not below the bound is kept, any other takes the bound. *)
Definition clip_float (lower v : pyfloat) : pyfloat :=
  if is_nan v || fge v lower then v else lower.

Definition clip_object (lower : pyfloat) (o : pyobject) : result pyobject :=
  match o with
  | ONone => Ok ONone
  | OFloat v => Ok (OFloat (clip_float lower v))
  | OStr _ => Raise TypeError
  end.

Definition clip_column (lower : pyfloat) (c : column) : result column :=
  match c with
  | FloatCol vs => Ok (FloatCol (map (clip_float lower) vs))
  | ObjCol vs => (os <- mapM (clip_object lower) vs ;; Ok (ObjCol os))%result
  end.

Definition frame_clip (lower : pyfloat) (f : frame) : result frame :=
  (cs <- mapM (fun kc => c <- clip_column lower (snd kc) ;; Ok (fst kc, c))
              (columns f) ;;
   Ok {| index := index f; columns := cs |})%result.

Fixpoint foldM {A B : Type} (f : B -> A -> result B) (l : list A) (b : B)
  : result B :=
  match l with
  | [] => Ok b
  | a :: l' => (b' <- f b a ;; foldM f l' b')%result
  end.

(** The loop [for wap in rssi_df.columns]. *)
Definition convert_columns (log_params : LogParams) (df_ap : ap_frame)
    (rssi_df : frame) : result frame :=
  foldM (rssi_step log_params df_ap) (keys (columns rssi_df)) rssi_df.

(** [expected_rssi].  The module-level table [df_test], which the function
    reads for the identity columns, is the first argument. *)
Definition expected_rssi (df_test : points_frame)
    (distances : list (dict (option pyfloat))) (df_ap : ap_frame)
    (log_params : LogParams) : result frame :=
  let rssi_df := DataFrame distances in
  (rssi_df <- convert_columns log_params df_ap rssi_df ;;
   rssi_df <- frame_clip (Fin (-100)) rssi_df ;;
   rssi_df <- setitem rssi_df "LABEL"
                (ObjCol (map (fun p => OStr (LABEL p)) (df_rows df_test))) ;;
   rssi_df <- setitem rssi_df "DEVICE"
                (ObjCol (map (fun p => OStr (DEVICE p)) (df_rows df_test))) ;;
   rssi_df <- setitem rssi_df "X" (FloatCol (map X (df_rows df_test))) ;;
   setitem rssi_df "Y" (FloatCol (map Y (df_rows df_test))))%result.

(** ** The two functions on a store of Python objects

    The definitions above give the value each function computes.  Below, the
    same two functions are written over a store, with the arguments passed
    by reference and every container (the dictionaries, the list, the
    frames) an object of the store that is allocated, read and written in
    place, as in the source.  The pandas operations on the contents of a
    frame are the ones defined above. *)

Module Heap.

Definition loc : Type := nat.

Inductive pyval : Type :=
| VPoints (t : points_frame)
| VAps (t : ap_frame)
| VFrame (f : frame)
| VDict (d : dict (option pyfloat))
| VCoords (d : dict (pyfloat * pyfloat))
| VList (l : list loc)
| VParams (p : LogParams).

Definition heap : Type := list pyval.

Fixpoint update (h : heap) (l : loc) (v : pyval) : heap :=
  match h, l with
  | [], _ => []
  | _ :: h', O => v :: h'
  | w :: h', S l' => w :: update h' l' v
  end.

(** State and exceptions: an exception leaves the store as it is. *)
Definition M (A : Type) : Type := heap -> result A * heap.

Definition ret {A : Type} (a : A) : M A := fun h => (Ok a, h).

Definition bind {A B : Type} (m : M A) (k : A -> M B) : M B :=
  fun h =>
    match m h with
    | (Ok a, h') => k a h'
    | (Raise e, h') => (Raise e, h')
    end.

Declare Scope heap_scope.
Delimit Scope heap_scope with heap.
Notation "x <- m ;; k" := (bind m (fun x => k))
  (at level 61, m at next level, right associativity) : heap_scope.
Notation "m ;;; k" := (bind m (fun _ => k))
  (at level 61, right associativity) : heap_scope.

Local Open Scope heap_scope.

Definition lift {A : Type} (r : result A) : M A := fun h => (r, h).

Definition alloc (v : pyval) : M loc :=
  fun h => (Ok (List.length h), h ++ [v]).

Definition store (l : loc) (v : pyval) : M unit :=
  fun h => (Ok tt, update h l v).

(** Reading an object as a value of the expected class. *)
Definition load_points (l : loc) : M points_frame :=
  fun h => match nth_error h l with
           | Some (VPoints t) => (Ok t, h)
           | _ => (Raise TypeError, h)
           end.

Definition load_aps (l : loc) : M ap_frame :=
  fun h => match nth_error h l with
           | Some (VAps t) => (Ok t, h)
           | _ => (Raise TypeError, h)
           end.

Definition load_frame (l : loc) : M frame :=
  fun h => match nth_error h l with
           | Some (VFrame f) => (Ok f, h)
           | _ => (Raise TypeError, h)
           end.

Definition load_dict (l : loc) : M (dict (option pyfloat)) :=
  fun h => match nth_error h l with
           | Some (VDict d) => (Ok d, h)
           | _ => (Raise TypeError, h)
           end.

Definition load_coords (l : loc) : M (dict (pyfloat * pyfloat)) :=
  fun h => match nth_error h l with
           | Some (VCoords d) => (Ok d, h)
           | _ => (Raise TypeError, h)
           end.

Definition load_list (l : loc) : M (list loc) :=
  fun h => match nth_error h l with
           | Some (VList ls) => (Ok ls, h)
           | _ => (Raise TypeError, h)
           end.

Definition load_params (l : loc) : M LogParams :=
  fun h => match nth_error h l with
           | Some (VParams p) => (Ok p, h)
           | _ => (Raise TypeError, h)
           end.

(** [for a in l: body] *)
Fixpoint for_ {A : Type} (l : list A) (body : A -> M unit) : M unit :=
  match l with
  | [] => ret tt
  | a :: l' => body a ;;; for_ l' body
  end.

Fixpoint load_dicts (ls : list loc) : M (list (dict (option pyfloat))) :=
  match ls with
  | [] => ret []
  | l :: ls' => d <- load_dict l ;; ds <- load_dicts ls' ;; ret (d :: ds)
  end.

(** [d[k] = v] on the dictionary objects. *)
Definition coords_setitem (d : loc) (k : string) (v : pyfloat * pyfloat)
  : M unit :=
  c <- load_coords d ;; store d (VCoords (dict_set c k v)).

Definition dict_setitem (d : loc) (k : string) (v : option pyfloat) : M unit :=
  c <- load_dict d ;; store d (VDict (dict_set c k v)).

(** [l.append(x)] *)
Definition list_append (l : loc) (x : loc) : M unit :=
  ls <- load_list l ;; store l (VList (ls ++ [x])).

(** [frame[k] = v] on a frame object. *)
Definition frame_setitem (fr : loc) (k : string) (v : column) : M unit :=
  f <- load_frame fr ;;
  f' <- lift (setitem f k v) ;;
  store fr (VFrame f').

Definition frame_getitem (fr : loc) (k : string) : M column :=
  f <- load_frame fr ;; lift (getitem f k).

Definition get_distances (df ap_df : loc) (H : pyfloat) : M loc :=
  t <- load_points df ;;
  let wap_columns := wap_columns t in
  ap_coords <- alloc (VCoords []) ;;
  rows <- load_aps ap_df ;;
  for_ rows (fun row =>
    if str_in (AP row) wap_columns
    then coords_setitem ap_coords (AP row) (ap_x row, ap_y row)
    else ret tt) ;;;
  distances_list <- alloc (VList []) ;;
  for_ (df_rows t) (fun row =>
    distances <- alloc (VDict []) ;;
    for_ wap_columns (fun wap_name =>
      coords <- load_coords ap_coords ;;
      match dict_get coords wap_name with
      | Some (ax, ay) =>
          dict_setitem distances wap_name
            (Some (round2 (euclid (X row) (Y row) ax ay H)))
      | None => dict_setitem distances wap_name None
      end) ;;;
    list_append distances_list distances) ;;;
  ret distances_list.

(** [df_test] is the location of the module-level table; [log_params] is
    the location of the dictionary of parameters, read at each use. *)
Definition expected_rssi (df_test : loc) (distances df_ap log_params : loc)
  : M loc :=
  ls <- load_list distances ;;
  ds <- load_dicts ls ;;
  rssi_df <- alloc (VFrame (DataFrame ds)) ;;
  f0 <- load_frame rssi_df ;;
  for_ (keys (columns f0)) (fun wap =>
    aps <- load_aps df_ap ;;
    if str_in wap (map AP aps)
    then (params <- load_params log_params ;;
          s <- frame_getitem rssi_df wap ;;
          l <- lift (series_log10 s) ;;
          v <- lift (series_path_loss params l) ;;
          frame_setitem rssi_df wap v ;;;
          s <- frame_getitem rssi_df wap ;;
          r <- lift (series_round2 s) ;;
          frame_setitem rssi_df wap r)
    else ret tt) ;;;
  f <- load_frame rssi_df ;;
  clipped <- lift (frame_clip (Fin (-100)) f) ;;
  rssi_df <- alloc (VFrame clipped) ;;
  t <- load_points df_test ;;
  frame_setitem rssi_df "LABEL"
    (ObjCol (map (fun p => OStr (LABEL p)) (df_rows t))) ;;;
  t <- load_points df_test ;;
  frame_setitem rssi_df "DEVICE"
    (ObjCol (map (fun p => OStr (DEVICE p)) (df_rows t))) ;;;
  t <- load_points df_test ;;
  frame_setitem rssi_df "X" (FloatCol (map X (df_rows t))) ;;;
  t <- load_points df_test ;;
  frame_setitem rssi_df "Y" (FloatCol (map Y (df_rows t))) ;;;
  ret rssi_df.

(** The objects of the store allocated before position [n] are the same in
    [h] and [h']. *)
Definition unchanged_below (n : nat) (h h' : heap) : Prop :=
  (n <= List.length h')%nat /\
  forall l, (l < n)%nat -> nth_error h' l = nth_error h l.

(** The list of dictionaries held at a location, read through the store. *)
Definition deref_dicts (h : heap) (l : loc)
  : option (list (dict (option pyfloat))) :=
  match fst (bind (load_list l) load_dicts h) with
  | Ok ds => Some ds
  | Raise _ => None
  end.

Definition deref_frame (h : heap) (l : loc) : option frame :=
  match nth_error h l with
  | Some (VFrame f) => Some f
  | _ => None
  end.

End Heap.

(** ** Notions used to state the properties *)

(** The four identity columns attached at the end of [expected_rssi]. *)
Definition identity_column (k : string) : bool :=
  str_in k ["LABEL"; "DEVICE"; "X"; "Y"]%string.

(** A column name is recognized when it is a value of [df_ap['AP']]. *)
Definition recognized (df_ap : ap_frame) (k : string) : bool :=
  str_in k (map AP df_ap).

(** The access point a channel identifier denotes: the last row of the
    registry carrying that name. *)
Definition registry_lookup (ap_df : ap_frame) (k : string)
  : option access_point :=
  find (fun row => String.eqb (AP row) k) (rev ap_df).

(** The expected RSSI of a distance, before the clip. *)
Definition rssi_of_distance (log_params : LogParams) (d : pyfloat) : pyfloat :=
  round2 (path_loss log_params (np_log10 d)).

(** What the loop does to a recognized column, in one step. *)
Definition convert_column (log_params : LogParams) (c : column)
  : result column :=
  match c with
  | FloatCol vs => Ok (FloatCol (map (rssi_of_distance log_params) vs))
  | ObjCol _ => Raise TypeError
  end.

Definition convert_named (log_params : LogParams) (df_ap : ap_frame)
    (k : string) (c : column) : result column :=
  if recognized df_ap k then convert_column log_params c else Ok c.

(** A fallible change of a column, applied to an entry of the table of
    columns. *)
Definition entryM (g : string -> column -> result column)
    (kc : string * column) : result (string * column) :=
  (c <- g (fst kc) (snd kc) ;; Ok (fst kc, c))%result.

(** The four assignments that end [expected_rssi]. *)
Definition attach_identity (df_test : points_frame) (cs : dict column)
  : dict column :=
  dict_set
    (dict_set
       (dict_set
          (dict_set cs "LABEL"
             (ObjCol (map (fun p => OStr (LABEL p)) (df_rows df_test))))
          "DEVICE"
          (ObjCol (map (fun p => OStr (DEVICE p)) (df_rows df_test))))
       "X" (FloatCol (map X (df_rows df_test))))
    "Y" (FloatCol (map Y (df_rows df_test))).

(** The clip of a cell of any column. *)
Definition clip_cell (lower : pyfloat) (o : pyobject) : pyobject :=
  match o with
  | OFloat v => OFloat (clip_float lower v)
  | _ => o
  end.

(** Every column of a frame has the length of the index. *)
Definition frame_wf (f : frame) : Prop :=
  Forall (fun kc => col_length (snd kc) = index f) (columns f).

(** The identity columns of a table of points. *)
Definition identity_cell (df_test : points_frame) (i : nat) (k : string)
  : option pyobject :=
  match nth_error (df_rows df_test) i with
  | None => None
  | Some p =>
      if String.eqb k "LABEL" then Some (OStr (LABEL p))
      else if String.eqb k "DEVICE" then Some (OStr (DEVICE p))
      else if String.eqb k "X" then Some (OFloat (X p))
      else if String.eqb k "Y" then Some (OFloat (Y p))
      else None
  end.

(** The value [row_distances] records under a key. *)
Definition distance_entry (coords : dict (pyfloat * pyfloat)) (H : pyfloat)
    (row : point) (k : string) : option pyfloat :=
  match dict_get coords k with
  | Some (ax, ay) => Some (round2 (euclid (X row) (Y row) ax ay H))
  | None => None
  end.

(** A column without strings: what [pd.DataFrame] builds from mappings of
    distances. *)
Definition str_free (c : column) : Prop :=
  match c with
  | FloatCol _ => True
  | ObjCol vs => Forall (fun o => match o with OStr _ => False | _ => True end) vs
  end.

(** The column of key [k] holds [None] in every mapping. *)
Definition none_column (ds : list (dict (option pyfloat))) (k : string) : bool :=
  all_none (map (fun d => dict_get d k) ds).

(** ** Sample tables

    One point at the origin with two channels, a registry that knows the
    first channel only, and the parameters of the examples of the
    specification. *)

Definition lp_40_2 : LogParams := {| rho_0 := Fin 40; alpha := Fin 2 |}.

Definition origin : point :=
  {| LABEL := "hall"; DEVICE := "phone"; X := Fin 0; Y := Fin 0 |}.

Definition sample_points : points_frame :=
  {| df_columns := ["LABEL"; "DEVICE"; "X"; "Y"; "WAP001"; "WAP002"]%string;
     df_rows := [origin] |}.

Definition sample_aps : ap_frame :=
  [ {| AP := "WAP001"; ap_x := Fin 3; ap_y := Fin 4 |} ].

(** A mapping with one distance. *)
Definition one_distance (d : pyfloat) : list (dict (option pyfloat)) :=
  [ [("WAP001"%string, Some d)] ].



(** A second table of points, of the same shape as [sample_points]. *)
Definition other_points : points_frame :=
  {| df_columns := ["LABEL"; "DEVICE"; "X"; "Y"; "WAP001"; "WAP002"]%string;
     df_rows := [ {| LABEL := "lab"; DEVICE := "tablet";
                     X := Fin 1; Y := Fin 1 |} ] |}.

(** A mapping that carries a column which is not an access point. *)
Definition mixed_mapping : list (dict (option pyfloat)) :=
  [ [("TEMP"%string, Some (Fin (-150)))] ].

(** The body of the loop of [Heap.expected_rssi], named. *)
Definition heap_rssi_body (rssi_df df_ap log_params : Heap.loc)
    (wap : string) : Heap.M unit :=
  Heap.bind (Heap.load_aps df_ap)
    (fun aps =>
       if str_in wap (map AP aps)
       then Heap.bind (Heap.load_params log_params)
              (fun params =>
               Heap.bind (Heap.frame_getitem rssi_df wap)
                 (fun s =>
                  Heap.bind (Heap.lift (series_log10 s))
                    (fun l =>
                     Heap.bind (Heap.lift (series_path_loss params l))
                       (fun v =>
                        Heap.bind (Heap.frame_setitem rssi_df wap v)
                          (fun _ =>
                           Heap.bind (Heap.frame_getitem rssi_df wap)
                             (fun s0 =>
                              Heap.bind (Heap.lift (series_round2 s0))
                                (fun r =>
                                 Heap.frame_setitem rssi_df wap r)))))))
       else Heap.ret tt).

(** The result of a statement: the value is dropped, an exception kept. *)
Definition outcome {A : Type} (r : result A) : result unit :=
  match r with
  | Ok _ => Ok tt
  | Raise e => Raise e
  end.

(** The result of a function that returns the object at [l]. *)
Definition located {A : Type} (l : Heap.loc) (r : result A)
  : result Heap.loc :=
  match r with
  | Ok _ => Ok l
  | Raise e => Raise e
  end.

(** ** The module-level statements

    [df_test = pd.read_csv(...).replace(100, -100)] and
    [distances = get_distances(df_test, df_AP, H=2.0)].  The table that
    [read_csv] returns is a parameter. *)







Definition two_points : points_frame :=
  {| df_columns := ["LABEL"; "DEVICE"; "X"; "Y"; "WAP001"]%string;
     df_rows := [origin; origin] |}.


(** ** The two functions over the arithmetic of the machine

    The definitions above read a float as an extended real.  That reading
    carries the properties of the shape of the tables (rows, columns, which
    cell is defined, which exception of pandas), but not the digits of a
    cell: the code computes with IEEE doubles, [**] of Python raises
    [OverflowError], and the two roundings of the source, [round(x, 2)] of
    Python and [Series.round(2)] of numpy, are different functions of a
    double.  For the statements about the values, the two functions are
    embedded once more, statement by statement as above, over an interface
    of the operations the source applies to its numbers ([Num.arith]);
    [binary64] instantiates the interface with the doubles. *)

Module Num.

(** The operations of the source on its numbers.  The tables have columns of
    strings (LABEL and DEVICE, AP in the registry), so [iterrows] hands the
    coordinates of a row over as Python objects: the numbers of
    [get_distances], like [H] and the two parameters, are Python floats, and
    those of the columns of [rssi_df] are elements of a [float64] array.
    [square] and [root] are
    [x ** 2] and [x ** 0.5] of a Python float, which can raise; [round2] is
    [round(x, 2)] of Python; [log10] is [np.log10] and [rint2] is
    [Series.round(2)], element by element; [ge] is [>=] and [of_int] the
    conversion of an integer literal ([10], [-100]) to a float. *)
Record arith : Type := {
  num : Type;
  nan : num;
  of_int : Z -> num;
  is_nan : num -> bool;
  ge : num -> num -> bool;
  neg : num -> num;
  add : num -> num -> num;
  sub : num -> num -> num;
  mul : num -> num -> num;
  square : num -> result num;
  root : num -> result num;
  round2 : num -> num;
  log10 : num -> num;
  rint2 : num -> num
}.

Section Tables.

Variable T : Type.

(** A row of the table of points. *)
Record point : Type := {
  LABEL : string;
  DEVICE : string;
  X : T;
  Y : T
}.

Record points_frame : Type := {
  df_columns : list string;
  df_rows : list point
}.

(** A row of the table of access points: columns [AP], [x], [y]. *)
Record access_point : Type := {
  AP : string;
  ap_x : T;
  ap_y : T
}.

Definition ap_frame : Type := list access_point.

Record LogParams : Type := {
  rho_0 : T;
  alpha : T
}.

(** [[col for col in df.columns if col.startswith('WAP')]] *)
Definition wap_columns (df : points_frame) : list string :=
  filter (String.prefix "WAP") (df_columns df).

(** The loop filling [ap_coords]. *)
Definition ap_coords (waps : list string) (ap_df : ap_frame) : dict (T * T) :=
  fold_left
    (fun coords row =>
       if str_in (AP row) waps
       then dict_set coords (AP row) (ap_x row, ap_y row)
       else coords)
    ap_df [].

(** A cell of a column of dtype [object]. *)
Inductive pyobject : Type :=
| ONone
| OFloat (f : T)
| OStr (s : string).

(** A column is of dtype [float64] or of dtype [object]. *)
Inductive column : Type :=
| FloatCol (vs : list T)
| ObjCol (vs : list pyobject).

Definition col_length (c : column) : nat :=
  match c with
  | FloatCol vs => List.length vs
  | ObjCol vs => List.length vs
  end.

Definition col_nth (c : column) (i : nat) : option pyobject :=
  match c with
  | FloatCol vs => option_map OFloat (nth_error vs i)
  | ObjCol vs => nth_error vs i
  end.

Record frame : Type := {
  index : nat;
  columns : dict column
}.

Definition cell (f : frame) (i : nat) (k : string) : option pyobject :=
  match dict_get (columns f) k with
  | Some c => col_nth c i
  | None => None
  end.

Definition all_none (vals : list (option (option T))) : bool :=
  forallb (fun v => match v with Some None => true | _ => false end) vals.

(** [frame[k]] *)
Definition getitem (f : frame) (k : string) : result column :=
  match dict_get (columns f) k with
  | Some c => Ok c
  | None => Raise KeyError
  end.

(** A column name is recognized when it is a value of [df_ap['AP']]. *)
Definition recognized (df_ap : ap_frame) (k : string) : bool :=
  str_in k (map AP df_ap).

(** The last row of the registry carrying a name. *)
Definition registry_lookup (ap_df : ap_frame) (k : string)
  : option access_point :=
  find (fun row => String.eqb (AP row) k) (rev ap_df).

(** A fallible change of a column, applied to an entry of the table of
    columns. *)
Definition entryM (g : string -> column -> result column)
    (kc : string * column) : result (string * column) :=
  (c <- g (fst kc) (snd kc) ;; Ok (fst kc, c))%result.

(** The four assignments that end [expected_rssi]. *)
Definition attach_identity (df_test : points_frame) (cs : dict column)
  : dict column :=
  dict_set
    (dict_set
       (dict_set
          (dict_set cs "LABEL"
             (ObjCol (map (fun p => OStr (LABEL p)) (df_rows df_test))))
          "DEVICE"
          (ObjCol (map (fun p => OStr (DEVICE p)) (df_rows df_test))))
       "X" (FloatCol (map X (df_rows df_test))))
    "Y" (FloatCol (map Y (df_rows df_test))).

Definition frame_wf (f : frame) : Prop :=
  Forall (fun kc => col_length (snd kc) = index f) (columns f).

End Tables.

Arguments LABEL {T} p.
Arguments DEVICE {T} p.
Arguments X {T} p.
Arguments Y {T} p.
Arguments df_columns {T} p.
Arguments df_rows {T} p.
Arguments AP {T} a.
Arguments ap_x {T} a.
Arguments ap_y {T} a.
Arguments rho_0 {T} l.
Arguments alpha {T} l.
Arguments wap_columns {T} df.
Arguments ap_coords {T} waps ap_df.
Arguments ONone {T}.
Arguments OFloat {T} f.
Arguments OStr {T} s.
Arguments FloatCol {T} vs.
Arguments ObjCol {T} vs.
Arguments col_length {T} c.
Arguments col_nth {T} c i.
Arguments index {T} f.
Arguments columns {T} f.
Arguments cell {T} f i k.
Arguments all_none {T} vals.
Arguments getitem {T} f k.
Arguments recognized {T} df_ap k.
Arguments registry_lookup {T} ap_df k.
Arguments entryM {T} g kc.
Arguments attach_identity {T} df_test cs.
Arguments frame_wf {T} f.

Section Program.

Variable A : arith.

(** [((px - ap_x) ** 2 + (py - ap_y) ** 2 + H ** 2) ** 0.5]: the three
    powers are taken from left to right, and the first that raises ends the
    evaluation. *)
Definition euclid (px py ax ay H : num A) : result (num A) :=
  (sx <- square A (sub A px ax) ;;
   sy <- square A (sub A py ay) ;;
   sh <- square A H ;;
   root A (add A (add A sx sy) sh))%result.

(** The inner loop: one distance mapping. *)
Definition row_distances (waps : list string)
    (coords : dict (num A * num A)) (H : num A) (row : point (num A))
  : result (dict (option (num A))) :=
  foldM
    (fun distances wap_name =>
       match dict_get coords wap_name with
       | Some (ax, ay) =>
           (distance <- euclid (X row) (Y row) ax ay H ;;
            Ok (dict_set distances wap_name (Some (round2 A distance))))%result
       | None => Ok (dict_set distances wap_name None)
       end)
    waps [].

Definition get_distances (df : points_frame (num A))
    (ap_df : ap_frame (num A)) (H : num A)
  : result (list (dict (option (num A)))) :=
  let waps := wap_columns df in
  let coords := ap_coords waps ap_df in
  foldM
    (fun distances_list row =>
       (distances <- row_distances waps coords H row ;;
        Ok (distances_list ++ [distances]))%result)
    (df_rows df) [].

Definition float_of_entry (v : option (option (num A))) : num A :=
  match v with
  | Some (Some f) => f
  | _ => nan A
  end.

Definition column_of (ds : list (dict (option (num A)))) (k : string)
  : column (num A) :=
  let vals := map (fun d => dict_get d k) ds in
  if all_none vals
  then ObjCol (map (fun _ => ONone) vals)
  else FloatCol (map float_of_entry vals).

(** [pd.DataFrame(distances)] *)
Definition DataFrame (ds : list (dict (option (num A)))) : frame (num A) :=
  {| index := List.length ds;
     columns := map (fun k => (k, column_of ds k)) (union_keys ds) |}.

Definition reindex_empty (n : nat) (c : column (num A)) : column (num A) :=
  match c with
  | FloatCol _ => FloatCol (repeat (nan A) n)
  | ObjCol _ => ObjCol (repeat (OFloat (nan A)) n)
  end.

Definition ensure_valid_index (f : frame (num A)) (n : nat) : frame (num A) :=
  if (index f =? 0)%nat && negb (n =? 0)%nat
  then {| index := n;
          columns := map (fun kc => (fst kc, reindex_empty n (snd kc)))
                         (columns f) |}
  else f.

(** [frame[k] = values] *)
Definition setitem (f : frame (num A)) (k : string) (v : column (num A))
  : result (frame (num A)) :=
  let f' := ensure_valid_index f (col_length v) in
  if (col_length v =? index f')%nat
  then Ok {| index := index f'; columns := dict_set (columns f') k v |}
  else Raise ValueError.

(** [np.log10] of a column. *)
Definition series_log10 (c : column (num A)) : result (column (num A)) :=
  match c with
  | FloatCol vs => Ok (FloatCol (map (log10 A) vs))
  | ObjCol _ => Raise TypeError
  end.

(** [- rho_0 - 10 * alpha * s], element by element: [- rho_0] and
    [10 * alpha] are numbers, the product and the difference are taken with
    every element. *)
Definition path_loss (log_params : LogParams (num A)) (l : num A) : num A :=
  sub A (neg A (rho_0 log_params))
        (mul A (mul A (of_int A 10) (alpha log_params)) l).

Definition series_path_loss (log_params : LogParams (num A))
    (c : column (num A)) : result (column (num A)) :=
  match c with
  | FloatCol vs => Ok (FloatCol (map (path_loss log_params) vs))
  | ObjCol _ => Raise TypeError
  end.

(** [s.round(2)] *)
Definition series_round2 (c : column (num A)) : result (column (num A)) :=
  match c with
  | FloatCol vs => Ok (FloatCol (map (rint2 A) vs))
  | ObjCol _ => Raise TypeError
  end.

(** The body of the loop over the columns of [rssi_df]. *)
Definition rssi_step (log_params : LogParams (num A))
    (df_ap : ap_frame (num A)) (rssi_df : frame (num A)) (wap : string)
  : result (frame (num A)) :=
  if str_in wap (map AP df_ap)
  then (s <- getitem rssi_df wap ;;
        l <- series_log10 s ;;
        v <- series_path_loss log_params l ;;
        rssi_df <- setitem rssi_df wap v ;;
        s <- getitem rssi_df wap ;;
        r <- series_round2 s ;;
        setitem rssi_df wap r)%result
  else Ok rssi_df.

(** [frame.clip(lower=..., upper=None)] *)
Definition clip_float (lower v : num A) : num A :=
  if is_nan A v || ge A v lower then v else lower.

Definition clip_object (lower : num A) (o : pyobject (num A))
  : result (pyobject (num A)) :=
  match o with
  | ONone => Ok ONone
  | OFloat v => Ok (OFloat (clip_float lower v))
  | OStr _ => Raise TypeError
  end.

Definition clip_column (lower : num A) (c : column (num A))
  : result (column (num A)) :=
  match c with
  | FloatCol vs => Ok (FloatCol (map (clip_float lower) vs))
  | ObjCol vs => (os <- mapM (clip_object lower) vs ;; Ok (ObjCol os))%result
  end.

Definition frame_clip (lower : num A) (f : frame (num A))
  : result (frame (num A)) :=
  (cs <- mapM (fun kc => c <- clip_column lower (snd kc) ;; Ok (fst kc, c))
              (columns f) ;;
   Ok {| index := index f; columns := cs |})%result.

(** The loop [for wap in rssi_df.columns]. *)
Definition convert_columns (log_params : LogParams (num A))
    (df_ap : ap_frame (num A)) (rssi_df : frame (num A))
  : result (frame (num A)) :=
  foldM (rssi_step log_params df_ap) (keys (columns rssi_df)) rssi_df.

(** [expected_rssi], with the module-level [df_test] as first argument. *)
Definition expected_rssi (df_test : points_frame (num A))
    (distances : list (dict (option (num A)))) (df_ap : ap_frame (num A))
    (log_params : LogParams (num A)) : result (frame (num A)) :=
  let rssi_df := DataFrame distances in
  (rssi_df <- convert_columns log_params df_ap rssi_df ;;
   rssi_df <- frame_clip (of_int A (-100)) rssi_df ;;
   rssi_df <- setitem rssi_df "LABEL"
                (ObjCol (map (fun p => OStr (LABEL p)) (df_rows df_test))) ;;
   rssi_df <- setitem rssi_df "DEVICE"
                (ObjCol (map (fun p => OStr (DEVICE p)) (df_rows df_test))) ;;
   rssi_df <- setitem rssi_df "X" (FloatCol (map X (df_rows df_test))) ;;
   setitem rssi_df "Y" (FloatCol (map Y (df_rows df_test))))%result.

(** The three steps of the loop on one distance: [np.log10], the path-loss
    arithmetic, [round(2)]. *)
Definition rssi_of_distance (log_params : LogParams (num A)) (d : num A)
  : num A :=
  rint2 A (path_loss log_params (log10 A d)).

(** What the loop does to a recognized column, in one step. *)
Definition convert_column (log_params : LogParams (num A))
    (c : column (num A)) : result (column (num A)) :=
  match c with
  | FloatCol vs => Ok (FloatCol (map (rssi_of_distance log_params) vs))
  | ObjCol _ => Raise TypeError
  end.

Definition convert_named (log_params : LogParams (num A))
    (df_ap : ap_frame (num A)) (k : string) (c : column (num A))
  : result (column (num A)) :=
  if recognized df_ap k then convert_column log_params c else Ok c.

(** The clip of a cell of any column. *)
Definition clip_cell (lower : num A) (o : pyobject (num A))
  : pyobject (num A) :=
  match o with
  | OFloat v => OFloat (clip_float lower v)
  | _ => o
  end.

(** The entry [row_distances] writes under a column: the rounded distance
    to the registered coordinates, [None] without them. *)
Definition distance_entry (coords : dict (num A * num A)) (H : num A)
    (row : point (num A)) (k : string) : result (option (num A)) :=
  match dict_get coords k with
  | Some (ax, ay) =>
      (distance <- euclid (X row) (Y row) ax ay H ;;
       Ok (Some (round2 A distance)))%result
  | None => Ok None
  end.

End Program.

End Num.

(** *** The doubles

    A Python float and an element of a [float64] column are IEEE binary64
    values: the primitive floats, whose operations are correctly rounded to
    nearest, ties to even.  What the C library contributes is a parameter:
    [pow], which CPython calls for [**] (here with the exponents 2.0 and
    0.5), and [log10], which numpy calls. *)

Record libm : Type := {
  pow_2 : float -> float;
  pow_half : float -> float;
  c_log10 : float -> float
}.

Module B64.

(** [float_pow] of CPython at the exponent 2.0 ([x ** 2]): the special cases
    are sorted out before the library is called (a nan is returned as it is,
    an infinity gives [+inf], a zero gives [+0.0]); a negative base is
    replaced by its absolute value, the exponent being an even integer; 1
    gives 1; otherwise the result is that of [pow], and [OverflowError] is
    raised when it is infinite.  An underflow to zero is not an error. *)
Definition float_pow_2 (m : libm) (iv : float) : result float :=
  if PrimFloat.is_nan iv then Ok iv
  else if PrimFloat.is_infinity iv then Ok PrimFloat.infinity
  else if PrimFloat.eqb iv PrimFloat.zero then Ok PrimFloat.zero
  else
    let iv := PrimFloat.abs iv in
    if PrimFloat.eqb iv PrimFloat.one then Ok PrimFloat.one
    else
      let ix := pow_2 m iv in
      if PrimFloat.is_infinity ix then Raise OverflowError else Ok ix.

(** [float_pow] at the exponent 0.5 ([x ** 0.5]).  On a negative finite base
    the power is a complex number, on which [round(distance, 2)] of the next
    line raises [TypeError]. *)
Definition float_pow_half (m : libm) (iv : float) : result float :=
  if PrimFloat.is_nan iv then Ok iv
  else if PrimFloat.is_infinity iv then Ok PrimFloat.infinity
  else if PrimFloat.eqb iv PrimFloat.zero then Ok PrimFloat.zero
  else if PrimFloat.ltb iv PrimFloat.zero then Raise TypeError
  else if PrimFloat.eqb iv PrimFloat.one then Ok PrimFloat.one
  else
    let ix := pow_half m iv in
    if PrimFloat.is_infinity ix then Raise OverflowError else Ok ix.

(** The integer nearest to [n / d], ties to the even one ([0 < d]). *)
Definition half_even (n d : Z) : Z :=
  let q := (n / d)%Z in
  let r := (n mod d)%Z in
  match (2 * r ?= d)%Z with
  | Lt => q
  | Gt => (q + 1)%Z
  | Eq => if Z.even q then q else (q + 1)%Z
  end.

(** [round(x, 2)] of a Python float: the exact value of the double is
    rounded to two decimals, ties to even, and the double nearest to that
    decimal number is returned (CPython prints the double with two digits
    and reads the string back, both correctly rounded).  A nan, an infinity
    and a zero are returned as they are, and so is a double whose exponent
    is not negative, which is an integer.  The sign is kept on a result
    that is zero. *)
Definition py_round2 (x : float) : float :=
  match Prim2SF x with
  | S754_finite s m e =>
      if (0 <=? e)%Z then x
      else
        match half_even (100 * Z.pos m) (2 ^ (- e)) with
        | Z.pos p =>
            SF2Prim (SF64div (S754_finite s p 0) (S754_finite false 100 0))
        | _ => if s then PrimFloat.opp PrimFloat.zero else PrimFloat.zero
        end
  | _ => x
  end.

(** [rint] of C in the default rounding mode: the nearest integer, ties to
    the even one, with the sign of the argument.  Below 2^52 in absolute
    value, adding and subtracting 2^52 rounds to an integer; from 2^52 on
    every double is an integer. *)
Definition rint (x : float) : float :=
  if PrimFloat.is_nan x || PrimFloat.is_infinity x then x
  else if PrimFloat.leb 0x1p52%float (PrimFloat.abs x) then x
  else
    let r := PrimFloat.sub (PrimFloat.add (PrimFloat.abs x) 0x1p52%float)
                           0x1p52%float in
    if PrimFloat.get_sign x then PrimFloat.opp r else r.

(** [Series.round(2)], which is [ndarray.round(2)] of numpy: the elements
    are multiplied by 100.0, rounded by [rint], and divided by 100.0, each
    step a binary64 operation. *)
Definition np_round2 (x : float) : float :=
  PrimFloat.div (rint (PrimFloat.mul x 100%float)) 100%float.

(** An integer literal as a float: the nearest double. *)
Definition of_int (z : Z) : float :=
  SF2Prim (binary_normalize FloatOps.prec FloatOps.emax z 0 false).

(** The exact value of a finite double. *)
Definition exact (x : float) : option Q :=
  match Prim2SF x with
  | S754_zero _ => Some (0 # 1)%Q
  | S754_finite s m e =>
      Some ((if s then (-1 # 1) else (1 # 1)) * inject_Z (Z.pos m) * 2 ^ e)%Q
  | _ => None
  end.

End B64.

(** The arithmetic of the doubles.  [np.log10] is [log10] of the library;
    [>=] is false on a nan. *)
Definition binary64 (m : libm) : Num.arith :=
  {| Num.num := float;
     Num.nan := PrimFloat.nan;
     Num.of_int := B64.of_int;
     Num.is_nan := PrimFloat.is_nan;
     Num.ge := fun a b => PrimFloat.leb b a;
     Num.neg := PrimFloat.opp;
     Num.add := PrimFloat.add;
     Num.sub := PrimFloat.sub;
     Num.mul := PrimFloat.mul;
     Num.square := B64.float_pow_2 m;
     Num.root := B64.float_pow_half m;
     Num.round2 := B64.py_round2;
     Num.log10 := c_log10 m;
     Num.rint2 := B64.np_round2 |}.

(** A library for the examples.  [pow] at the exponents 2.0 and 0.5 is the
    correctly rounded square and square root.  [log10] is computed in
    integers: the argument is [m * 2 ^ e] with [m] scaled into [1, 2), the
    binary logarithm of [m] is developed to 120 fractional bits by repeated
    squaring on 256 fractional bits, multiplied by [log10(2)] (given to 128
    fractional bits), and the product is rounded to the nearest double; a
    zero gives [-inf], [+inf] gives [+inf], a nan or a negative argument
    gives nan.  The library of a platform may differ from this one in the
    last place of a result that is not exact; the examples below evaluate
    [log10] at 1.0 and 10.0, and the general statements hold for every
    library. *)
Fixpoint log2_bits (n : nat) (M acc : Z) : Z :=
  match n with
  | O => acc
  | S n' =>
      let M2 := Z.shiftr (M * M) 256 in
      if (2 ^ 257 <=? M2)%Z
      then log2_bits n' (Z.shiftr M2 1) (2 * acc + 1)
      else log2_bits n' M2 (2 * acc)
  end.

(** [floor (log10(2) * 2 ^ 128)] *)
Definition log10_2 : Z := 102435199438739363750012109250103232700.

Definition log10_ref (x : float) : float :=
  match Prim2SF x with
  | S754_zero _ => PrimFloat.neg_infinity
  | S754_infinity false => PrimFloat.infinity
  | S754_finite false m e =>
      let k := Z.log2 (Z.pos m) in
      let M := Z.shiftl (Z.pos m) (256 - k) in
      let L := ((e + k) * 2 ^ 120 + log2_bits 120 M 0)%Z in
      SF2Prim (binary_normalize FloatOps.prec FloatOps.emax
                 (L * log10_2) (- (120 + 128)) false)
  | _ => PrimFloat.nan
  end.

Definition libm_ref : libm :=
  {| pow_2 := fun x => PrimFloat.mul x x;
     pow_half := PrimFloat.sqrt;
     c_log10 := log10_ref |}.

(** *** Sample tables of doubles *)

Definition point_at (x y : float) : Num.points_frame float :=
  {| Num.df_columns := ["LABEL"; "DEVICE"; "X"; "Y"; "WAP001"; "WAP002"]%string;
     Num.df_rows := [ {| Num.LABEL := "hall"; Num.DEVICE := "phone";
                         Num.X := x; Num.Y := y |} ] |}.

Definition ap_at (x y : float) : Num.ap_frame float :=
  [ {| Num.AP := "WAP001"; Num.ap_x := x; Num.ap_y := y |} ].

Definition params (r a : float) : Num.LogParams float :=
  {| Num.rho_0 := r; Num.alpha := a |}.


(** The exact sum of the three squares under the root of a distance, on
    finite doubles. *)
Definition exact_squares (px py ax ay h : float) : option Q :=
  match B64.exact px, B64.exact py, B64.exact ax, B64.exact ay,
        B64.exact h with
  | Some qx, Some qy, Some rx, Some ry, Some qh =>
      Some ((qx - rx) ^ 2 + (qy - ry) ^ 2 + qh ^ 2)%Q
  | _, _, _, _, _ => None
  end.


(** A point with a missing first coordinate, on the doubles. *)
Definition lost_at (y : float) : Num.points_frame float :=
  {| Num.df_columns := ["LABEL"; "DEVICE"; "X"; "Y"; "WAP001"; "WAP002"]%string;
     Num.df_rows := [ {| Num.LABEL := "lost"; Num.DEVICE := "phone";
                         Num.X := PrimFloat.nan; Num.Y := y |} ] |}.

(** ** Real numbers: rounding, roots and logarithms *)




(** [Rrint] is within one half of its argument. *)
Lemma Rrint_close (x : R) : Rabs (IZR (Rrint x) - x) <= 1 / 2.
Proof.
  unfold Rrint.
  pose proof (base_Int_part x) as [Hlo Hhi].
  destruct (total_order_T (x - IZR (Int_part x)) (1 / 2)) as [[H | H] | H].
  - apply Rabs_le. lra.
  - destruct (Z.even (Int_part x)).
    + apply Rabs_le. lra.
    + rewrite plus_IZR. apply Rabs_le. lra.
  - rewrite plus_IZR. apply Rabs_le. lra.
Qed.

(** [Rround2] yields a multiple of one hundredth within half a hundredth of
    its argument. *)
Lemma Rround2_spec (x : R) :
  (exists z : Z, Rround2 x = IZR z / 100) /\ Rabs (Rround2 x - x) <= 1 / 200.
Proof.
  split.
  - exists (Rrint (x * 100)). reflexivity.
  - unfold Rround2. pose proof (Rrint_close (x * 100)) as H.
    unfold Rabs in *.
    destruct (Rcase_abs (IZR (Rrint (x * 100)) - x * 100));
      destruct (Rcase_abs (IZR (Rrint (x * 100)) / 100 - x)); lra.
Qed.

Lemma ln_10_pos : 0 < ln 10.
Proof.
  rewrite <- ln_1. apply ln_increasing; lra.
Qed.

Lemma Rlog10_pow (n : nat) : Rlog10 (10 ^ n) = INR n.
Proof.
  unfold Rlog10. pose proof ln_10_pos.
  induction n as [| n IH].
  - simpl. rewrite ln_1. field. lra.
  - assert (0 < 10 ^ n) by (apply pow_lt; lra).
    rewrite S_INR. simpl pow. rewrite ln_mult by lra.
    unfold Rdiv in *. rewrite Rmult_plus_distr_r, IH. field. lra.
Qed.

Lemma Rsign_pos (r : R) : 0 < r -> Rsign r = Pos.
Proof.
  intros H. unfold Rsign.
  destruct (total_order_T r 0) as [[H' | H'] | H']; try reflexivity; exfalso; lra.
Qed.


Lemma Rsign_neg (r : R) : r < 0 -> Rsign r = Neg.
Proof.
  intros H. unfold Rsign.
  destruct (total_order_T r 0) as [[H' | H'] | H']; try reflexivity; exfalso; lra.
Qed.

(** The sum under the root in [get_distances] is never a negative number. *)
Lemma sum_squares_not_negative (a b c : pyfloat) :
  match fadd (fadd (fsquare a) (fsquare b)) (fsquare c) with
  | Fin r => 0 <= r
  | NInf => False
  | PInf | NaN => True
  end.
Proof.
  destruct a, b, c; simpl; try exact I. nra.
Qed.

(** ** Dictionaries *)

Lemma str_in_In (k : string) (l : list string) : str_in k l = true <-> In k l.
Proof.
  unfold str_in. rewrite existsb_exists. split.
  - intros [x [Hin Heq]]. apply String.eqb_eq in Heq. now subst.
  - intros Hin. exists k. split; [assumption | apply String.eqb_refl].
Qed.

Lemma str_in_false (k : string) (l : list string) :
  str_in k l = false <-> ~ In k l.
Proof.
  rewrite <- str_in_In. destruct (str_in k l); split; congruence.
Qed.

Lemma str_in_app (k : string) (l1 l2 : list string) :
  str_in k (l1 ++ l2) = str_in k l1 || str_in k l2.
Proof. unfold str_in. apply existsb_app. Qed.

Lemma dict_get_set {V : Type} (d : dict V) (k k' : string) (v : V) :
  dict_get (dict_set d k v) k' =
  if String.eqb k' k then Some v else dict_get d k'.
Proof.
  induction d as [| [k0 v0] d IH]; simpl.
  - reflexivity.
  - destruct (String.eqb k k0) eqn:Ek; simpl.
    + apply String.eqb_eq in Ek. subst k0.
      destruct (String.eqb k' k); reflexivity.
    + rewrite IH. destruct (String.eqb k' k0) eqn:Ek0; [| reflexivity].
      apply String.eqb_eq in Ek0. subst k0.
      rewrite String.eqb_sym, Ek. reflexivity.
Qed.

Lemma keys_dict_set {V : Type} (d : dict V) (k : string) (v : V) :
  keys (dict_set d k v) = add_key (keys d) k.
Proof.
  unfold add_key, keys.
  induction d as [| [k0 v0] d IH]; simpl.
  - reflexivity.
  - destruct (String.eqb k k0) eqn:Ek; simpl.
    + reflexivity.
    + rewrite IH. destruct (str_in k (map fst d)); reflexivity.
Qed.

Lemma dict_get_keys {V : Type} (d : dict V) (k : string) :
  dict_get d k = None <-> ~ In k (keys d).
Proof.
  unfold keys. induction d as [| [k0 v0] d IH]; simpl.
  - tauto.
  - destruct (String.eqb k k0) eqn:Ek.
    + apply String.eqb_eq in Ek. subst. split; [discriminate | tauto].
    + apply String.eqb_neq in Ek. rewrite IH. split.
      * intros Hn [Heq | Hin]; [congruence | tauto].
      * tauto.
Qed.

(** Lookup in a table built from a list of keys. *)
Lemma dict_get_map {V : Type} (g : string -> V) (l : list string) (k : string) :
  dict_get (map (fun k0 => (k0, g k0)) l) k =
  if str_in k l then Some (g k) else None.
Proof.
  induction l as [| k0 l IH]; simpl.
  - reflexivity.
  - destruct (String.eqb k k0) eqn:Ek; simpl.
    + apply String.eqb_eq in Ek. now subst.
    + exact IH.
Qed.

Lemma add_key_NoDup (acc : list string) (k : string) :
  NoDup acc -> NoDup (add_key acc k).
Proof.
  intros Hnd. unfold add_key. destruct (str_in k acc) eqn:E; [assumption |].
  apply str_in_false in E.
  apply NoDup_app; [assumption | repeat constructor; simpl; tauto |].
  intros a Ha [Heq | []]. now subst.
Qed.

Lemma fold_add_key_NoDup (ks acc : list string) :
  NoDup acc -> NoDup (fold_left add_key ks acc).
Proof.
  revert acc. induction ks as [| k ks IH]; simpl; intros acc Hnd.
  - assumption.
  - apply IH. now apply add_key_NoDup.
Qed.

Lemma union_keys_NoDup {V : Type} (ds : list (dict V)) : NoDup (union_keys ds).
Proof.
  unfold union_keys.
  assert (H : forall acc, NoDup acc ->
            NoDup (fold_left
                     (fun acc d => fold_left add_key (keys d) acc) ds acc)).
  { induction ds as [| d ds IH]; simpl; intros acc Hnd.
    - assumption.
    - apply IH. now apply fold_add_key_NoDup. }
  apply H. constructor.
Qed.

Lemma str_in_add_key (acc : list string) (k k' : string) :
  str_in k' (add_key acc k) = str_in k' acc || String.eqb k' k.
Proof.
  unfold add_key. destruct (str_in k acc) eqn:E.
  - destruct (String.eqb k' k) eqn:Ek.
    + apply String.eqb_eq in Ek. subst. rewrite E. reflexivity.
    + now rewrite orb_false_r.
  - rewrite str_in_app. simpl. now rewrite orb_false_r.
Qed.

Lemma str_in_fold_add_key (ks acc : list string) (k : string) :
  str_in k (fold_left add_key ks acc) = str_in k acc || str_in k ks.
Proof.
  revert acc. induction ks as [| k0 ks IH]; simpl; intros acc.
  - now rewrite orb_false_r.
  - rewrite IH, str_in_add_key. now rewrite orb_assoc.
Qed.

Lemma str_in_union_keys {V : Type} (ds : list (dict V)) (k : string) :
  str_in k (union_keys ds) = existsb (fun d => str_in k (keys d)) ds.
Proof.
  unfold union_keys.
  assert (H : forall acc,
            str_in k (fold_left
                        (fun acc d => fold_left add_key (keys d) acc) ds acc)
            = str_in k acc || existsb (fun d => str_in k (keys d)) ds).
  { induction ds as [| d ds IH]; simpl; intros acc.
    - now rewrite orb_false_r.
    - rewrite IH, str_in_fold_add_key. now rewrite orb_assoc. }
  rewrite H. reflexivity.
Qed.

(** ** get_distances, value by value *)

Lemma fold_left_snoc {A B : Type} (f : A -> B) (l : list A) (acc : list B) :
  fold_left (fun acc a => acc ++ [f a]) l acc = acc ++ map f l.
Proof.
  revert acc. induction l as [| a l IH]; simpl; intros acc.
  - now rewrite app_nil_r.
  - rewrite IH, <- app_assoc. reflexivity.
Qed.

Lemma get_distances_map (df : points_frame) (ap_df : ap_frame) (H : pyfloat) :
  get_distances df ap_df H =
  map (row_distances (wap_columns df)
                     (ap_coords (wap_columns df) ap_df) H)
      (df_rows df).
Proof.
  unfold get_distances. now rewrite fold_left_snoc.
Qed.

Lemma row_distances_get (waps : list string)
    (coords : dict (pyfloat * pyfloat)) (H : pyfloat) (row : point)
    (k : string) :
  dict_get (row_distances waps coords H row) k =
  if str_in k waps then Some (distance_entry coords H row k) else None.
Proof.
  unfold row_distances.
  change (@None (option pyfloat)) with (dict_get (@nil (string * option pyfloat)) k).
  generalize (@nil (string * option pyfloat)) as acc.
  induction waps as [| w waps IH]; simpl; intros acc.
  - reflexivity.
  - rewrite IH. destruct (str_in k waps) eqn:Ein.
    + now rewrite orb_true_r.
    + rewrite orb_false_r. unfold distance_entry.
      destruct (String.eqb k w) eqn:Ek.
      * apply String.eqb_eq in Ek. subst w.
        destruct (dict_get coords k) as [[ax ay] |];
          rewrite dict_get_set, String.eqb_refl; reflexivity.
      * destruct (dict_get coords w) as [[ax ay] |];
          rewrite dict_get_set, Ek; reflexivity.
Qed.

Lemma keys_row_distances (waps : list string)
    (coords : dict (pyfloat * pyfloat)) (H : pyfloat) (row : point) :
  keys (row_distances waps coords H row) = fold_left add_key waps [].
Proof.
  unfold row_distances.
  change (@nil string) with (keys (@nil (string * option pyfloat))).
  generalize (@nil (string * option pyfloat)) as acc.
  induction waps as [| w waps IH]; simpl; intros acc.
  - reflexivity.
  - rewrite IH. f_equal.
    destruct (dict_get coords w) as [[ax ay] |]; apply keys_dict_set.
Qed.

Lemma ap_coords_get (waps : list string) (ap_df : ap_frame) (k : string) :
  dict_get (ap_coords waps ap_df) k =
  if str_in k waps
  then option_map (fun ap => (ap_x ap, ap_y ap)) (registry_lookup ap_df k)
  else None.
Proof.
  unfold ap_coords, registry_lookup.
  induction ap_df as [| row ap_df IH] using rev_ind.
  - simpl. destruct (str_in k waps); reflexivity.
  - rewrite fold_left_app, rev_app_distr. simpl.
    destruct (String.eqb (AP row) k) eqn:Ek.
    + apply String.eqb_eq in Ek. subst k.
      destruct (str_in (AP row) waps) eqn:Ein.
      * rewrite dict_get_set, String.eqb_refl. reflexivity.
      * rewrite IH. reflexivity.
    + destruct (str_in (AP row) waps) eqn:Ein.
      * rewrite dict_get_set, String.eqb_sym, Ek. exact IH.
      * exact IH.
Qed.

Lemma registry_lookup_recognized (ap_df : ap_frame) (k : string) :
  recognized ap_df k = true <-> registry_lookup ap_df k <> None.
Proof.
  unfold recognized, registry_lookup. rewrite str_in_In, in_map_iff. split.
  - intros [ap [Hk Hin]] Hnone.
    apply in_rev in Hin.
    pose proof (find_none _ _ Hnone ap Hin) as Hf. simpl in Hf.
    subst k. rewrite String.eqb_refl in Hf. discriminate.
  - intros Hsome.
    destruct (find (fun row => String.eqb (AP row) k) (rev ap_df)) as [ap |] eqn:E;
      [| congruence].
    apply find_some in E. destruct E as [Hin Heq].
    apply String.eqb_eq in Heq. exists ap. split; [assumption |].
    now apply in_rev.
Qed.

Lemma registry_lookup_name (ap_df : ap_frame) (k : string) (ap : access_point) :
  registry_lookup ap_df k = Some ap -> AP ap = k /\ In ap ap_df.
Proof.
  unfold registry_lookup. intros E. apply find_some in E.
  destruct E as [Hin Heq]. apply String.eqb_eq in Heq.
  split; [assumption | now apply in_rev].
Qed.

(** ** Frames *)


Lemma mapM_nth {A B : Type} (f : A -> result B) (l : list A) (l' : list B)
    (i : nat) (a : A) :
  mapM f l = Ok l' -> nth_error l i = Some a ->
  exists b, f a = Ok b /\ nth_error l' i = Some b.
Proof.
  revert l' i. induction l as [| a0 l IH]; simpl; intros l' i E Hn.
  - destruct i; discriminate.
  - destruct (f a0) as [b0 | e] eqn:E0; simpl in E; [| discriminate].
    destruct (mapM f l) as [bs | e]; simpl in E; [| discriminate].
    inversion E. subst l'. destruct i as [| i]; simpl in *.
    + inversion Hn. subst a0. exists b0. auto.
    + now apply IH.
Qed.

(** Lookup through a change of the columns that keeps their names. *)
Lemma mapM_entry_get (g : string -> column -> result column)
    (cs cs' : dict column) (k : string) :
  mapM (entryM g) cs = Ok cs' ->
  match dict_get cs k with
  | Some c => exists c', g k c = Ok c' /\ dict_get cs' k = Some c'
  | None => dict_get cs' k = None
  end.
Proof.
  revert cs'. induction cs as [| [k0 c0] cs IH]; simpl; intros cs' E.
  - inversion E. reflexivity.
  - unfold entryM at 1 in E. simpl in E.
    destruct (g k0 c0) as [c0' | e] eqn:E0; simpl in E; [| discriminate].
    destruct (mapM (entryM g) cs) as [cs0 | e]; simpl in E; [| discriminate].
    inversion E. subst cs'. simpl.
    destruct (String.eqb k k0) eqn:Ek.
    + apply String.eqb_eq in Ek. subst k0. exists c0'. auto.
    + now apply IH.
Qed.

Lemma mapM_entry_keys (g : string -> column -> result column)
    (cs cs' : dict column) :
  mapM (entryM g) cs = Ok cs' -> keys cs' = keys cs.
Proof.
  revert cs'. induction cs as [| [k0 c0] cs IH]; simpl; intros cs' E.
  - inversion E. reflexivity.
  - unfold entryM at 1 in E. simpl in E.
    destruct (g k0 c0) as [c0' | e]; simpl in E; [| discriminate].
    destruct (mapM (entryM g) cs) as [cs0 | e]; simpl in E; [| discriminate].
    inversion E. simpl. f_equal. now apply IH.
Qed.


Lemma col_length_column_of (ds : list (dict (option pyfloat))) (k : string) :
  col_length (column_of ds k) = List.length ds.
Proof.
  unfold column_of.
  destruct (all_none (map (fun d => dict_get d k) ds)); simpl;
    now rewrite !length_map.
Qed.

Lemma DataFrame_wf (ds : list (dict (option pyfloat))) : frame_wf (DataFrame ds).
Proof.
  unfold frame_wf, DataFrame. simpl. apply Forall_forall.
  intros [k c] Hin. apply in_map_iff in Hin. destruct Hin as [k0 [E _]].
  inversion E. subst. simpl. apply col_length_column_of.
Qed.

Lemma keys_DataFrame (ds : list (dict (option pyfloat))) :
  keys (columns (DataFrame ds)) = union_keys ds.
Proof.
  unfold keys, DataFrame. simpl. rewrite map_map. simpl. apply map_id.
Qed.

Lemma ensure_valid_index_same (f : frame) :
  ensure_valid_index f (index f) = f.
Proof.
  unfold ensure_valid_index. destruct (index f =? 0)%nat; reflexivity.
Qed.

Lemma setitem_same_length (f : frame) (k : string) (v : column) :
  col_length v = index f ->
  setitem f k v = Ok {| index := index f; columns := dict_set (columns f) k v |}.
Proof.
  intros E. unfold setitem. rewrite E, ensure_valid_index_same.
  now rewrite Nat.eqb_refl.
Qed.

Lemma setitem_nonempty (f : frame) (k : string) (v : column) :
  index f <> 0%nat ->
  setitem f k v =
  if (col_length v =? index f)%nat
  then Ok {| index := index f; columns := dict_set (columns f) k v |}
  else Raise ValueError.
Proof.
  intros Hn. unfold setitem, ensure_valid_index.
  apply Nat.eqb_neq in Hn. rewrite Hn. reflexivity.
Qed.

Lemma setitem_empty_frame (k : string) (v : column) :
  setitem {| index := 0; columns := [] |} k v =
  Ok {| index := col_length v; columns := [(k, v)] |}.
Proof.
  unfold setitem, ensure_valid_index. simpl.
  destruct (col_length v) as [| n]; simpl.
  - reflexivity.
  - now rewrite Nat.eqb_refl.
Qed.

Lemma dict_get_app_fresh {V : Type} (done todo : dict V) (k : string) (v : V) :
  ~ In k (keys done) -> dict_get (done ++ (k, v) :: todo) k = Some v.
Proof.
  induction done as [| [k0 v0] done IH]; simpl; intros Hn.
  - now rewrite String.eqb_refl.
  - destruct (String.eqb k k0) eqn:Ek.
    + apply String.eqb_eq in Ek. subst. tauto.
    + apply IH. tauto.
Qed.

Lemma dict_set_app_fresh {V : Type} (done todo : dict V) (k : string) (v w : V) :
  ~ In k (keys done) ->
  dict_set (done ++ (k, v) :: todo) k w = done ++ (k, w) :: todo.
Proof.
  induction done as [| [k0 v0] done IH]; simpl; intros Hn.
  - now rewrite String.eqb_refl.
  - destruct (String.eqb k k0) eqn:Ek.
    + apply String.eqb_eq in Ek. subst. tauto.
    + f_equal. apply IH. tauto.
Qed.

(** One turn of the loop on a column of the frame. *)
Lemma rssi_step_column (lp : LogParams) (df_ap : ap_frame) (n : nat)
    (done todo : dict column) (k : string) (c : column) :
  ~ In k (keys done) -> col_length c = n ->
  rssi_step lp df_ap {| index := n; columns := done ++ (k, c) :: todo |} k =
  (c' <- convert_named lp df_ap k c ;;
   Ok {| index := n; columns := done ++ (k, c') :: todo |})%result.
Proof.
  intros Hfresh Hlen. unfold rssi_step, convert_named, recognized.
  destruct (str_in k (map AP df_ap)); [| reflexivity].
  unfold getitem at 1. simpl. rewrite dict_get_app_fresh by assumption. simpl.
  destruct c as [vs | vs]; simpl; [| reflexivity].
  rewrite setitem_same_length by (simpl in *; now rewrite !length_map).
  simpl. rewrite dict_set_app_fresh by assumption.
  unfold getitem. simpl. rewrite dict_get_app_fresh by assumption. simpl.
  rewrite setitem_same_length by (simpl in *; now rewrite !length_map).
  simpl. rewrite dict_set_app_fresh by assumption.
  rewrite !map_map. reflexivity.
Qed.

(** The loop over the columns, as one pass over the table of columns. *)
Lemma convert_loop (lp : LogParams) (df_ap : ap_frame) (n : nat)
    (todo done : dict column) :
  NoDup (keys (done ++ todo)) ->
  Forall (fun kc => col_length (snd kc) = n) (done ++ todo) ->
  foldM (rssi_step lp df_ap) (keys todo)
        {| index := n; columns := done ++ todo |} =
  (todo' <- mapM (entryM (convert_named lp df_ap)) todo ;;
   Ok {| index := n; columns := done ++ todo' |})%result.
Proof.
  revert done. induction todo as [| [k c] todo IH]; intros done Hnd Hall.
  - reflexivity.
  - assert (Hfresh : ~ In k (keys done)).
    { unfold keys in *. rewrite map_app in Hnd. simpl in Hnd.
      apply NoDup_remove_2 in Hnd. rewrite in_app_iff in Hnd. tauto. }
    assert (Hlen : col_length c = n).
    { rewrite Forall_app in Hall. destruct Hall as [_ Hall].
      inversion Hall. assumption. }
    simpl keys. simpl foldM. rewrite rssi_step_column by assumption.
    simpl mapM. unfold entryM at 1. simpl.
    destruct (convert_named lp df_ap k c) as [c' | e] eqn:Ec; simpl;
      [| reflexivity].
    replace (done ++ (k, c') :: todo) with ((done ++ [(k, c')]) ++ todo)
      by (now rewrite <- app_assoc).
    rewrite IH.
    + destruct (mapM (entryM (convert_named lp df_ap)) todo) as [todo' | e];
        simpl; [| reflexivity].
      now rewrite <- app_assoc.
    + unfold keys in *. rewrite <- app_assoc. simpl.
      rewrite !map_app in *. simpl in *. assumption.
    + rewrite <- app_assoc. simpl.
      rewrite Forall_app in *. destruct Hall as [H1 H2]. split; [assumption |].
      inversion H2; subst. constructor; [| assumption]. simpl.
      unfold convert_named in Ec.
      destruct (recognized df_ap k).
      * destruct c; simpl in Ec; inversion Ec. simpl. now rewrite length_map.
      * inversion Ec. reflexivity.
Qed.

Lemma convert_columns_closed (lp : LogParams) (df_ap : ap_frame)
    (ds : list (dict (option pyfloat))) :
  convert_columns lp df_ap (DataFrame ds) =
  (cs <- mapM (entryM (convert_named lp df_ap)) (columns (DataFrame ds)) ;;
   Ok {| index := List.length ds; columns := cs |})%result.
Proof.
  unfold convert_columns.
  pose proof (convert_loop lp df_ap (List.length ds)
                (columns (DataFrame ds)) []) as H.
  apply H.
  - change (NoDup (keys (columns (DataFrame ds)))).
    rewrite keys_DataFrame. apply union_keys_NoDup.
  - apply (DataFrame_wf ds).
Qed.

(** ** expected_rssi in closed form *)

Lemma frame_clip_closed (lower : pyfloat) (f : frame) :
  frame_clip lower f =
  (cs <- mapM (entryM (fun _ => clip_column lower)) (columns f) ;;
   Ok {| index := index f; columns := cs |})%result.
Proof. reflexivity. Qed.

Lemma identity_column_false (k : string) :
  identity_column k = false ->
  String.eqb k "LABEL" = false /\ String.eqb k "DEVICE" = false /\
  String.eqb k "X" = false /\ String.eqb k "Y" = false.
Proof.
  unfold identity_column, str_in. simpl. rewrite orb_false_r.
  intros H. repeat (apply orb_false_elim in H; destruct H as [? H]). auto.
Qed.

Lemma attach_identity_other (df_test : points_frame) (cs : dict column)
    (k : string) :
  identity_column k = false ->
  dict_get (attach_identity df_test cs) k = dict_get cs k.
Proof.
  intros H. apply identity_column_false in H. destruct H as [H1 [H2 [H3 H4]]].
  unfold attach_identity. rewrite !dict_get_set, H1, H2, H3, H4. reflexivity.
Qed.

Lemma attach_identity_cell (df_test : points_frame) (cs : dict column)
    (n i : nat) (k : string) :
  identity_column k = true ->
  cell {| index := n; columns := attach_identity df_test cs |} i k =
  identity_cell df_test i k.
Proof.
  unfold identity_column, str_in, cell, identity_cell, attach_identity. simpl.
  rewrite orb_false_r. intros H. rewrite !dict_get_set.
  destruct (String.eqb k "Y") eqn:E4.
  { apply String.eqb_eq in E4. subst k. simpl. rewrite nth_error_map.
    destruct (nth_error (df_rows df_test) i); reflexivity. }
  destruct (String.eqb k "X") eqn:E3.
  { apply String.eqb_eq in E3. subst k. simpl. rewrite nth_error_map.
    destruct (nth_error (df_rows df_test) i); reflexivity. }
  destruct (String.eqb k "DEVICE") eqn:E2.
  { apply String.eqb_eq in E2. subst k. simpl. rewrite nth_error_map.
    destruct (nth_error (df_rows df_test) i); reflexivity. }
  destruct (String.eqb k "LABEL") eqn:E1.
  { apply String.eqb_eq in E1. subst k. simpl. rewrite nth_error_map.
    destruct (nth_error (df_rows df_test) i); reflexivity. }
  discriminate.
Qed.

(** On an empty list of mappings the frame is empty and takes the index of
    the first column assigned to it. *)
Lemma expected_rssi_nil (df_test : points_frame) (df_ap : ap_frame)
    (lp : LogParams) :
  expected_rssi df_test [] df_ap lp =
  Ok {| index := List.length (df_rows df_test);
        columns := attach_identity df_test [] |}.
Proof.
  unfold expected_rssi, convert_columns, attach_identity. simpl.
  rewrite setitem_empty_frame. simpl.
  repeat (rewrite setitem_same_length by (simpl; now rewrite ?length_map);
          simpl).
  now rewrite length_map.
Qed.

Lemma expected_rssi_closed (df_test : points_frame)
    (ds : list (dict (option pyfloat))) (df_ap : ap_frame) (lp : LogParams) :
  ds <> [] ->
  expected_rssi df_test ds df_ap lp =
  (cs <- mapM (entryM (convert_named lp df_ap)) (columns (DataFrame ds)) ;;
   cs' <- mapM (entryM (fun _ => clip_column (Fin (-100)))) cs ;;
   if (List.length (df_rows df_test) =? List.length ds)%nat
   then Ok {| index := List.length ds;
              columns := attach_identity df_test cs' |}
   else Raise ValueError)%result.
Proof.
  intros Hne. unfold expected_rssi. rewrite convert_columns_closed.
  destruct (mapM (entryM (convert_named lp df_ap)) (columns (DataFrame ds)))
    as [cs | e]; simpl; [| reflexivity].
  rewrite frame_clip_closed. simpl.
  destruct (mapM (entryM (fun _ => clip_column (Fin (-100)))) cs)
    as [cs' | e]; simpl; [| reflexivity].
  assert (Hlen : List.length ds <> 0%nat) by (destruct ds; simpl; congruence).
  rewrite setitem_nonempty by exact Hlen. simpl. rewrite length_map.
  destruct (List.length (df_rows df_test) =? List.length ds)%nat eqn:E;
    simpl; [| reflexivity].
  apply Nat.eqb_eq in E.
  repeat (rewrite setitem_same_length by (simpl; now rewrite ?length_map);
          simpl).
  reflexivity.
Qed.

Lemma DataFrame_nil_columns (k : string) :
  dict_get (columns (DataFrame [])) k = None.
Proof. reflexivity. Qed.

(** A column of the distances, followed to the output. *)
Lemma expected_rssi_column (df_test : points_frame)
    (ds : list (dict (option pyfloat))) (df_ap : ap_frame) (lp : LogParams)
    (out : frame) (k : string) (c : column) :
  expected_rssi df_test ds df_ap lp = Ok out ->
  identity_column k = false ->
  dict_get (columns (DataFrame ds)) k = Some c ->
  exists c1 c2,
    convert_named lp df_ap k c = Ok c1 /\
    clip_column (Fin (-100)) c1 = Ok c2 /\
    dict_get (columns out) k = Some c2.
Proof.
  intros Hok Hid Hc.
  destruct ds as [| d ds]; [now rewrite DataFrame_nil_columns in Hc |].
  rewrite expected_rssi_closed in Hok by discriminate.
  destruct (mapM (entryM (convert_named lp df_ap))
                 (columns (DataFrame (d :: ds)))) as [cs | e] eqn:E1;
    simpl in Hok; [| discriminate].
  destruct (mapM (entryM (fun _ => clip_column (Fin (-100)))) cs)
    as [cs' | e] eqn:E2; simpl in Hok; [| discriminate].
  match type of Hok with
  | context [if ?b then _ else _] => destruct b; [| discriminate]
  end.
  inversion Hok. subst out. simpl.
  pose proof (mapM_entry_get _ _ _ k E1) as H1. rewrite Hc in H1.
  destruct H1 as [c1 [Hc1 Hg1]].
  pose proof (mapM_entry_get _ _ _ k E2) as H2. rewrite Hg1 in H2.
  destruct H2 as [c2 [Hc2 Hg2]].
  exists c1, c2. rewrite attach_identity_other by assumption. auto.
Qed.

Lemma mapM_clip_object_nth (lower : pyfloat) (vs os : list pyobject) (i : nat)
    (o : pyobject) :
  mapM (clip_object lower) vs = Ok os -> nth_error vs i = Some o ->
  nth_error os i = Some (clip_cell lower o).
Proof.
  intros E Hn. destruct (mapM_nth _ _ _ _ _ E Hn) as [b [Hb Hnb]].
  rewrite Hnb. f_equal. destruct o; simpl in *; congruence.
Qed.

Lemma clip_column_nth (lower : pyfloat) (c c' : column) (i : nat) (o : pyobject) :
  clip_column lower c = Ok c' -> col_nth c i = Some o ->
  col_nth c' i = Some (clip_cell lower o).
Proof.
  destruct c as [vs | vs]; simpl; intros E Hn.
  - inversion E. simpl. rewrite nth_error_map.
    destruct (nth_error vs i); simpl in *; [| discriminate].
    inversion Hn. reflexivity.
  - destruct (mapM (clip_object lower) vs) as [os |] eqn:Em; simpl in E;
      [| discriminate].
    inversion E. simpl. eapply mapM_clip_object_nth; eassumption.
Qed.

(** A cell of the distances, followed to the output. *)
Lemma expected_rssi_cell (df_test : points_frame)
    (ds : list (dict (option pyfloat))) (df_ap : ap_frame) (lp : LogParams)
    (out : frame) (i : nat) (k : string) (o : pyobject) :
  expected_rssi df_test ds df_ap lp = Ok out ->
  identity_column k = false ->
  cell (DataFrame ds) i k = Some o ->
  if recognized df_ap k
  then exists d, o = OFloat d /\
         cell out i k =
         Some (OFloat (clip_float (Fin (-100)) (rssi_of_distance lp d)))
  else cell out i k = Some (clip_cell (Fin (-100)) o).
Proof.
  intros Hok Hid Hcell. unfold cell in Hcell.
  destruct (dict_get (columns (DataFrame ds)) k) as [c |] eqn:Hc;
    [| discriminate].
  destruct (expected_rssi_column _ _ _ _ _ _ _ Hok Hid Hc)
    as [c1 [c2 [H1 [H2 H3]]]].
  unfold cell. rewrite H3. unfold convert_named in H1.
  destruct (recognized df_ap k).
  - destruct c as [vs | vs]; simpl in H1; [| discriminate].
    inversion H1. subst c1. simpl in H2. inversion H2. subst c2.
    simpl in *. destruct (nth_error vs i) as [d |] eqn:En; [| discriminate].
    simpl in Hcell. inversion Hcell. exists d. split; [reflexivity |].
    rewrite !nth_error_map, En. reflexivity.
  - inversion H1. subst c1. eapply clip_column_nth; eassumption.
Qed.

(** The identity columns and the index of the output. *)
Lemma expected_rssi_identity (df_test : points_frame)
    (ds : list (dict (option pyfloat))) (df_ap : ap_frame) (lp : LogParams)
    (out : frame) :
  expected_rssi df_test ds df_ap lp = Ok out ->
  index out = List.length (df_rows df_test) /\
  (ds = [] \/ List.length ds = List.length (df_rows df_test)) /\
  forall i k, identity_column k = true ->
              cell out i k = identity_cell df_test i k.
Proof.
  intros Hok. destruct ds as [| d ds].
  - rewrite expected_rssi_nil in Hok. inversion Hok. subst out. simpl.
    split; [reflexivity |]. split; [now left |].
    intros i k Hk. now apply attach_identity_cell.
  - rewrite expected_rssi_closed in Hok by discriminate.
    destruct (mapM (entryM (convert_named lp df_ap))
                   (columns (DataFrame (d :: ds)))) as [cs | e];
      simpl in Hok; [| discriminate].
    destruct (mapM (entryM (fun _ => clip_column (Fin (-100)))) cs)
      as [cs' | e]; simpl in Hok; [| discriminate].
    match type of Hok with
    | context [if ?b then _ else _] => destruct b eqn:E; [| discriminate]
    end.
    apply Nat.eqb_eq in E. inversion Hok. subst out. simpl.
    split; [now rewrite E |]. split; [right; now rewrite E |].
    intros i k Hk. now apply attach_identity_cell.
Qed.

(** ** When expected_rssi succeeds *)

Lemma mapM_ok_iff {A B : Type} (f : A -> result B) (l : list A) :
  (exists l', mapM f l = Ok l') <-> Forall (fun a => exists b, f a = Ok b) l.
Proof.
  induction l as [| a l IH]; simpl.
  - split; [constructor | intros _; now exists []].
  - split.
    + intros [l' E]. destruct (f a) as [b | e] eqn:Ea; simpl in E; [| discriminate].
      destruct (mapM f l) as [bs | e]; simpl in E; [| discriminate].
      constructor; [now exists b |]. apply IH. now exists bs.
    + intros Hall. apply Forall_cons_iff in Hall. destruct Hall as [[b Eb] Hl].
      apply IH in Hl. destruct Hl as [bs Ebs].
      exists (b :: bs). now rewrite Eb, Ebs.
Qed.

Lemma mapM_raise {A B : Type} (f : A -> result B) (l : list A) (e : exn) :
  mapM f l = Raise e -> exists a, In a l /\ f a = Raise e.
Proof.
  induction l as [| a l IH]; simpl; intros E.
  - discriminate.
  - destruct (f a) as [b | e0] eqn:Ea; simpl in E.
    + destruct (mapM f l) as [bs | e1]; simpl in E; [discriminate |].
      inversion E. subst e1. destruct IH as [a' [Hin Ha']]; [reflexivity |].
      exists a'. auto.
    + inversion E. subst e0. exists a. auto.
Qed.

Lemma column_of_str_free (ds : list (dict (option pyfloat))) (k : string) :
  str_free (column_of ds k).
Proof.
  unfold column_of. destruct (all_none _); simpl; [| exact I].
  apply Forall_forall. intros o Hin. apply in_map_iff in Hin.
  destruct Hin as [x [E _]]. now subst o.
Qed.

Lemma clip_column_str_free (lower : pyfloat) (c : column) :
  str_free c -> exists c', clip_column lower c = Ok c' /\ str_free c'.
Proof.
  destruct c as [vs | vs]; simpl; intros Hs.
  - eexists. split; [reflexivity | exact I].
  - induction vs as [| o vs IH]; simpl.
    + exists (ObjCol []). split; [reflexivity | constructor].
    + apply Forall_cons_iff in Hs. destruct Hs as [Ho Hs].
      destruct (IH Hs) as [c' [E Hc']].
      destruct (mapM (clip_object lower) vs) as [os |]; simpl in E;
        [| discriminate].
      inversion E. subst c'. simpl in Hc'.
      destruct o; simpl; try contradiction;
        (eexists; split; [reflexivity | simpl; now constructor]).
Qed.

Lemma convert_named_str_free (lp : LogParams) (df_ap : ap_frame) (k : string)
    (c c' : column) :
  convert_named lp df_ap k c = Ok c' -> str_free c -> str_free c'.
Proof.
  unfold convert_named. destruct (recognized df_ap k).
  - destruct c; simpl; intros E; inversion E. intros _. exact I.
  - intros E. inversion E. auto.
Qed.

Lemma mapM_entry_str_free (g : string -> column -> result column)
    (cs cs' : dict column) :
  (forall k c c', g k c = Ok c' -> str_free c -> str_free c') ->
  mapM (entryM g) cs = Ok cs' ->
  Forall (fun kc => str_free (snd kc)) cs ->
  Forall (fun kc => str_free (snd kc)) cs'.
Proof.
  intros Hg. revert cs'. induction cs as [| [k0 c0] cs IH]; simpl; intros cs' E Hall.
  - inversion E. constructor.
  - unfold entryM at 1 in E. simpl in E.
    destruct (g k0 c0) as [c0' | e] eqn:E0; simpl in E; [| discriminate].
    destruct (mapM (entryM g) cs) as [cs0 | e]; simpl in E; [| discriminate].
    inversion E. apply Forall_cons_iff in Hall. destruct Hall as [Hc Hl].
    constructor.
    + simpl in *. eapply Hg; eassumption.
    + apply IH; [reflexivity | exact Hl].
Qed.

Lemma DataFrame_str_free (ds : list (dict (option pyfloat))) :
  Forall (fun kc => str_free (snd kc)) (columns (DataFrame ds)).
Proof.
  apply Forall_forall. intros [k c] Hin. simpl in Hin.
  apply in_map_iff in Hin. destruct Hin as [k0 [E _]]. inversion E.
  apply column_of_str_free.
Qed.

(** The clip never raises on the converted distances. *)
Lemma clip_after_convert (lp : LogParams) (df_ap : ap_frame)
    (ds : list (dict (option pyfloat))) (cs : dict column) :
  mapM (entryM (convert_named lp df_ap)) (columns (DataFrame ds)) = Ok cs ->
  exists cs', mapM (entryM (fun _ => clip_column (Fin (-100)))) cs = Ok cs'.
Proof.
  intros E. apply mapM_ok_iff.
  pose proof (mapM_entry_str_free _ _ _ (convert_named_str_free lp df_ap) E
                (DataFrame_str_free ds)) as Hfree.
  eapply Forall_impl; [| exact Hfree].
  intros [k c] Hc. simpl in Hc. unfold entryM. simpl.
  destruct (clip_column_str_free (Fin (-100)) c Hc) as [c' [Ec' _]].
  rewrite Ec'. simpl. eauto.
Qed.

Lemma DataFrame_column (ds : list (dict (option pyfloat))) (k : string) :
  dict_get (columns (DataFrame ds)) k =
  if str_in k (union_keys ds) then Some (column_of ds k) else None.
Proof.
  unfold DataFrame. simpl. apply (dict_get_map (column_of ds)).
Qed.

(** The conversion raises exactly on a recognized column of [None]. *)
Lemma convert_ok_iff (lp : LogParams) (df_ap : ap_frame)
    (ds : list (dict (option pyfloat))) :
  (exists cs,
     mapM (entryM (convert_named lp df_ap)) (columns (DataFrame ds)) = Ok cs)
  <->
  (forall k, In k (union_keys ds) -> recognized df_ap k = true ->
             none_column ds k = false).
Proof.
  rewrite mapM_ok_iff, Forall_forall. unfold DataFrame. simpl. split.
  - intros Hall k Hin Hrec.
    specialize (Hall (k, column_of ds k)).
    destruct Hall as [b Hb].
    { apply in_map_iff. exists k. auto. }
    unfold entryM, convert_named in Hb. simpl in Hb. rewrite Hrec in Hb.
    unfold column_of in Hb. fold (none_column ds k) in Hb.
    destruct (none_column ds k); [discriminate | reflexivity].
  - intros Hnone [k c] Hin. apply in_map_iff in Hin.
    destruct Hin as [k0 [E Hin]]. inversion E. subst k0 c.
    unfold entryM, convert_named. simpl.
    destruct (recognized df_ap k) eqn:Hrec; [| simpl; eauto].
    specialize (Hnone k Hin Hrec). unfold column_of.
    fold (none_column ds k). rewrite Hnone. simpl. eauto.
Qed.

Lemma convert_raise (lp : LogParams) (df_ap : ap_frame) (cs : dict column)
    (e : exn) :
  mapM (entryM (convert_named lp df_ap)) cs = Raise e -> e = TypeError.
Proof.
  intros E. apply mapM_raise in E. destruct E as [[k c] [_ E]].
  unfold entryM, convert_named in E. simpl in E.
  destruct (recognized df_ap k); [| discriminate].
  destruct c; simpl in E; [discriminate | congruence].
Qed.

(** [expected_rssi] succeeds exactly when no recognized column is a column
    of [None] and the list of mappings is empty or as long as [df_test]. *)
Theorem expected_rssi_ok_iff (df_test : points_frame)
    (ds : list (dict (option pyfloat))) (df_ap : ap_frame) (lp : LogParams) :
  (exists out, expected_rssi df_test ds df_ap lp = Ok out) <->
  (ds = [] \/ List.length ds = List.length (df_rows df_test)) /\
  (forall k, In k (union_keys ds) -> recognized df_ap k = true ->
             none_column ds k = false).
Proof.
  destruct ds as [| d ds].
  - rewrite expected_rssi_nil. split.
    + intros _. split; [now left |]. intros k [].
    + intros _. eauto.
  - rewrite expected_rssi_closed by discriminate.
    rewrite <- (convert_ok_iff lp). split.
    + intros [out Hok].
      destruct (mapM (entryM (convert_named lp df_ap))
                     (columns (DataFrame (d :: ds)))) as [cs | e];
        simpl in Hok; [| discriminate].
      split; [| eauto].
      destruct (mapM (entryM (fun _ => clip_column (Fin (-100)))) cs)
        as [cs' | e]; simpl in Hok; [| discriminate].
      match type of Hok with
      | context [if ?b then _ else _] => destruct b eqn:E; [| discriminate]
      end.
      apply Nat.eqb_eq in E. right. now rewrite E.
    + intros [[Hnil | Hlen] [cs Hcs]]; [discriminate |].
      rewrite Hcs. simpl.
      destruct (clip_after_convert _ _ _ _ Hcs) as [cs' Hcs'].
      rewrite Hcs'. simpl. rewrite <- Hlen. simpl.
      rewrite Nat.eqb_refl. eauto.
Qed.

(** ** The frame of the distances computed by get_distances *)

Lemma get_distances_length (df : points_frame) (ap_df : ap_frame) (H : pyfloat) :
  List.length (get_distances df ap_df H) = List.length (df_rows df).
Proof. rewrite get_distances_map. apply length_map. Qed.


Lemma distance_entry_registry (df : points_frame) (ap_df : ap_frame)
    (H : pyfloat) (row : point) (k : string) :
  str_in k (wap_columns df) = true ->
  distance_entry (ap_coords (wap_columns df) ap_df) H row k =
  option_map
    (fun ap => round2 (euclid (X row) (Y row) (ap_x ap) (ap_y ap) H))
    (registry_lookup ap_df k).
Proof.
  intros Hin. unfold distance_entry. rewrite ap_coords_get, Hin.
  destruct (registry_lookup ap_df k); reflexivity.
Qed.

Lemma distances_entries (df : points_frame) (ap_df : ap_frame) (H : pyfloat)
    (k : string) :
  str_in k (wap_columns df) = true ->
  map (fun d => dict_get d k) (get_distances df ap_df H) =
  map (fun row =>
         Some (option_map
                 (fun ap => round2 (euclid (X row) (Y row) (ap_x ap) (ap_y ap) H))
                 (registry_lookup ap_df k)))
      (df_rows df).
Proof.
  intros Hin. rewrite get_distances_map, map_map.
  apply map_ext. intros row.
  rewrite row_distances_get, Hin. f_equal.
  now apply distance_entry_registry.
Qed.

Lemma union_keys_distances (df : points_frame) (ap_df : ap_frame) (H : pyfloat)
    (k : string) :
  str_in k (union_keys (get_distances df ap_df H)) =
  match df_rows df with
  | [] => false
  | _ => str_in k (wap_columns df)
  end.
Proof.
  rewrite str_in_union_keys, get_distances_map.
  destruct (df_rows df) as [| p rows]; [reflexivity |].
  assert (E : forall l0,
             existsb (fun d => str_in k (keys d))
               (map (row_distances (wap_columns df)
                       (ap_coords (wap_columns df) ap_df) H) l0)
             = match l0 with [] => false | _ => str_in k (wap_columns df) end).
  { induction l0 as [| q l0 IH]; simpl; [reflexivity |].
    rewrite keys_row_distances, str_in_fold_add_key. simpl.
    destruct (str_in k (wap_columns df)); [reflexivity |].
    rewrite IH. destruct l0; reflexivity. }
  rewrite E. reflexivity.
Qed.

Lemma none_column_distances (df : points_frame) (ap_df : ap_frame)
    (H : pyfloat) (k : string) :
  str_in k (wap_columns df) = true -> df_rows df <> [] ->
  none_column (get_distances df ap_df H) k = negb (recognized ap_df k).
Proof.
  intros Hin Hne. unfold none_column. rewrite distances_entries by assumption.
  destruct (registry_lookup ap_df k) as [ap |] eqn:E.
  - assert (Hrec : recognized ap_df k = true).
    { apply registry_lookup_recognized. congruence. }
    rewrite Hrec. simpl.
    destruct (df_rows df); [congruence | reflexivity].
  - assert (Hrec : recognized ap_df k = false).
    { destruct (recognized ap_df k) eqn:Hr; [| reflexivity].
      apply registry_lookup_recognized in Hr. congruence. }
    rewrite Hrec. simpl.
    induction (df_rows df) as [| p rows IH]; [reflexivity |].
    simpl. destruct rows; [reflexivity |]. apply IH. discriminate.
Qed.


(** The two functions in sequence never raise, whatever the registry,
    provided [df_test] has as many rows as the table of points. *)
Theorem pipeline_ok (df_test df : points_frame) (ap_df : ap_frame)
    (H : pyfloat) (lp : LogParams) :
  List.length (df_rows df_test) = List.length (df_rows df) ->
  exists out, expected_rssi df_test (get_distances df ap_df H) ap_df lp = Ok out.
Proof.
  intros Hlen. apply expected_rssi_ok_iff. split.
  - right. now rewrite get_distances_length.
  - intros k Hin Hrec. apply str_in_In in Hin.
    rewrite union_keys_distances in Hin.
    destruct (df_rows df) as [| p rows] eqn:Erows; [discriminate |].
    rewrite none_column_distances by (rewrite ?Erows; congruence).
    now rewrite Hrec.
Qed.

(** ** The formulas on finite values *)



Lemma np_log10_power (n : nat) : np_log10 (Fin (10 ^ n)) = Fin (INR n).
Proof.
  unfold np_log10. rewrite Rsign_pos by (apply pow_lt; lra).
  now rewrite Rlog10_pow.
Qed.



Lemma fge_fin (x y : R) : y <= x -> fge (Fin x) (Fin y) = true.
Proof. intros H. simpl. destruct (Rle_dec y x); [reflexivity | contradiction]. Qed.

Lemma fge_fin_lt (x y : R) : x < y -> fge (Fin x) (Fin y) = false.
Proof. intros H. simpl. destruct (Rle_dec y x); [exfalso; lra | reflexivity]. Qed.

Lemma clip_float_below (l x : R) : x < l -> clip_float (Fin l) (Fin x) = Fin l.
Proof. intros H. unfold clip_float. now rewrite fge_fin_lt. Qed.

Lemma clip_float_keep (l : R) (v : pyfloat) :
  fle (Fin l) v -> clip_float (Fin l) v = v.
Proof.
  unfold clip_float. destruct v as [x | | |]; simpl; try tauto.
  intros H. destruct (Rle_dec l x); [reflexivity | contradiction].
Qed.


(** ** Cells of the frame built from the mappings *)

Lemma nth_error_In_existsb {A : Type} (f : A -> bool) (l : list A) (i : nat)
    (a : A) :
  nth_error l i = Some a -> f a = true -> existsb f l = true.
Proof.
  intros Hn Hf. apply existsb_exists. exists a. split; [| assumption].
  eapply nth_error_In; eassumption.
Qed.

Lemma dict_get_some_key {V : Type} (d : dict V) (k : string) (v : V) :
  dict_get d k = Some v -> str_in k (keys d) = true.
Proof.
  intros E. apply str_in_In.
  destruct (in_dec string_dec k (keys d)) as [Hin | Hn]; [assumption |].
  apply dict_get_keys in Hn. congruence.
Qed.

Lemma all_none_nth (vals : list (option (option pyfloat))) (i : nat)
    (v : option (option pyfloat)) :
  all_none vals = true -> nth_error vals i = Some v -> v = Some None.
Proof.
  unfold all_none. rewrite forallb_forall. intros Hall Hn.
  apply nth_error_In in Hn. specialize (Hall v Hn).
  destruct v as [[f |] |]; congruence.
Qed.

(** A defined distance of mapping [i] is the cell of row [i]. *)
Lemma DataFrame_cell_defined (ds : list (dict (option pyfloat))) (i : nat)
    (m : dict (option pyfloat)) (k : string) (d : pyfloat) :
  nth_error ds i = Some m -> dict_get m k = Some (Some d) ->
  cell (DataFrame ds) i k = Some (OFloat d).
Proof.
  intros Hm Hd. unfold cell. rewrite DataFrame_column, str_in_union_keys.
  rewrite (nth_error_In_existsb _ _ _ _ Hm (dict_get_some_key _ _ _ Hd)).
  unfold column_of.
  destruct (all_none (map (fun d0 => dict_get d0 k) ds)) eqn:Hall.
  - exfalso.
    assert (Hn : nth_error (map (fun d0 => dict_get d0 k) ds) i
                 = Some (Some (Some d))).
    { rewrite nth_error_map, Hm. simpl. now rewrite Hd. }
    pose proof (all_none_nth _ _ _ Hall Hn). discriminate.
  - simpl. rewrite !nth_error_map, Hm. simpl. now rewrite Hd.
Qed.

(** A mapping that holds [None], or lacks the key, in a column that holds a
    number elsewhere: the cell is [nan]. *)
Lemma DataFrame_cell_undefined (ds : list (dict (option pyfloat)))
    (i j : nat) (mi mj : dict (option pyfloat)) (k : string) (d : pyfloat) :
  nth_error ds i = Some mi ->
  dict_get mi k = Some None \/ dict_get mi k = None ->
  nth_error ds j = Some mj -> dict_get mj k = Some (Some d) ->
  cell (DataFrame ds) i k = Some (OFloat NaN).
Proof.
  intros Hmi Hu Hmj Hd. unfold cell.
  rewrite DataFrame_column, str_in_union_keys.
  rewrite (nth_error_In_existsb _ _ _ _ Hmj (dict_get_some_key _ _ _ Hd)).
  unfold column_of.
  destruct (all_none (map (fun d0 => dict_get d0 k) ds)) eqn:Hall.
  - exfalso.
    assert (Hn : nth_error (map (fun d0 => dict_get d0 k) ds) j
                 = Some (Some (Some d))).
    { rewrite nth_error_map, Hmj. simpl. now rewrite Hd. }
    pose proof (all_none_nth _ _ _ Hall Hn). discriminate.
  - simpl. rewrite !nth_error_map, Hmi. simpl.
    destruct Hu as [-> | ->]; reflexivity.
Qed.

(** A column that holds [None] in every mapping stays a column of objects:
    the cell is [None]. *)
Lemma DataFrame_cell_none (ds : list (dict (option pyfloat))) (i : nat)
    (m : dict (option pyfloat)) (k : string) :
  nth_error ds i = Some m -> none_column ds k = true ->
  dict_get m k = Some None /\ cell (DataFrame ds) i k = Some ONone.
Proof.
  intros Hm Hall. unfold none_column in Hall.
  assert (Hn : nth_error (map (fun d0 => dict_get d0 k) ds) i
               = Some (dict_get m k)).
  { rewrite nth_error_map, Hm. reflexivity. }
  pose proof (all_none_nth _ _ _ Hall Hn) as Hk. split; [exact Hk |].
  unfold cell. rewrite DataFrame_column, str_in_union_keys.
  rewrite (nth_error_In_existsb _ _ _ _ Hm (dict_get_some_key _ _ _ Hk)).
  unfold column_of. rewrite Hall. simpl.
  rewrite !nth_error_map, Hm. reflexivity.
Qed.

(** ** The examples of the specification *)


Lemma sample_distances (H : pyfloat) :
  get_distances sample_points sample_aps H =
  [ [("WAP001"%string, Some (round2 (euclid (Fin 0) (Fin 0) (Fin 3) (Fin 4) H)));
     ("WAP002"%string, None)] ].
Proof. reflexivity. Qed.

(** ** The entry of a registered column *)


(** ** The cell of a recognized column *)


(** ** C3: a distance of zero *)







(** ** C4: the floor of -100 *)






(** ** C5: an access point missing from the registry *)









(** ** C6: one row per point, in order *)









(** ** C7: columns that are not access points *)

(** C7, as the code has it.  A key of the mappings that is not recognized
    as an access point (and is not an identity column) is never converted to
    an RSSI, but its column goes through [pd.DataFrame] and through the clip
    with the rest of the frame.  For mapping [i] of the list: a number under
    the key comes out clipped at -100, that is unchanged when it is [nan] or
    not below -100, and as -100 when it is below; a [None] comes out as
    [None] when every mapping holds [None] under the key, and as [nan] when
    some mapping holds a number under it (the column is then a column of
    floats); a mapping that lacks the key comes out as [nan] in that case
    too. *)
Theorem unrecognized_column_clipped (df_test : points_frame)
    (ds : list (dict (option pyfloat))) (df_ap : ap_frame) (lp : LogParams)
    (out : frame) (i : nat) (m : dict (option pyfloat)) (k : string) :
  expected_rssi df_test ds df_ap lp = Ok out ->
  recognized df_ap k = false ->
  identity_column k = false ->
  nth_error ds i = Some m ->
  (forall d, dict_get m k = Some (Some d) ->
     cell out i k = Some (OFloat (clip_float (Fin (-100)) d)) /\
     (d = NaN \/ fle (Fin (-100)) d -> cell out i k = Some (OFloat d)) /\
     (forall x, d = Fin x -> x < -100 ->
                cell out i k = Some (OFloat (Fin (-100))))) /\
  (dict_get m k = Some None -> none_column ds k = true ->
   cell out i k = Some ONone) /\
  (dict_get m k = Some None \/ dict_get m k = None ->
   (exists j mj dj, nth_error ds j = Some mj /\
                    dict_get mj k = Some (Some dj)) ->
   cell out i k = Some (OFloat NaN)).
Proof.
  intros Hok Hrec Hid Hm.
  assert (Hc : forall o, cell (DataFrame ds) i k = Some o ->
                         cell out i k = Some (clip_cell (Fin (-100)) o)).
  { intros o Hcell.
    pose proof (expected_rssi_cell _ _ _ _ _ _ _ _ Hok Hid Hcell) as Hc.
    now rewrite Hrec in Hc. }
  split; [| split].
  - intros d Hd.
    pose proof (Hc _ (DataFrame_cell_defined _ _ _ _ _ Hm Hd)) as H.
    simpl in H. split; [exact H | split].
    + intros [-> | Hge]; rewrite H; [reflexivity |].
      now rewrite clip_float_keep.
    + intros x -> Hx. rewrite H. now rewrite clip_float_below.
  - intros _ Hall.
    exact (Hc _ (proj2 (DataFrame_cell_none _ _ _ _ Hm Hall))).
  - intros Hu (j & mj & dj & Hmj & Hdj).
    exact (Hc _ (DataFrame_cell_undefined _ _ _ _ _ _ _ Hm Hu Hmj Hdj)).
Qed.

Lemma unrecognized_column_clipped_witness :
  exists out,
    expected_rssi sample_points (one_distance (Fin 7)) [] lp_40_2 = Ok out /\
    cell out 0 "WAP001" = Some (OFloat (Fin 7)).
Proof.
  assert (Hex : exists out,
             expected_rssi sample_points (one_distance (Fin 7)) [] lp_40_2
             = Ok out).
  { apply expected_rssi_ok_iff. split; [now right |].
    intros k _ Hrec. discriminate. }
  destruct Hex as [out Hok]. exists out. split; [exact Hok |].
  refine (proj1 (proj2 (proj1 (unrecognized_column_clipped sample_points
                          (one_distance (Fin 7)) [] lp_40_2 out 0%nat
                          [("WAP001"%string, Some (Fin 7))] "WAP001"
                          Hok eq_refl eq_refl eq_refl)
                        (Fin 7) eq_refl)) _).
  right. simpl. lra.
Defined.

(** C7 as stated fails: a column that is not an access point and holds -150
    comes out as -100. *)
Lemma unrecognized_column_changed :
  recognized sample_aps "TEMP" = false /\
  cell (DataFrame mixed_mapping) 0 "TEMP" = Some (OFloat (Fin (-150))) /\
  exists out,
    expected_rssi sample_points mixed_mapping sample_aps lp_40_2 = Ok out /\
    cell out 0 "TEMP" = Some (OFloat (Fin (-100))) /\
    cell out 0 "TEMP" <> cell (DataFrame mixed_mapping) 0 "TEMP".
Proof.
  split; [reflexivity |]. split; [reflexivity |].
  assert (Hex : exists out,
             expected_rssi sample_points mixed_mapping sample_aps lp_40_2
             = Ok out).
  { apply expected_rssi_ok_iff. split; [now right |].
    intros k [<- | []] Hrec. discriminate. }
  destruct Hex as [out Hok]. exists out. split; [exact Hok |].
  pose proof (expected_rssi_cell _ _ _ _ _ 0%nat "TEMP"%string
                (OFloat (Fin (-150))) Hok eq_refl eq_refl) as H.
  replace (recognized sample_aps "TEMP") with false in H by reflexivity.
  simpl clip_cell in H. rewrite clip_float_below in H by lra.
  split; [exact H |]. rewrite H.
  replace (cell (DataFrame mixed_mapping) 0 "TEMP")
    with (Some (OFloat (Fin (-150)))) by reflexivity.
  intros E. inversion E. lra.
Qed.

(** ** C8: empty input *)

(** C8, as the code has it.  [get_distances] on a table without rows
    returns the empty list.  [expected_rssi] on the empty list raises
    nothing and returns the four identity columns of the module-level table
    [df_test] and nothing else, with as many rows as [df_test]; the output
    is empty when [df_test] is empty, as it is when the two functions run in
    sequence on an empty table. *)
Theorem empty_input (cols : list string) (df_test : points_frame)
    (ap_df : ap_frame) (H : pyfloat) (lp : LogParams) :
  get_distances {| df_columns := cols; df_rows := [] |} ap_df H = [] /\
  expected_rssi df_test [] ap_df lp =
    Ok {| index := List.length (df_rows df_test);
          columns :=
            [("LABEL"%string,
              ObjCol (map (fun p => OStr (LABEL p)) (df_rows df_test)));
             ("DEVICE"%string,
              ObjCol (map (fun p => OStr (DEVICE p)) (df_rows df_test)));
             ("X"%string, FloatCol (map X (df_rows df_test)));
             ("Y"%string, FloatCol (map Y (df_rows df_test)))] |} /\
  expected_rssi {| df_columns := cols; df_rows := [] |}
    (get_distances {| df_columns := cols; df_rows := [] |} ap_df H) ap_df lp =
    Ok {| index := 0;
          columns := [("LABEL"%string, ObjCol []); ("DEVICE"%string, ObjCol []);
                      ("X"%string, FloatCol []); ("Y"%string, FloatCol [])] |}.
Proof.
  split; [reflexivity |]. split.
  - apply expected_rssi_nil.
  - change (get_distances {| df_columns := cols; df_rows := [] |} ap_df H)
      with (@nil (dict (option pyfloat))).
    apply expected_rssi_nil.
Qed.

(** C8 as stated fails: on the empty list of mappings the output of
    [expected_rssi] is not empty when [df_test] is not: it has the rows of
    [df_test]. *)
Lemma empty_mappings_nonempty_output :
  exists out,
    expected_rssi sample_points [] sample_aps lp_40_2 = Ok out /\
    index out = 1%nat /\
    cell out 0 "LABEL" = Some (OStr "hall").
Proof.
  eexists. split; [apply expected_rssi_nil |]. split; reflexivity.
Qed.

(** ** C10: the identity columns come from the module-level table *)

Lemma expected_rssi_length_mismatch (df_test : points_frame)
    (ds : list (dict (option pyfloat))) (df_ap : ap_frame) (lp : LogParams) :
  ds <> [] ->
  List.length ds <> List.length (df_rows df_test) ->
  match convert_columns lp df_ap (DataFrame ds) with
  | Ok _ => expected_rssi df_test ds df_ap lp = Raise ValueError
  | Raise e => e = TypeError /\
               expected_rssi df_test ds df_ap lp = Raise TypeError
  end.
Proof.
  intros Hne Hlen. rewrite expected_rssi_closed by assumption.
  rewrite convert_columns_closed.
  destruct (mapM (entryM (convert_named lp df_ap)) (columns (DataFrame ds)))
    as [cs | e] eqn:E1; simpl.
  - destruct (clip_after_convert _ _ _ _ E1) as [cs' E2]. rewrite E2. simpl.
    assert (E : (List.length (df_rows df_test) =? List.length ds)%nat = false)
      by (apply Nat.eqb_neq; congruence).
    now rewrite E.
  - apply convert_raise in E1. subst e. auto.
Qed.

(** C10, as the code has it.  [expected_rssi] reads LABEL, DEVICE, X and Y
    from the module-level table [df_test], not from its arguments.  A call
    returns only if the list of mappings is empty or has as many mappings
    as [df_test] has rows; on a list that is not empty and of another
    length the call raises: the length-mismatch error of the column
    assignment when the loop over the columns went through, the error of
    the loop otherwise.  When the call returns, the identity cells of every
    row are those of [df_test], whatever the mappings were computed from. *)
Theorem identity_from_module_table (df_test : points_frame)
    (ds : list (dict (option pyfloat))) (df_ap : ap_frame) (lp : LogParams) :
  (forall out,
     expected_rssi df_test ds df_ap lp = Ok out ->
     (ds = [] \/ List.length ds = List.length (df_rows df_test)) /\
     index out = List.length (df_rows df_test) /\
     forall i k, identity_column k = true ->
                 cell out i k = identity_cell df_test i k) /\
  (ds <> [] -> List.length ds <> List.length (df_rows df_test) ->
   (forall f, convert_columns lp df_ap (DataFrame ds) = Ok f ->
              expected_rssi df_test ds df_ap lp = Raise ValueError) /\
   exists e, expected_rssi df_test ds df_ap lp = Raise e).
Proof.
  split.
  - intros out Hok.
    destruct (expected_rssi_identity _ _ _ _ _ Hok) as [H1 [H2 H3]]. auto.
  - intros Hne Hlen.
    pose proof (expected_rssi_length_mismatch df_test ds df_ap lp Hne Hlen)
      as H.
    destruct (convert_columns lp df_ap (DataFrame ds)) as [f | e].
    + split; [intros _ _; exact H | eauto].
    + destruct H as [_ H]. split; [intros f E; discriminate | eauto].
Qed.

Lemma identity_from_module_table_witness :
  exists out,
    expected_rssi sample_points
      (get_distances other_points sample_aps (Fin 2)) sample_aps lp_40_2
      = Ok out /\
    index out = 1%nat /\
    cell out 0 "DEVICE" = Some (OStr "phone").
Proof.
  destruct (pipeline_ok sample_points other_points sample_aps (Fin 2)
              lp_40_2 eq_refl) as [out Hok].
  exists out. split; [exact Hok |].
  destruct (proj1 (identity_from_module_table sample_points
                     (get_distances other_points sample_aps (Fin 2))
                     sample_aps lp_40_2) out Hok) as [_ [Hidx Hcells]].
  split; [exact Hidx |].
  rewrite (Hcells 0%nat "DEVICE"%string eq_refl). reflexivity.
Defined.

(** C10 as stated fails: the call on the empty list of mappings returns
    although [df_test] has one row. *)
Lemma empty_mappings_no_mismatch :
  List.length (@nil (dict (option pyfloat)))
    <> List.length (df_rows sample_points) /\
  exists out, expected_rssi sample_points [] sample_aps lp_40_2 = Ok out.
Proof.
  split; [discriminate |]. eexists. apply expected_rssi_nil.
Qed.

(** ** The store: reads and writes *)

Lemma nth_error_at {A : Type} (pre post : list A) (x : A) (l : nat) :
  l = List.length pre -> nth_error (pre ++ x :: post) l = Some x.
Proof.
  intros ->. rewrite nth_error_app2 by lia. now rewrite Nat.sub_diag.
Qed.

Lemma nth_error_old {A : Type} (h extra : list A) (l : nat) (x : A) :
  nth_error h l = Some x -> nth_error (h ++ extra) l = Some x.
Proof.
  intros E. rewrite nth_error_app1; [assumption |].
  apply nth_error_Some. congruence.
Qed.

Lemma update_at (pre post : Heap.heap) (x v : Heap.pyval) (l : nat) :
  l = List.length pre ->
  Heap.update (pre ++ x :: post) l v = pre ++ v :: post.
Proof.
  intros ->. induction pre as [| w pre IH]; simpl.
  - reflexivity.
  - now rewrite IH.
Qed.

Lemma unchanged_below_app (h extra : Heap.heap) :
  Heap.unchanged_below (List.length h) h (h ++ extra).
Proof.
  split.
  - rewrite length_app. lia.
  - intros l Hl. now apply nth_error_app1.
Qed.


(** The same for a body that may raise: the loop stops at the first
    exception, in a store that satisfies [Q]. *)
Lemma for_foldM {A S : Type} (R : S -> Heap.heap -> Prop)
    (Q : Heap.heap -> Prop) (step : S -> A -> result S)
    (body : A -> Heap.M unit) (l : list A) :
  (forall a s h, R s h ->
     match step s a with
     | Ok s' => exists h', body a h = (Ok tt, h') /\ R s' h'
     | Raise e => exists h', body a h = (Raise e, h') /\ Q h'
     end) ->
  forall s h, R s h ->
    match foldM step l s with
    | Ok s' => exists h', Heap.for_ l body h = (Ok tt, h') /\ R s' h'
    | Raise e => exists h', Heap.for_ l body h = (Raise e, h') /\ Q h'
    end.
Proof.
  intros Hbody. induction l as [| a l IH]; simpl; intros s h HR.
  - exists h. auto.
  - specialize (Hbody a s h HR). unfold Heap.bind.
    destruct (step s a) as [s' | e]; simpl.
    + destruct Hbody as [h1 [E1 HR1]]. rewrite E1. now apply IH.
    + destruct Hbody as [h1 [E1 HQ]]. rewrite E1. eauto.
Qed.

(** ** get_distances on the store *)



Lemma bind_ok {A B : Type} (m : Heap.M A) (k : A -> Heap.M B)
    (h h' : Heap.heap) (a : A) :
  m h = (Ok a, h') -> Heap.bind m k h = k a h'.
Proof. intros E. unfold Heap.bind. now rewrite E. Qed.

Lemma bind_raise {A B : Type} (m : Heap.M A) (k : A -> Heap.M B)
    (h h' : Heap.heap) (e : exn) :
  m h = (Raise e, h') -> Heap.bind m k h = (Raise e, h').
Proof. intros E. unfold Heap.bind. now rewrite E. Qed.



Lemma load_dicts_heap (ls : list Heap.loc) (h : Heap.heap) :
  snd (Heap.load_dicts ls h) = h.
Proof.
  induction ls as [| l ls IH]; simpl.
  - reflexivity.
  - unfold Heap.bind, Heap.load_dict.
    destruct (nth_error h l) as [[| | | d | | |] |]; try reflexivity.
    destruct (Heap.load_dicts ls h) as [[ds | e] h'] eqn:E; simpl in *;
      now subst.
Qed.

Lemma load_dicts_ext (ls : list Heap.loc) (h extra : Heap.heap)
    (ds : list (dict (option pyfloat))) :
  fst (Heap.load_dicts ls h) = Ok ds ->
  Heap.load_dicts ls (h ++ extra) = (Ok ds, h ++ extra).
Proof.
  revert ds. induction ls as [| l ls IH]; simpl; intros ds E.
  - unfold Heap.ret in *. simpl in E. now inversion E.
  - unfold Heap.bind, Heap.load_dict in *.
    destruct (nth_error h l) as [[| | | d | | |] |] eqn:En;
      simpl in E; try discriminate.
    rewrite (nth_error_old _ _ _ _ En).
    destruct (Heap.load_dicts ls h) as [[ds' | e] h'] eqn:E'; simpl in E;
      [| discriminate].
    unfold Heap.ret in E. simpl in E. inversion E. subst ds.
    now rewrite (IH ds' eq_refl).
Qed.

Lemma deref_dicts_load (h : Heap.heap) (l : Heap.loc)
    (ds : list (dict (option pyfloat))) :
  Heap.deref_dicts h l = Some ds <->
  exists ls, nth_error h l = Some (Heap.VList ls) /\
             Heap.load_dicts ls h = (Ok ds, h).
Proof.
  unfold Heap.deref_dicts, Heap.bind, Heap.load_list. split.
  - intros E.
    destruct (nth_error h l) as [[| | | | | ls |] |]; simpl in E;
      try discriminate.
    exists ls. split; [reflexivity |].
    pose proof (load_dicts_heap ls h) as Hh.
    destruct (Heap.load_dicts ls h) as [[ds' | e] h']; simpl in *;
      [| discriminate].
    inversion E. now subst.
  - intros [ls [El Ed]]. rewrite El, Ed. reflexivity.
Qed.

Lemma deref_dicts_ext (h extra : Heap.heap) (l : Heap.loc)
    (ds : list (dict (option pyfloat))) :
  Heap.deref_dicts h l = Some ds ->
  Heap.deref_dicts (h ++ extra) l = Some ds.
Proof.
  rewrite !deref_dicts_load. intros [ls [El Ed]].
  exists ls. split; [now apply nth_error_old |].
  apply load_dicts_ext. now rewrite Ed.
Qed.



(** ** expected_rssi on the store *)

Lemma bind_unfold {A B : Type} (m : Heap.M A) (k : A -> Heap.M B)
    (h : Heap.heap) :
  Heap.bind m k h =
  match m h with
  | (Ok a, h') => k a h'
  | (Raise e, h') => (Raise e, h')
  end.
Proof. reflexivity. Qed.

Lemma heap_frame_getitem (pre post : Heap.heap) (g : frame) (k : string) :
  Heap.frame_getitem (List.length pre) k (pre ++ Heap.VFrame g :: post) =
  (getitem g k, pre ++ Heap.VFrame g :: post).
Proof.
  unfold Heap.frame_getitem, Heap.bind, Heap.load_frame, Heap.lift.
  rewrite nth_error_at by reflexivity. now destruct (getitem g k).
Qed.

Lemma heap_frame_setitem (pre post : Heap.heap) (g : frame) (k : string)
    (v : column) :
  Heap.frame_setitem (List.length pre) k v (pre ++ Heap.VFrame g :: post) =
  match setitem g k v with
  | Ok g' => (Ok tt, pre ++ Heap.VFrame g' :: post)
  | Raise e => (Raise e, pre ++ Heap.VFrame g :: post)
  end.
Proof.
  unfold Heap.frame_setitem, Heap.bind, Heap.load_frame, Heap.lift, Heap.store.
  rewrite nth_error_at by reflexivity.
  destruct (setitem g k v); [| reflexivity].
  now rewrite update_at by reflexivity.
Qed.

(** One turn of the loop over the columns: the frame object is rewritten in
    place, and nothing else. *)
Lemma heap_rssi_step (h : Heap.heap) (df_ap log_params : Heap.loc)
    (a : ap_frame) (lp : LogParams) (wap : string) (f : frame) :
  nth_error h df_ap = Some (Heap.VAps a) ->
  nth_error h log_params = Some (Heap.VParams lp) ->
  exists g,
    heap_rssi_body (List.length h) df_ap log_params wap
                   (h ++ [Heap.VFrame f]) =
    (outcome (rssi_step lp a f wap), h ++ [Heap.VFrame g]) /\
    forall f', rssi_step lp a f wap = Ok f' -> g = f'.
Proof.
  intros Hap Hlp. unfold heap_rssi_body, outcome.
  rewrite (bind_ok (Heap.load_aps df_ap) _ _ (h ++ [Heap.VFrame f]) a)
    by (unfold Heap.load_aps; now rewrite (nth_error_old _ _ _ _ Hap)).
  unfold rssi_step.
  destruct (str_in wap (map AP a)).
  2: { exists f. split; [reflexivity | congruence]. }
  rewrite (bind_ok (Heap.load_params log_params) _ _
             (h ++ [Heap.VFrame f]) lp)
    by (unfold Heap.load_params; now rewrite (nth_error_old _ _ _ _ Hlp)).
  rewrite bind_unfold, heap_frame_getitem.
  destruct (getitem f wap) as [s | e]; simpl rbind;
    [| exists f; split; [reflexivity | discriminate]].
  rewrite bind_unfold. unfold Heap.lift at 1.
  destruct (series_log10 s) as [l | e]; simpl rbind;
    [| exists f; split; [reflexivity | discriminate]].
  rewrite bind_unfold. unfold Heap.lift at 1.
  destruct (series_path_loss lp l) as [v | e]; simpl rbind;
    [| exists f; split; [reflexivity | discriminate]].
  rewrite bind_unfold, heap_frame_setitem.
  destruct (setitem f wap v) as [f1 | e]; simpl rbind;
    [| exists f; split; [reflexivity | discriminate]].
  rewrite bind_unfold, heap_frame_getitem.
  destruct (getitem f1 wap) as [s1 | e]; simpl rbind;
    [| exists f1; split; [reflexivity | discriminate]].
  rewrite bind_unfold. unfold Heap.lift at 1.
  destruct (series_round2 s1) as [r | e]; simpl rbind;
    [| exists f1; split; [reflexivity | discriminate]].
  rewrite heap_frame_setitem.
  destruct (setitem f1 wap r) as [f2 | e].
  - exists f2. split; [reflexivity | congruence].
  - exists f1. split; [reflexivity | discriminate].
Qed.

(** The loop over the columns on the store: it computes [convert_columns]
    in the frame object and touches nothing else. *)
Lemma heap_convert_loop (h : Heap.heap) (df_ap log_params : Heap.loc)
    (a : ap_frame) (lp : LogParams) (ks : list string) (f : frame) :
  nth_error h df_ap = Some (Heap.VAps a) ->
  nth_error h log_params = Some (Heap.VParams lp) ->
  exists g,
    Heap.for_ ks (heap_rssi_body (List.length h) df_ap log_params)
              (h ++ [Heap.VFrame f]) =
    (outcome (foldM (rssi_step lp a) ks f), h ++ [Heap.VFrame g]) /\
    forall f', foldM (rssi_step lp a) ks f = Ok f' -> g = f'.
Proof.
  intros Hap Hlp.
  assert (Hbody : forall wap g h',
             h' = h ++ [Heap.VFrame g] ->
             match rssi_step lp a g wap with
             | Ok s' =>
                 exists h'',
                   heap_rssi_body (List.length h) df_ap log_params wap h'
                   = (Ok tt, h'') /\ h'' = h ++ [Heap.VFrame s']
             | Raise e =>
                 exists h'',
                   heap_rssi_body (List.length h) df_ap log_params wap h'
                   = (Raise e, h'') /\ exists g0, h'' = h ++ [Heap.VFrame g0]
             end).
  { intros wap g h' ->.
    destruct (heap_rssi_step h df_ap log_params a lp wap g Hap Hlp) as [g' [E Hg]].
    destruct (rssi_step lp a g wap) as [s' | e]; simpl in E.
    - rewrite (Hg s' eq_refl) in E. eauto.
    - eauto. }
  pose proof (for_foldM
                (fun g h' => h' = h ++ [Heap.VFrame g])
                (fun h' => exists g, h' = h ++ [Heap.VFrame g])
                (rssi_step lp a)
                (heap_rssi_body (List.length h) df_ap log_params) ks
                Hbody f (h ++ [Heap.VFrame f]) eq_refl) as Hloop.
  destruct (foldM (rssi_step lp a) ks f) as [f1 | e].
  - destruct Hloop as [h' [E ->]]. exists f1. split; [exact E | congruence].
  - destruct Hloop as [h' [E [g ->]]]. exists g. split; [exact E | discriminate].
Qed.

(** [expected_rssi] on the store: it returns what the function on values
    returns, in a new frame object, and the store it started from is a
    prefix of the store it ends in, also when it raises. *)
Theorem heap_expected_rssi_run (h : Heap.heap)
    (df_test distances df_ap log_params : Heap.loc) (lp : LogParams)
    (t : points_frame) (ds : list (dict (option pyfloat))) (a : ap_frame) :
  nth_error h df_test = Some (Heap.VPoints t) ->
  nth_error h df_ap = Some (Heap.VAps a) ->
  nth_error h log_params = Some (Heap.VParams lp) ->
  Heap.deref_dicts h distances = Some ds ->
  exists extra,
    Heap.expected_rssi df_test distances df_ap log_params h =
    (located (S (List.length h)) (expected_rssi t ds a lp), h ++ extra) /\
    forall out,
      expected_rssi t ds a lp = Ok out ->
      Heap.deref_frame (h ++ extra) (S (List.length h)) = Some out.
Proof.
  intros Ht Hap Hlp Hds.
  apply deref_dicts_load in Hds. destruct Hds as [ls [Hls Hload]].
  unfold Heap.expected_rssi.
  rewrite (bind_ok (Heap.load_list distances) _ h h ls)
    by (unfold Heap.load_list; now rewrite Hls).
  rewrite (bind_ok _ _ _ _ _ Hload).
  rewrite (bind_ok (Heap.alloc (Heap.VFrame (DataFrame ds))) _ h
             (h ++ [Heap.VFrame (DataFrame ds)]) (List.length h) eq_refl).
  rewrite (bind_ok (Heap.load_frame (List.length h)) _
             (h ++ [Heap.VFrame (DataFrame ds)])
             (h ++ [Heap.VFrame (DataFrame ds)]) (DataFrame ds))
    by (unfold Heap.load_frame; now rewrite nth_error_at).
  change (Heap.for_ (keys (columns (DataFrame ds))) _)
    with (Heap.for_ (keys (columns (DataFrame ds)))
            (heap_rssi_body (List.length h) df_ap log_params)).
  destruct (heap_convert_loop h df_ap log_params a lp
              (keys (columns (DataFrame ds))) (DataFrame ds) Hap Hlp)
    as [g [Eloop Hg]].
  unfold expected_rssi, convert_columns.
  destruct (foldM (rssi_step lp a) (keys (columns (DataFrame ds)))
                  (DataFrame ds)) as [f1 | e]; simpl in Eloop.
  2: { rewrite (bind_raise _ _ _ _ _ Eloop).
       exists [Heap.VFrame g]. split; [reflexivity | discriminate]. }
  rewrite (Hg f1 eq_refl) in Eloop. clear g Hg.
  rewrite (bind_ok _ _ _ _ _ Eloop). simpl rbind.
  rewrite (bind_ok (Heap.load_frame (List.length h)) _
             (h ++ [Heap.VFrame f1]) (h ++ [Heap.VFrame f1]) f1)
    by (unfold Heap.load_frame; now rewrite nth_error_at).
  rewrite bind_unfold. unfold Heap.lift at 1.
  destruct (frame_clip (Fin (-100)) f1) as [clipped | e]; simpl rbind.
  2: { exists [Heap.VFrame f1]. split; [reflexivity | discriminate]. }
  rewrite (bind_ok (Heap.alloc (Heap.VFrame clipped)) _
             (h ++ [Heap.VFrame f1])
             ((h ++ [Heap.VFrame f1]) ++ [Heap.VFrame clipped])
             (List.length (h ++ [Heap.VFrame f1])) eq_refl).
  assert (Hpts : forall g0,
             Heap.load_points df_test
               ((h ++ [Heap.VFrame f1]) ++ [Heap.VFrame g0])
             = (Ok t, (h ++ [Heap.VFrame f1]) ++ [Heap.VFrame g0])).
  { intros g0. unfold Heap.load_points.
    now rewrite (nth_error_old _ _ _ _ (nth_error_old _ _ _ _ Ht)). }
  assert (Hloc : List.length (h ++ [Heap.VFrame f1]) = S (List.length h))
    by (rewrite length_app; simpl; lia).
  rewrite (bind_ok _ _ _ _ _ (Hpts clipped)).
  rewrite bind_unfold, heap_frame_setitem.
  destruct (setitem clipped "LABEL" _) as [f2 | e]; simpl rbind.
  2: { exists [Heap.VFrame f1; Heap.VFrame clipped].
       rewrite <- app_assoc. split; [reflexivity | discriminate]. }
  rewrite (bind_ok _ _ _ _ _ (Hpts f2)).
  rewrite bind_unfold, heap_frame_setitem.
  destruct (setitem f2 "DEVICE" _) as [f3 | e]; simpl rbind.
  2: { exists [Heap.VFrame f1; Heap.VFrame f2].
       rewrite <- app_assoc. split; [reflexivity | discriminate]. }
  rewrite (bind_ok _ _ _ _ _ (Hpts f3)).
  rewrite bind_unfold, heap_frame_setitem.
  destruct (setitem f3 "X" _) as [f4 | e]; simpl rbind.
  2: { exists [Heap.VFrame f1; Heap.VFrame f3].
       rewrite <- app_assoc. split; [reflexivity | discriminate]. }
  rewrite (bind_ok _ _ _ _ _ (Hpts f4)).
  rewrite bind_unfold, heap_frame_setitem.
  destruct (setitem f4 "Y" _) as [f5 | e]; simpl rbind.
  2: { exists [Heap.VFrame f1; Heap.VFrame f4].
       rewrite <- app_assoc. split; [reflexivity | discriminate]. }
  exists [Heap.VFrame f1; Heap.VFrame f5].
  rewrite <- app_assoc. unfold Heap.ret. rewrite Hloc. simpl located.
  split; [reflexivity |].
  intros out E. inversion E. subst out. unfold Heap.deref_frame.
  change (h ++ [Heap.VFrame f1] ++ [Heap.VFrame f5])
    with (h ++ [Heap.VFrame f1; Heap.VFrame f5]).
  replace (h ++ [Heap.VFrame f1; Heap.VFrame f5])
    with ((h ++ [Heap.VFrame f1]) ++ Heap.VFrame f5 :: [])
    by (now rewrite <- app_assoc).
  now rewrite (nth_error_at (h ++ [Heap.VFrame f1]) [] (Heap.VFrame f5)
                 (S (List.length h)) (eq_sym Hloc)).
Qed.

(** ** C9: determinism and absence of side effects *)




(** * Further properties of the two functions *)

(** ** Rounding is monotone *)






(** ** The keys of a mapping *)

Lemma In_fold_add_key (ks : list string) (k : string) :
  In k (fold_left add_key ks []) <-> In k ks.
Proof.
  rewrite <- !str_in_In, str_in_fold_add_key. reflexivity.
Qed.

(** X1.  Whatever the registry holds, every mapping returned by
    [get_distances] has as keys the columns of the table whose name starts
    with [WAP], each once, in the order of the columns: a name of the
    registry that is not such a column is never a key, and a column
    without an access point still is one. *)
Theorem mapping_keys (df : points_frame) (ap_df : ap_frame) (H : pyfloat)
    (m : dict (option pyfloat)) :
  In m (get_distances df ap_df H) ->
  keys m = fold_left add_key (wap_columns df) [] /\
  NoDup (keys m) /\
  (forall k, In k (keys m) <->
             In k (df_columns df) /\ String.prefix "WAP" k = true) /\
  (forall k, In k (keys m) <-> dict_get m k <> None).
Proof.
  intros Hin. rewrite get_distances_map in Hin. apply in_map_iff in Hin.
  destruct Hin as [row [<- _]]. rewrite keys_row_distances.
  split; [reflexivity |]. split; [| split].
  - apply fold_add_key_NoDup. constructor.
  - intros k. rewrite In_fold_add_key. unfold wap_columns.
    apply filter_In.
  - intros k. rewrite <- keys_row_distances
      with (coords := ap_coords (wap_columns df) ap_df) (H := H) (row := row).
    rewrite dict_get_keys. split; [tauto |].
    intros Hn. destruct (in_dec string_dec k
                           (keys (row_distances (wap_columns df)
                                    (ap_coords (wap_columns df) ap_df) H row)));
      tauto.
Qed.

Lemma mapping_keys_witness :
  keys [("WAP001"%string, Some (round2 (euclid (Fin 0) (Fin 0) (Fin 3) (Fin 4)
                                          (Fin 2))));
        ("WAP002"%string, @None pyfloat)]
  = fold_left add_key (wap_columns sample_points) [].
Proof.
  refine (proj1 (mapping_keys sample_points sample_aps (Fin 2) _ _)).
  rewrite sample_distances. left. reflexivity.
Defined.

(** ** The registry *)

Lemma ap_coords_filter (waps : list string) (ap_df : ap_frame) :
  ap_coords waps ap_df =
  ap_coords waps (filter (fun row => str_in (AP row) waps) ap_df).
Proof.
  unfold ap_coords. generalize (@nil (string * (pyfloat * pyfloat))) as acc.
  induction ap_df as [| row ap_df IH]; simpl; intros acc.
  - reflexivity.
  - destruct (str_in (AP row) waps) eqn:E; simpl.
    + rewrite E. apply IH.
    + apply IH.
Qed.

(** X2.  The rows of the registry whose name is not a WAP column of the
    table have no effect: [get_distances] returns the same mappings on the
    registry without them. *)
Theorem registry_rows_outside_ignored (df : points_frame) (ap_df : ap_frame)
    (H : pyfloat) :
  get_distances df ap_df H =
  get_distances df
    (filter (fun row => str_in (AP row) (wap_columns df)) ap_df) H.
Proof.
  unfold get_distances. now rewrite <- ap_coords_filter.
Qed.




(** ** Rows are independent *)

(** X4.  The mapping of a point depends on that point only: on a table
    whose rows are [rows1] followed by [rows2], [get_distances] returns the
    mappings of [rows1] followed by the mappings of [rows2], so a table can
    be processed in pieces. *)
Theorem get_distances_app (cols : list string) (rows1 rows2 : list point)
    (ap_df : ap_frame) (H : pyfloat) :
  get_distances {| df_columns := cols; df_rows := rows1 ++ rows2 |} ap_df H =
  get_distances {| df_columns := cols; df_rows := rows1 |} ap_df H ++
  get_distances {| df_columns := cols; df_rows := rows2 |} ap_df H.
Proof.
  rewrite !get_distances_map. simpl. apply map_app.
Qed.

(** ** A positive height offset keeps the RSSI finite *)







(** ** Which exception, and when *)

Lemma union_keys_nil {V : Type} : union_keys (@nil (dict V)) = [].
Proof. reflexivity. Qed.

(** A recognized column that holds [None] in every mapping makes the loop
    raise, before the lengths are looked at. *)
Lemma expected_rssi_type_error (df_test : points_frame)
    (ds : list (dict (option pyfloat))) (df_ap : ap_frame) (lp : LogParams)
    (k : string) :
  In k (union_keys ds) -> recognized df_ap k = true ->
  none_column ds k = true ->
  expected_rssi df_test ds df_ap lp = Raise TypeError.
Proof.
  intros Hin Hrec Hnone.
  assert (Hne : ds <> []) by (intros ->; exact Hin).
  rewrite expected_rssi_closed by exact Hne.
  destruct (mapM (entryM (convert_named lp df_ap)) (columns (DataFrame ds)))
    as [cs | e] eqn:E.
  - exfalso.
    assert (Hex : exists cs0,
               mapM (entryM (convert_named lp df_ap)) (columns (DataFrame ds))
               = Ok cs0) by eauto.
    pose proof (proj1 (convert_ok_iff lp df_ap ds) Hex k Hin Hrec).
    congruence.
  - apply convert_raise in E. now subst e.
Qed.

(** X8.  The outcome of [expected_rssi] in full.  It raises [TypeError]
    when some recognized column holds [None] in every mapping, whatever the
    lengths; otherwise it raises [ValueError] when the list of mappings is
    not empty and its length differs from the number of rows of [df_test];
    otherwise it returns a frame. *)
Theorem expected_rssi_outcome (df_test : points_frame)
    (ds : list (dict (option pyfloat))) (df_ap : ap_frame) (lp : LogParams) :
  ((exists k, In k (union_keys ds) /\ recognized df_ap k = true /\
              none_column ds k = true) ->
   expected_rssi df_test ds df_ap lp = Raise TypeError) /\
  ((forall k, In k (union_keys ds) -> recognized df_ap k = true ->
              none_column ds k = false) ->
   (ds <> [] /\ List.length ds <> List.length (df_rows df_test) ->
    expected_rssi df_test ds df_ap lp = Raise ValueError) /\
   (ds = [] \/ List.length ds = List.length (df_rows df_test) ->
    exists out, expected_rssi df_test ds df_ap lp = Ok out)).
Proof.
  split.
  - intros [k [Hin [Hrec Hnone]]].
    eapply expected_rssi_type_error; eassumption.
  - intros Hall. split.
    + intros [Hne Hlen].
      pose proof (expected_rssi_length_mismatch df_test ds df_ap lp Hne Hlen)
        as H.
      rewrite convert_columns_closed in H.
      destruct (proj2 (convert_ok_iff lp df_ap ds) Hall) as [cs Hcs].
      rewrite Hcs in H. exact H.
    + intros Hlen. apply expected_rssi_ok_iff. auto.
Qed.

Lemma expected_rssi_outcome_witness :
  expected_rssi sample_points [ [("WAP001"%string, @None pyfloat)] ]
    sample_aps lp_40_2 = Raise TypeError /\
  expected_rssi sample_points
    [ [("WAP001"%string, Some (Fin 1))]; [("WAP001"%string, Some (Fin 2))] ]
    sample_aps lp_40_2 = Raise ValueError.
Proof.
  split.
  - apply (proj1 (expected_rssi_outcome sample_points
                    [ [("WAP001"%string, @None pyfloat)] ] sample_aps lp_40_2)).
    exists "WAP001"%string. repeat split. simpl. auto.
  - apply (proj2 (expected_rssi_outcome sample_points
                    [ [("WAP001"%string, Some (Fin 1))];
                      [("WAP001"%string, Some (Fin 2))] ] sample_aps lp_40_2)).
    + intros k [<- | []] _. reflexivity.
    + split; discriminate.
Defined.



(** ** The columns of the output *)

Lemma keys_attach_identity (df_test : points_frame) (cs : dict column) :
  keys (attach_identity df_test cs) =
  fold_left add_key ["LABEL"; "DEVICE"; "X"; "Y"]%string (keys cs).
Proof.
  unfold attach_identity. now rewrite !keys_dict_set.
Qed.

(** X10.  When [expected_rssi] returns, the columns of the output are the
    keys of the mappings, in the order of their first appearance, followed
    by those of LABEL, DEVICE, X and Y that are not among the keys (a key
    of one of these names keeps its place and is overwritten). *)
Theorem output_columns (df_test : points_frame)
    (ds : list (dict (option pyfloat))) (df_ap : ap_frame) (lp : LogParams)
    (out : frame) :
  expected_rssi df_test ds df_ap lp = Ok out ->
  keys (columns out) =
  fold_left add_key ["LABEL"; "DEVICE"; "X"; "Y"]%string (union_keys ds).
Proof.
  intros Hok. destruct ds as [| d ds].
  - rewrite expected_rssi_nil in Hok. inversion Hok. cbn [columns].
    apply keys_attach_identity.
  - rewrite expected_rssi_closed in Hok by discriminate.
    destruct (mapM (entryM (convert_named lp df_ap))
                   (columns (DataFrame (d :: ds)))) as [cs | e] eqn:E1;
      simpl in Hok; [| discriminate].
    destruct (mapM (entryM (fun _ => clip_column (Fin (-100)))) cs)
      as [cs' | e] eqn:E2; simpl in Hok; [| discriminate].
    match type of Hok with
    | context [if ?b then _ else _] => destruct b; [| discriminate]
    end.
    inversion Hok. cbn [columns]. rewrite keys_attach_identity.
    rewrite (mapM_entry_keys _ _ _ E2), (mapM_entry_keys _ _ _ E1).
    now rewrite keys_DataFrame.
Qed.

Lemma output_columns_witness :
  exists out,
    expected_rssi sample_points (one_distance (Fin 10)) sample_aps lp_40_2
      = Ok out /\
    keys (columns out) = ["WAP001"; "LABEL"; "DEVICE"; "X"; "Y"]%string.
Proof.
  assert (Hex : exists out,
             expected_rssi sample_points (one_distance (Fin 10)) sample_aps
               lp_40_2 = Ok out).
  { apply expected_rssi_ok_iff. split; [now right |].
    intros k [<- | []] _. reflexivity. }
  destruct Hex as [out Hok]. exists out. split; [exact Hok |].
  exact (output_columns sample_points (one_distance (Fin 10)) sample_aps
           lp_40_2 out Hok).
Defined.

(** ** The module-level tables *)






(** ** The undefined value through the formulas *)

Lemma fmul_nan_r (a : pyfloat) : fmul a NaN = NaN.
Proof. destruct a; reflexivity. Qed.

Lemma fadd_nan_r (a : pyfloat) : fadd a NaN = NaN.
Proof. destruct a; reflexivity. Qed.

Lemma rssi_of_nan (lp : LogParams) :
  clip_float (Fin (-100)) (round2 (path_loss lp (np_log10 NaN))) = NaN.
Proof.
  unfold path_loss, fsub. simpl np_log10.
  rewrite fmul_nan_r. simpl fneg at 2. rewrite fadd_nan_r. reflexivity.
Qed.

(** ** The objects that get_distances creates *)




(** ** expected_rssi when it raises *)

(** X14.  [expected_rssi] changes none of the objects it is given, also
    when it raises: after the call the table [df_test], the registry, the
    parameters, the list of mappings and its dictionaries are what they
    were, the exception is the one of the function on values, and a
    returned frame is a new object that holds the table of the function on
    values. *)
Theorem expected_rssi_keeps_inputs (h : Heap.heap)
    (df_test distances df_ap log_params : Heap.loc) (lp : LogParams)
    (t : points_frame) (ds : list (dict (option pyfloat))) (a : ap_frame) :
  nth_error h df_test = Some (Heap.VPoints t) ->
  nth_error h df_ap = Some (Heap.VAps a) ->
  nth_error h log_params = Some (Heap.VParams lp) ->
  Heap.deref_dicts h distances = Some ds ->
  exists r h',
    Heap.expected_rssi df_test distances df_ap log_params h = (r, h') /\
    Heap.unchanged_below (List.length h) h h' /\
    Heap.deref_dicts h' distances = Some ds /\
    (forall e, expected_rssi t ds a lp = Raise e -> r = Raise e) /\
    (forall out, expected_rssi t ds a lp = Ok out ->
       exists l, r = Ok l /\ (List.length h <= l)%nat /\
                 Heap.deref_frame h' l = Some out).
Proof.
  intros Ht Hap Hlp Hds.
  destruct (heap_expected_rssi_run h df_test distances df_ap log_params lp
              t ds a Ht Hap Hlp Hds) as [extra [E F]].
  eexists. exists (h ++ extra). split; [exact E |].
  split; [apply unchanged_below_app |].
  split; [now apply deref_dicts_ext |]. split.
  - intros e He. now rewrite He.
  - intros out Ho. exists (S (List.length h)). rewrite Ho.
    split; [reflexivity |]. split; [lia | now apply F].
Qed.

Lemma expected_rssi_keeps_inputs_witness :
  exists r h',
    Heap.expected_rssi 0%nat 3%nat 1%nat 2%nat
      [Heap.VPoints sample_points; Heap.VAps sample_aps;
       Heap.VParams lp_40_2; Heap.VList [4%nat];
       Heap.VDict [("WAP001"%string, @None pyfloat)]] = (r, h') /\
    r = Raise TypeError /\
    Heap.deref_dicts h' 3%nat = Some [ [("WAP001"%string, @None pyfloat)] ].
Proof.
  destruct (expected_rssi_keeps_inputs
              [Heap.VPoints sample_points; Heap.VAps sample_aps;
               Heap.VParams lp_40_2; Heap.VList [4%nat];
               Heap.VDict [("WAP001"%string, @None pyfloat)]]
              0%nat 3%nat 1%nat 2%nat lp_40_2 sample_points
              [ [("WAP001"%string, @None pyfloat)] ] sample_aps
              eq_refl eq_refl eq_refl eq_refl)
    as (r & h' & E & _ & D & Hr & _).
  exists r, h'. split; [exact E |]. split; [| exact D].
  apply Hr.
  apply (expected_rssi_type_error _ _ _ _ "WAP001"%string);
    [simpl; auto | reflexivity | reflexivity].
Defined.

(** ** An undefined distance in a column of numbers *)

(** X15.  In a column that holds a number in some mapping, a mapping that
    holds [None] there, or lacks the key, comes out as [nan]:
    [pd.DataFrame] makes the column a column of floats, the conversion and
    the clip keep [nan], and nothing is raised for it, whether the column is
    recognized or not. *)
Theorem undefined_in_float_column (df_test : points_frame)
    (ds : list (dict (option pyfloat))) (df_ap : ap_frame) (lp : LogParams)
    (out : frame) (i j : nat) (mi mj : dict (option pyfloat)) (wap : string)
    (d : pyfloat) :
  expected_rssi df_test ds df_ap lp = Ok out ->
  nth_error ds i = Some mi ->
  dict_get mi wap = Some None \/ dict_get mi wap = None ->
  nth_error ds j = Some mj -> dict_get mj wap = Some (Some d) ->
  identity_column wap = false ->
  cell out i wap = Some (OFloat NaN).
Proof.
  intros Hok Hmi Hu Hmj Hd Hid.
  pose proof (DataFrame_cell_undefined _ _ _ _ _ _ _ Hmi Hu Hmj Hd) as Hcell.
  pose proof (expected_rssi_cell _ _ _ _ _ _ _ _ Hok Hid Hcell) as H.
  destruct (recognized df_ap wap).
  - destruct H as [d' [E H]]. inversion E. subst d'. rewrite H.
    unfold rssi_of_distance. now rewrite rssi_of_nan.
  - exact H.
Qed.

Lemma undefined_in_float_column_witness :
  exists out,
    expected_rssi two_points
      [ [("WAP001"%string, @None pyfloat)]; [("WAP001"%string, Some (Fin 10))] ]
      sample_aps lp_40_2 = Ok out /\
    cell out 0 "WAP001" = Some (OFloat NaN).
Proof.
  assert (Hex : exists out,
             expected_rssi two_points
               [ [("WAP001"%string, @None pyfloat)];
                 [("WAP001"%string, Some (Fin 10))] ]
               sample_aps lp_40_2 = Ok out).
  { apply expected_rssi_ok_iff. split; [now right |].
    intros k [<- | []] _. reflexivity. }
  destruct Hex as [out Hok]. exists out. split; [exact Hok |].
  exact (undefined_in_float_column two_points _ sample_aps lp_40_2 out
           0 1 [("WAP001"%string, @None pyfloat)]
           [("WAP001"%string, Some (Fin 10))] "WAP001" (Fin 10)
           Hok eq_refl (or_introl eq_refl) eq_refl eq_refl eq_refl).
Defined.

(** ** The functions over the interface of the arithmetic *)

Lemma rbind_ok_r {B : Type} (m : result B) :
  (b <- m ;; Ok b)%result = m.
Proof. destruct m; reflexivity. Qed.

Lemma foldM_snoc {B C : Type} (f : B -> result C) (l : list B)
    (acc : list C) :
  foldM (fun acc a => (c <- f a ;; Ok (acc ++ [c]))%result) l acc =
  (cs <- mapM f l ;; Ok (acc ++ cs))%result.
Proof.
  revert acc. induction l as [| a l IH]; simpl; intros acc.
  - now rewrite app_nil_r.
  - destruct (f a) as [c | e]; simpl; [| reflexivity].
    rewrite IH. destruct (mapM f l) as [cs | e]; simpl; [| reflexivity].
    now rewrite <- app_assoc.
Qed.

Section NumFacts.

Variable A : Num.arith.

Local Abbreviation T := (Num.num A).

(** *** get_distances *)

Lemma num_ap_coords_get (waps : list string) (ap_df : Num.ap_frame T)
    (k : string) :
  dict_get (Num.ap_coords waps ap_df) k =
  if str_in k waps
  then option_map (fun ap => (Num.ap_x ap, Num.ap_y ap))
                  (Num.registry_lookup ap_df k)
  else None.
Proof.
  unfold Num.ap_coords, Num.registry_lookup.
  induction ap_df as [| row ap_df IH] using rev_ind.
  - simpl. destruct (str_in k waps); reflexivity.
  - rewrite fold_left_app, rev_app_distr. simpl.
    destruct (String.eqb (Num.AP row) k) eqn:Ek.
    + apply String.eqb_eq in Ek. subst k.
      destruct (str_in (Num.AP row) waps) eqn:Ein.
      * rewrite dict_get_set, String.eqb_refl. reflexivity.
      * rewrite IH. reflexivity.
    + destruct (str_in (Num.AP row) waps) eqn:Ein.
      * rewrite dict_get_set, String.eqb_sym, Ek. exact IH.
      * exact IH.
Qed.

(** The loop over the rows is a map that stops at the first row that
    raises. *)
Lemma num_get_distances_mapM (df : Num.points_frame T)
    (ap_df : Num.ap_frame T) (H : T) :
  Num.get_distances A df ap_df H =
  mapM (Num.row_distances A (Num.wap_columns df)
          (Num.ap_coords (Num.wap_columns df) ap_df) H)
       (Num.df_rows df).
Proof.
  unfold Num.get_distances. cbv zeta. rewrite foldM_snoc. simpl.
  apply rbind_ok_r.
Qed.

(** One turn of the inner loop writes the entry of the column. *)
Lemma num_row_step (coords : dict (T * T)) (H : T) (row : Num.point T)
    (acc : dict (option T)) (w : string) :
  match dict_get coords w with
  | Some (ax, ay) =>
      (distance <- Num.euclid A (Num.X row) (Num.Y row) ax ay H ;;
       Ok (dict_set acc w (Some (Num.round2 A distance))))%result
  | None => Ok (dict_set acc w None)
  end =
  (e <- Num.distance_entry A coords H row w ;; Ok (dict_set acc w e))%result.
Proof.
  unfold Num.distance_entry.
  destruct (dict_get coords w) as [[ax ay] |]; [| reflexivity].
  destruct (Num.euclid A (Num.X row) (Num.Y row) ax ay H); reflexivity.
Qed.

Lemma num_row_loop (coords : dict (T * T)) (H : T) (row : Num.point T)
    (waps : list string) (acc m : dict (option T)) :
  foldM
    (fun distances wap_name =>
       match dict_get coords wap_name with
       | Some (ax, ay) =>
           (distance <- Num.euclid A (Num.X row) (Num.Y row) ax ay H ;;
            Ok (dict_set distances wap_name
                  (Some (Num.round2 A distance))))%result
       | None => Ok (dict_set distances wap_name None)
       end) waps acc = Ok m ->
  forall k,
    if str_in k waps
    then exists e, Num.distance_entry A coords H row k = Ok e /\
                   dict_get m k = Some e
    else dict_get m k = dict_get acc k.
Proof.
  revert acc. induction waps as [| w waps IH]; simpl; intros acc E k.
  - inversion E. reflexivity.
  - rewrite num_row_step in E.
    destruct (Num.distance_entry A coords H row w) as [e | x] eqn:Ee;
      simpl in E; [| discriminate].
    specialize (IH _ E k). destruct (str_in k waps) eqn:Ein.
    + now rewrite orb_true_r.
    + rewrite orb_false_r. rewrite IH, dict_get_set.
      destruct (String.eqb k w) eqn:Ek; [| reflexivity].
      apply String.eqb_eq in Ek. subst w. exists e. auto.
Qed.

Lemma num_row_distances_get (waps : list string) (coords : dict (T * T))
    (H : T) (row : Num.point T) (m : dict (option T)) (k : string) :
  Num.row_distances A waps coords H row = Ok m ->
  if str_in k waps
  then exists e, Num.distance_entry A coords H row k = Ok e /\
                 dict_get m k = Some e
  else dict_get m k = None.
Proof.
  intros E. exact (num_row_loop _ _ _ _ _ _ E k).
Qed.

Lemma num_row_loop_ok (coords : dict (T * T)) (H : T) (row : Num.point T)
    (waps : list string) (acc : dict (option T)) :
  (forall k, In k waps ->
             exists e, Num.distance_entry A coords H row k = Ok e) ->
  exists m,
    foldM
      (fun distances wap_name =>
         match dict_get coords wap_name with
         | Some (ax, ay) =>
             (distance <- Num.euclid A (Num.X row) (Num.Y row) ax ay H ;;
              Ok (dict_set distances wap_name
                    (Some (Num.round2 A distance))))%result
         | None => Ok (dict_set distances wap_name None)
         end) waps acc = Ok m.
Proof.
  revert acc. induction waps as [| w waps IH]; simpl; intros acc Hall.
  - eauto.
  - rewrite num_row_step.
    destruct (Hall w (or_introl eq_refl)) as [e ->]. simpl.
    apply IH. intros k Hk. apply Hall. now right.
Qed.

Lemma num_row_loop_raise (coords : dict (T * T)) (H : T) (row : Num.point T)
    (waps : list string) (acc : dict (option T)) (x : exn) :
  foldM
    (fun distances wap_name =>
       match dict_get coords wap_name with
       | Some (ax, ay) =>
           (distance <- Num.euclid A (Num.X row) (Num.Y row) ax ay H ;;
            Ok (dict_set distances wap_name
                  (Some (Num.round2 A distance))))%result
       | None => Ok (dict_set distances wap_name None)
       end) waps acc = Raise x ->
  exists k, In k waps /\ Num.distance_entry A coords H row k = Raise x.
Proof.
  revert acc. induction waps as [| w waps IH]; simpl; intros acc E.
  - discriminate.
  - rewrite num_row_step in E.
    destruct (Num.distance_entry A coords H row w) as [e | x0] eqn:Ee;
      simpl in E.
    + destruct (IH _ E) as [k [Hin Hk]]. exists k. auto.
    + inversion E. subst x0. exists w. auto.
Qed.

(** The entry of a registered column. *)
Lemma num_distance_entry_registry (waps : list string)
    (ap_df : Num.ap_frame T) (H : T) (row : Num.point T) (k : string) :
  str_in k waps = true ->
  Num.distance_entry A (Num.ap_coords waps ap_df) H row k =
  match Num.registry_lookup ap_df k with
  | Some ap =>
      (distance <- Num.euclid A (Num.X row) (Num.Y row)
                     (Num.ap_x ap) (Num.ap_y ap) H ;;
       Ok (Some (Num.round2 A distance)))%result
  | None => Ok None
  end.
Proof.
  intros Hin. unfold Num.distance_entry.
  rewrite num_ap_coords_get, Hin.
  destruct (Num.registry_lookup ap_df k); reflexivity.
Qed.

(** What a call that returns has recorded for a registered column. *)
Lemma num_get_distances_entry (df : Num.points_frame T)
    (ap_df : Num.ap_frame T) (H : T) (l : list (dict (option T)))
    (i : nat) (p : Num.point T) (wap : string) (ap : Num.access_point T) :
  Num.get_distances A df ap_df H = Ok l ->
  nth_error (Num.df_rows df) i = Some p ->
  In wap (Num.wap_columns df) ->
  Num.registry_lookup ap_df wap = Some ap ->
  exists m d,
    nth_error l i = Some m /\
    Num.euclid A (Num.X p) (Num.Y p) (Num.ap_x ap) (Num.ap_y ap) H = Ok d /\
    dict_get m wap = Some (Some (Num.round2 A d)).
Proof.
  intros Hok Hp Hin Hreg. rewrite num_get_distances_mapM in Hok.
  destruct (mapM_nth _ _ _ _ _ Hok Hp) as [m [Hm Hnth]].
  apply str_in_In in Hin.
  pose proof (num_row_distances_get _ _ _ _ _ wap Hm) as Hk.
  rewrite Hin in Hk. destruct Hk as [e [He Hget]].
  rewrite num_distance_entry_registry, Hreg in He by assumption.
  destruct (Num.euclid A (Num.X p) (Num.Y p) (Num.ap_x ap) (Num.ap_y ap) H)
    as [d | x]; simpl in He; [| discriminate].
  inversion He. subst e. exists m, d. auto.
Qed.

(** The call returns exactly when no distance raises. *)
Lemma num_get_distances_ok_iff (df : Num.points_frame T)
    (ap_df : Num.ap_frame T) (H : T) :
  (exists l, Num.get_distances A df ap_df H = Ok l) <->
  (forall p wap ap,
     In p (Num.df_rows df) -> In wap (Num.wap_columns df) ->
     Num.registry_lookup ap_df wap = Some ap ->
     exists d,
       Num.euclid A (Num.X p) (Num.Y p) (Num.ap_x ap) (Num.ap_y ap) H
       = Ok d).
Proof.
  rewrite num_get_distances_mapM. split.
  - intros [l Hok] p wap ap Hp Hin Hreg.
    apply In_nth_error in Hp. destruct Hp as [i Hp].
    destruct (mapM_nth _ _ _ _ _ Hok Hp) as [m [Hm _]].
    apply str_in_In in Hin.
    pose proof (num_row_distances_get _ _ _ _ _ wap Hm) as Hk.
    rewrite Hin in Hk. destruct Hk as [e [He _]].
    rewrite num_distance_entry_registry, Hreg in He by assumption.
    destruct (Num.euclid A (Num.X p) (Num.Y p) (Num.ap_x ap) (Num.ap_y ap) H)
      as [d | x]; simpl in He; [eauto | discriminate].
  - intros Hall. apply mapM_ok_iff. apply Forall_forall. intros p Hp.
    apply num_row_loop_ok. intros k Hk.
    rewrite num_distance_entry_registry by now apply str_in_In.
    destruct (Num.registry_lookup ap_df k) as [ap |] eqn:Hreg; [| eauto].
    destruct (Hall p k ap Hp Hk Hreg) as [d ->]. simpl. eauto.
Qed.

(** An exception of the call is the exception of a distance. *)
Lemma num_get_distances_raise (df : Num.points_frame T)
    (ap_df : Num.ap_frame T) (H : T) (x : exn) :
  Num.get_distances A df ap_df H = Raise x ->
  exists p wap ap,
    In p (Num.df_rows df) /\ In wap (Num.wap_columns df) /\
    Num.registry_lookup ap_df wap = Some ap /\
    Num.euclid A (Num.X p) (Num.Y p) (Num.ap_x ap) (Num.ap_y ap) H
    = Raise x.
Proof.
  rewrite num_get_distances_mapM. intros E.
  destruct (mapM_raise _ _ _ E) as [p [Hp Hr]].
  destruct (num_row_loop_raise _ _ _ _ _ _ Hr) as [k [Hk He]].
  rewrite num_distance_entry_registry in He by now apply str_in_In.
  destruct (Num.registry_lookup ap_df k) as [ap |] eqn:Hreg;
    [| discriminate].
  exists p, k, ap.
  split; [assumption |]. split; [assumption |]. split; [assumption |].
  destruct (Num.euclid A (Num.X p) (Num.Y p) (Num.ap_x ap) (Num.ap_y ap) H)
    as [d | x0]; simpl in He; [discriminate | now inversion He].
Qed.

(** *** Frames *)

Lemma num_mapM_entry_get
    (g : string -> Num.column T -> result (Num.column T))
    (cs cs' : dict (Num.column T)) (k : string) :
  mapM (Num.entryM g) cs = Ok cs' ->
  match dict_get cs k with
  | Some c => exists c', g k c = Ok c' /\ dict_get cs' k = Some c'
  | None => dict_get cs' k = None
  end.
Proof.
  revert cs'. induction cs as [| [k0 c0] cs IH]; simpl; intros cs' E.
  - inversion E. reflexivity.
  - unfold Num.entryM at 1 in E. simpl in E.
    destruct (g k0 c0) as [c0' | e] eqn:E0; simpl in E; [| discriminate].
    destruct (mapM (Num.entryM g) cs) as [cs0 | e]; simpl in E;
      [| discriminate].
    inversion E. subst cs'. simpl.
    destruct (String.eqb k k0) eqn:Ek.
    + apply String.eqb_eq in Ek. subst k0. exists c0'. auto.
    + now apply IH.
Qed.

Lemma num_col_length_column_of (ds : list (dict (option T))) (k : string) :
  Num.col_length (Num.column_of A ds k) = List.length ds.
Proof.
  unfold Num.column_of.
  destruct (Num.all_none (map (fun d => dict_get d k) ds)); simpl;
    now rewrite !length_map.
Qed.

Lemma num_DataFrame_wf (ds : list (dict (option T))) :
  Num.frame_wf (Num.DataFrame A ds).
Proof.
  unfold Num.frame_wf, Num.DataFrame. simpl. apply Forall_forall.
  intros [k c] Hin. apply in_map_iff in Hin. destruct Hin as [k0 [E _]].
  inversion E. subst. simpl. apply num_col_length_column_of.
Qed.

Lemma num_keys_DataFrame (ds : list (dict (option T))) :
  keys (Num.columns (Num.DataFrame A ds)) = union_keys ds.
Proof.
  unfold keys, Num.DataFrame. simpl. rewrite map_map. simpl. apply map_id.
Qed.

Lemma num_DataFrame_column (ds : list (dict (option T))) (k : string) :
  dict_get (Num.columns (Num.DataFrame A ds)) k =
  if str_in k (union_keys ds) then Some (Num.column_of A ds k) else None.
Proof. unfold Num.DataFrame. simpl. apply dict_get_map. Qed.

Lemma num_ensure_valid_index_same (f : Num.frame T) :
  Num.ensure_valid_index A f (Num.index f) = f.
Proof.
  unfold Num.ensure_valid_index. destruct (Num.index f =? 0)%nat; reflexivity.
Qed.

Lemma num_setitem_same_length (f : Num.frame T) (k : string)
    (v : Num.column T) :
  Num.col_length v = Num.index f ->
  Num.setitem A f k v =
  Ok {| Num.index := Num.index f;
        Num.columns := dict_set (Num.columns f) k v |}.
Proof.
  intros E. unfold Num.setitem. rewrite E, num_ensure_valid_index_same.
  now rewrite Nat.eqb_refl.
Qed.

Lemma num_setitem_nonempty (f : Num.frame T) (k : string)
    (v : Num.column T) :
  Num.index f <> 0%nat ->
  Num.setitem A f k v =
  if (Num.col_length v =? Num.index f)%nat
  then Ok {| Num.index := Num.index f;
             Num.columns := dict_set (Num.columns f) k v |}
  else Raise ValueError.
Proof.
  intros Hn. unfold Num.setitem, Num.ensure_valid_index.
  apply Nat.eqb_neq in Hn. rewrite Hn. reflexivity.
Qed.

(** One turn of the loop on a column of the frame. *)
Lemma num_rssi_step_column (lp : Num.LogParams T) (df_ap : Num.ap_frame T)
    (n : nat) (done todo : dict (Num.column T)) (k : string)
    (c : Num.column T) :
  ~ In k (keys done) -> Num.col_length c = n ->
  Num.rssi_step A lp df_ap
    {| Num.index := n; Num.columns := done ++ (k, c) :: todo |} k =
  (c' <- Num.convert_named A lp df_ap k c ;;
   Ok {| Num.index := n; Num.columns := done ++ (k, c') :: todo |})%result.
Proof.
  intros Hfresh Hlen.
  unfold Num.rssi_step, Num.convert_named, Num.recognized.
  destruct (str_in k (map Num.AP df_ap)); [| reflexivity].
  unfold Num.getitem at 1. simpl. rewrite dict_get_app_fresh by assumption.
  simpl. destruct c as [vs | vs]; simpl; [| reflexivity].
  rewrite num_setitem_same_length by (simpl in *; now rewrite !length_map).
  simpl. rewrite dict_set_app_fresh by assumption.
  unfold Num.getitem. simpl. rewrite dict_get_app_fresh by assumption. simpl.
  rewrite num_setitem_same_length by (simpl in *; now rewrite !length_map).
  simpl. rewrite dict_set_app_fresh by assumption.
  rewrite !map_map. reflexivity.
Qed.

(** The loop over the columns, as one pass over the table of columns. *)
Lemma num_convert_loop (lp : Num.LogParams T) (df_ap : Num.ap_frame T)
    (n : nat) (todo done : dict (Num.column T)) :
  NoDup (keys (done ++ todo)) ->
  Forall (fun kc => Num.col_length (snd kc) = n) (done ++ todo) ->
  foldM (Num.rssi_step A lp df_ap) (keys todo)
        {| Num.index := n; Num.columns := done ++ todo |} =
  (todo' <- mapM (Num.entryM (Num.convert_named A lp df_ap)) todo ;;
   Ok {| Num.index := n; Num.columns := done ++ todo' |})%result.
Proof.
  revert done. induction todo as [| [k c] todo IH]; intros done Hnd Hall.
  - reflexivity.
  - assert (Hfresh : ~ In k (keys done)).
    { unfold keys in *. rewrite map_app in Hnd. simpl in Hnd.
      apply NoDup_remove_2 in Hnd. rewrite in_app_iff in Hnd. tauto. }
    assert (Hlen : Num.col_length c = n).
    { rewrite Forall_app in Hall. destruct Hall as [_ Hall].
      inversion Hall. assumption. }
    simpl keys. simpl foldM. rewrite num_rssi_step_column by assumption.
    simpl mapM. unfold Num.entryM at 1. simpl.
    destruct (Num.convert_named A lp df_ap k c) as [c' | e] eqn:Ec; simpl;
      [| reflexivity].
    replace (done ++ (k, c') :: todo) with ((done ++ [(k, c')]) ++ todo)
      by (now rewrite <- app_assoc).
    rewrite IH.
    + destruct (mapM (Num.entryM (Num.convert_named A lp df_ap)) todo)
        as [todo' | e]; simpl; [| reflexivity].
      now rewrite <- app_assoc.
    + unfold keys in *. rewrite <- app_assoc. simpl.
      rewrite !map_app in *. simpl in *. assumption.
    + rewrite <- app_assoc. simpl.
      rewrite Forall_app in *. destruct Hall as [H1 H2]. split; [assumption |].
      inversion H2; subst. constructor; [| assumption]. simpl.
      unfold Num.convert_named in Ec.
      destruct (Num.recognized df_ap k).
      * destruct c; simpl in Ec; inversion Ec. simpl. now rewrite length_map.
      * inversion Ec. reflexivity.
Qed.

Lemma num_convert_columns_closed (lp : Num.LogParams T)
    (df_ap : Num.ap_frame T) (ds : list (dict (option T))) :
  Num.convert_columns A lp df_ap (Num.DataFrame A ds) =
  (cs <- mapM (Num.entryM (Num.convert_named A lp df_ap))
              (Num.columns (Num.DataFrame A ds)) ;;
   Ok {| Num.index := List.length ds; Num.columns := cs |})%result.
Proof.
  unfold Num.convert_columns.
  pose proof (num_convert_loop lp df_ap (List.length ds)
                (Num.columns (Num.DataFrame A ds)) []) as H.
  apply H.
  - change (NoDup (keys (Num.columns (Num.DataFrame A ds)))).
    rewrite num_keys_DataFrame. apply union_keys_NoDup.
  - apply (num_DataFrame_wf ds).
Qed.

Lemma num_attach_identity_other (df_test : Num.points_frame T)
    (cs : dict (Num.column T)) (k : string) :
  identity_column k = false ->
  dict_get (Num.attach_identity df_test cs) k = dict_get cs k.
Proof.
  intros H. apply identity_column_false in H. destruct H as [H1 [H2 [H3 H4]]].
  unfold Num.attach_identity. rewrite !dict_get_set, H1, H2, H3, H4.
  reflexivity.
Qed.

Lemma num_expected_rssi_closed (df_test : Num.points_frame T)
    (ds : list (dict (option T))) (df_ap : Num.ap_frame T)
    (lp : Num.LogParams T) :
  ds <> [] ->
  Num.expected_rssi A df_test ds df_ap lp =
  (cs <- mapM (Num.entryM (Num.convert_named A lp df_ap))
              (Num.columns (Num.DataFrame A ds)) ;;
   cs' <- mapM (Num.entryM
                  (fun _ => Num.clip_column A (Num.of_int A (-100)))) cs ;;
   if (List.length (Num.df_rows df_test) =? List.length ds)%nat
   then Ok {| Num.index := List.length ds;
              Num.columns := Num.attach_identity df_test cs' |}
   else Raise ValueError)%result.
Proof.
  intros Hne. unfold Num.expected_rssi. cbv zeta.
  rewrite num_convert_columns_closed.
  destruct (mapM (Num.entryM (Num.convert_named A lp df_ap))
                 (Num.columns (Num.DataFrame A ds)))
    as [cs | e]; simpl; [| reflexivity].
  unfold Num.frame_clip. simpl.
  change (mapM (fun kc => (c <- Num.clip_column A (Num.of_int A (-100)) (snd kc) ;;
                           Ok (fst kc, c))%result) cs)
    with (mapM (Num.entryM
                  (fun _ => Num.clip_column A (Num.of_int A (-100)))) cs).
  destruct (mapM (Num.entryM
                    (fun _ => Num.clip_column A (Num.of_int A (-100)))) cs)
    as [cs' | e]; simpl; [| reflexivity].
  assert (Hlen : List.length ds <> 0%nat) by (destruct ds; simpl; congruence).
  rewrite num_setitem_nonempty by exact Hlen. simpl. rewrite length_map.
  destruct (List.length (Num.df_rows df_test) =? List.length ds)%nat eqn:E;
    simpl; [| reflexivity].
  apply Nat.eqb_eq in E.
  repeat (rewrite num_setitem_same_length
            by (simpl; now rewrite ?length_map);
          simpl).
  reflexivity.
Qed.

(** A column of the distances, followed to the output. *)
Lemma num_expected_rssi_column (df_test : Num.points_frame T)
    (ds : list (dict (option T))) (df_ap : Num.ap_frame T)
    (lp : Num.LogParams T) (out : Num.frame T) (k : string)
    (c : Num.column T) :
  Num.expected_rssi A df_test ds df_ap lp = Ok out ->
  identity_column k = false ->
  dict_get (Num.columns (Num.DataFrame A ds)) k = Some c ->
  exists c1 c2,
    Num.convert_named A lp df_ap k c = Ok c1 /\
    Num.clip_column A (Num.of_int A (-100)) c1 = Ok c2 /\
    dict_get (Num.columns out) k = Some c2.
Proof.
  intros Hok Hid Hc.
  destruct ds as [| d ds]; [discriminate |].
  rewrite num_expected_rssi_closed in Hok by discriminate.
  destruct (mapM (Num.entryM (Num.convert_named A lp df_ap))
                 (Num.columns (Num.DataFrame A (d :: ds))))
    as [cs | e] eqn:E1; simpl in Hok; [| discriminate].
  destruct (mapM (Num.entryM
                    (fun _ => Num.clip_column A (Num.of_int A (-100)))) cs)
    as [cs' | e] eqn:E2; simpl in Hok; [| discriminate].
  match type of Hok with
  | context [if ?b then _ else _] => destruct b; [| discriminate]
  end.
  inversion Hok. subst out. simpl.
  pose proof (num_mapM_entry_get _ _ _ k E1) as H1. rewrite Hc in H1.
  destruct H1 as [c1 [Hc1 Hg1]].
  pose proof (num_mapM_entry_get _ _ _ k E2) as H2. rewrite Hg1 in H2.
  destruct H2 as [c2 [Hc2 Hg2]].
  exists c1, c2. rewrite num_attach_identity_other by assumption. auto.
Qed.

Lemma num_all_none_nth (vals : list (option (option T))) (i : nat)
    (v : option (option T)) :
  Num.all_none vals = true -> nth_error vals i = Some v -> v = Some None.
Proof.
  unfold Num.all_none. rewrite forallb_forall. intros Hall Hn.
  apply nth_error_In in Hn. specialize (Hall v Hn).
  destruct v as [[f |] |]; congruence.
Qed.

(** A defined distance of mapping [i] is the cell of row [i]. *)
Lemma num_DataFrame_cell_defined (ds : list (dict (option T))) (i : nat)
    (m : dict (option T)) (k : string) (d : T) :
  nth_error ds i = Some m -> dict_get m k = Some (Some d) ->
  exists vs,
    dict_get (Num.columns (Num.DataFrame A ds)) k = Some (Num.FloatCol vs) /\
    nth_error vs i = Some d.
Proof.
  intros Hm Hd. rewrite num_DataFrame_column, str_in_union_keys.
  rewrite (nth_error_In_existsb _ _ _ _ Hm (dict_get_some_key _ _ _ Hd)).
  unfold Num.column_of.
  destruct (Num.all_none (map (fun d0 => dict_get d0 k) ds)) eqn:Hall.
  - exfalso.
    assert (Hn : nth_error (map (fun d0 => dict_get d0 k) ds) i
                 = Some (Some (Some d))).
    { rewrite nth_error_map, Hm. simpl. now rewrite Hd. }
    pose proof (num_all_none_nth _ _ _ Hall Hn). discriminate.
  - eexists. split; [reflexivity |].
    rewrite !nth_error_map, Hm. simpl. now rewrite Hd.
Qed.

(** The cell of a defined distance in a recognized column: after the loop it
    holds the result of the three steps, and the output holds that value
    clipped. *)
Lemma num_expected_rssi_recognized_cell (df_test : Num.points_frame T)
    (ds : list (dict (option T))) (df_ap : Num.ap_frame T)
    (lp : Num.LogParams T) (out : Num.frame T) (i : nat)
    (m : dict (option T)) (wap : string) (d : T) :
  Num.expected_rssi A df_test ds df_ap lp = Ok out ->
  nth_error ds i = Some m ->
  dict_get m wap = Some (Some d) ->
  Num.recognized df_ap wap = true ->
  identity_column wap = false ->
  (exists f,
     Num.convert_columns A lp df_ap (Num.DataFrame A ds) = Ok f /\
     Num.cell f i wap = Some (Num.OFloat (Num.rssi_of_distance A lp d))) /\
  Num.cell out i wap =
  Some (Num.OFloat (Num.clip_float A (Num.of_int A (-100))
                      (Num.rssi_of_distance A lp d))).
Proof.
  intros Hok Hm Hd Hrec Hid.
  destruct (num_DataFrame_cell_defined _ _ _ _ _ Hm Hd) as [vs [Hc Hvs]].
  destruct (num_expected_rssi_column _ _ _ _ _ _ _ Hok Hid Hc)
    as [c1 [c2 [H1 [H2 H3]]]].
  unfold Num.convert_named in H1. rewrite Hrec in H1. simpl in H1.
  inversion H1. subst c1. simpl in H2. inversion H2. subst c2.
  split.
  - rewrite num_convert_columns_closed.
    destruct (mapM (Num.entryM (Num.convert_named A lp df_ap))
                   (Num.columns (Num.DataFrame A ds))) as [cs | e] eqn:E.
    + simpl. eexists. split; [reflexivity |].
      unfold Num.cell. simpl.
      pose proof (num_mapM_entry_get _ _ _ wap E) as Hg. rewrite Hc in Hg.
      destruct Hg as [c' [Hc' Hg]]. rewrite Hg.
      unfold Num.convert_named in Hc'. rewrite Hrec in Hc'. simpl in Hc'.
      inversion Hc'. simpl. rewrite nth_error_map, Hvs. reflexivity.
    + exfalso. unfold Num.expected_rssi in Hok. cbv zeta in Hok.
      rewrite num_convert_columns_closed, E in Hok. discriminate.
  - unfold Num.cell. rewrite H3. simpl.
    rewrite !nth_error_map, Hvs. reflexivity.
Qed.

End NumFacts.

(** ** The doubles: powers and the examples *)

Lemma float_pow_2_raises (m : libm) (x : float) (e : exn) :
  B64.float_pow_2 m x = Raise e -> e = OverflowError.
Proof.
  unfold B64.float_pow_2.
  repeat match goal with
         | |- context [if ?b then _ else _] => destruct b
         end; congruence.
Qed.

Lemma float_pow_half_raises (m : libm) (x : float) (e : exn) :
  B64.float_pow_half m x = Raise e -> e = OverflowError \/ e = TypeError.
Proof.
  unfold B64.float_pow_half.
  repeat match goal with
         | |- context [if ?b then _ else _] => destruct b
         end; intros E; inversion E; auto.
Qed.

(** The steps of a distance that is computed. *)
Lemma euclid64_ok (m : libm) (px py ax ay H d : float) :
  Num.euclid (binary64 m) px py ax ay H = Ok d ->
  exists sx sy sh,
    B64.float_pow_2 m (PrimFloat.sub px ax) = Ok sx /\
    B64.float_pow_2 m (PrimFloat.sub py ay) = Ok sy /\
    B64.float_pow_2 m H = Ok sh /\
    B64.float_pow_half m (PrimFloat.add (PrimFloat.add sx sy) sh) = Ok d.
Proof.
  unfold Num.euclid. simpl. intros E.
  destruct (B64.float_pow_2 m (PrimFloat.sub px ax)) as [sx | e];
    simpl in E; [| discriminate].
  destruct (B64.float_pow_2 m (PrimFloat.sub py ay)) as [sy | e];
    simpl in E; [| discriminate].
  destruct (B64.float_pow_2 m H) as [sh | e]; simpl in E; [| discriminate].
  exists sx, sy, sh. auto.
Qed.

Lemma euclid64_raises (m : libm) (px py ax ay H : float) (e : exn) :
  Num.euclid (binary64 m) px py ax ay H = Raise e ->
  e = OverflowError \/ e = TypeError.
Proof.
  unfold Num.euclid. simpl. intros E.
  destruct (B64.float_pow_2 m (PrimFloat.sub px ax)) as [sx | e1] eqn:E1;
    simpl in E;
    [| inversion E; subst; left; eapply float_pow_2_raises; eassumption].
  destruct (B64.float_pow_2 m (PrimFloat.sub py ay)) as [sy | e2] eqn:E2;
    simpl in E;
    [| inversion E; subst; left; eapply float_pow_2_raises; eassumption].
  destruct (B64.float_pow_2 m H) as [sh | e3] eqn:E3; simpl in E;
    [| inversion E; subst; left; eapply float_pow_2_raises; eassumption].
  eapply float_pow_half_raises; eassumption.
Qed.

(** ** C2: the distance recorded by get_distances *)

(** C2, as the code has it.  For every point [p] (row [i] of the table),
    every channel identifier [wap] of the table whose access point in the
    registry is [ap], and every height offset [H]: a call that returns has
    recorded under [wap], in the mapping of row [i], the double
    [round(((p.X - ap.x) ** 2 + (p.Y - ap.y) ** 2 + H ** 2) ** 0.5, 2)],
    every difference, power and sum being the operation of the doubles and
    [round] the rounding of the computed double to two decimals; a call
    that does not return raises the exception of one of its distances,
    [OverflowError] of a power (or [TypeError], the rounding of a complex
    root), and the call returns exactly when every distance of a registered
    column is computed.  With a library exact on the squares and roots below, the point
    (0,0) and the access point (3,4) are at distance 5.0 for [H = 0] and
    13.0 for [H = 12].  The last lines fix what [**] is where the library
    is not asked or overflows, and what [round(x, 2)] is on doubles that
    are not integers. *)
Theorem get_distances_euclidean (m : libm) (df : Num.points_frame float)
    (ap_df : Num.ap_frame float) (H : float) (i : nat) (p : Num.point float)
    (wap : string) (ap : Num.access_point float) :
  nth_error (Num.df_rows df) i = Some p ->
  In wap (Num.wap_columns df) ->
  Num.registry_lookup ap_df wap = Some ap ->
  (forall l,
     Num.get_distances (binary64 m) df ap_df H = Ok l ->
     exists mp sx sy sh d,
       nth_error l i = Some mp /\
       B64.float_pow_2 m (PrimFloat.sub (Num.X p) (Num.ap_x ap)) = Ok sx /\
       B64.float_pow_2 m (PrimFloat.sub (Num.Y p) (Num.ap_y ap)) = Ok sy /\
       B64.float_pow_2 m H = Ok sh /\
       B64.float_pow_half m (PrimFloat.add (PrimFloat.add sx sy) sh) = Ok d /\
       dict_get mp wap = Some (Some (B64.py_round2 d))) /\
  (forall x,
     Num.get_distances (binary64 m) df ap_df H = Raise x ->
     (x = OverflowError \/ x = TypeError) /\
     exists p' wap' ap',
       In p' (Num.df_rows df) /\ In wap' (Num.wap_columns df) /\
       Num.registry_lookup ap_df wap' = Some ap' /\
       Num.euclid (binary64 m) (Num.X p') (Num.Y p')
         (Num.ap_x ap') (Num.ap_y ap') H = Raise x) /\
  ((exists l, Num.get_distances (binary64 m) df ap_df H = Ok l) <->
   (forall p' wap' ap',
      In p' (Num.df_rows df) -> In wap' (Num.wap_columns df) ->
      Num.registry_lookup ap_df wap' = Some ap' ->
      exists d,
        Num.euclid (binary64 m) (Num.X p') (Num.Y p')
          (Num.ap_x ap') (Num.ap_y ap') H = Ok d)) /\
  (pow_2 m 3%float = 9%float -> pow_2 m 4%float = 16%float ->
   pow_half m 25%float = 5%float ->
   Num.get_distances (binary64 m) (point_at 0%float 0%float)
     (ap_at 3%float 4%float) 0%float =
   Ok [ [("WAP001"%string, Some 5%float); ("WAP002"%string, None)] ]) /\
  (pow_2 m 3%float = 9%float -> pow_2 m 4%float = 16%float ->
   pow_2 m 12%float = 144%float -> pow_half m 169%float = 13%float ->
   Num.get_distances (binary64 m) (point_at 0%float 0%float)
     (ap_at 3%float 4%float) 12%float =
   Ok [ [("WAP001"%string, Some 13%float); ("WAP002"%string, None)] ]) /\
  (PrimFloat.is_infinity (pow_2 m 1e200%float) = true ->
   B64.float_pow_2 m 1e200%float = Raise OverflowError) /\
  B64.float_pow_2 m PrimFloat.neg_infinity = Ok PrimFloat.infinity /\
  B64.float_pow_2 m PrimFloat.nan = Ok PrimFloat.nan /\
  B64.py_round2 1.4142135623730951%float = 1.41%float /\
  B64.py_round2 0.125%float = 0.12%float /\
  B64.py_round2 0.375%float = 0.38%float /\
  B64.py_round2 2.675%float = 2.67%float /\
  B64.py_round2 (-0.001)%float = (-0)%float.
Proof.
  intros Hp Hin Hreg. split; [| split; [| split; [| split; [| split]]]].
  - intros l Hok.
    destruct (num_get_distances_entry _ _ _ _ _ _ _ _ _ Hok Hp Hin Hreg)
      as (mp & d & Hmp & Hd & Hget).
    destruct (euclid64_ok _ _ _ _ _ _ _ Hd) as (sx & sy & sh & H1 & H2 & H3 & H4).
    exists mp, sx, sy, sh, d. auto 7.
  - intros x Hx.
    destruct (num_get_distances_raise _ _ _ _ _ Hx)
      as (p' & wap' & ap' & H1 & H2 & H3 & H4).
    split; [eapply euclid64_raises; eassumption |].
    exists p', wap', ap'. auto.
  - apply (num_get_distances_ok_iff (binary64 m)).
  - intros H3 H4 H25.
    cbv -[pow_2 pow_half B64.py_round2].
    rewrite H3, H4. cbv -[pow_2 pow_half B64.py_round2].
    rewrite H25. reflexivity.
  - intros H3 H4 H12 H169.
    cbv -[pow_2 pow_half B64.py_round2].
    rewrite H3, H4, H12. cbv -[pow_2 pow_half B64.py_round2].
    rewrite H169. reflexivity.
  - split.
    + intros Hinf. unfold B64.float_pow_2.
      replace (PrimFloat.abs 1e200%float) with 1e200%float by reflexivity.
      rewrite Hinf. reflexivity.
    + repeat split; vm_compute; reflexivity.
Qed.

Lemma get_distances_euclidean_witness :
  Num.get_distances (binary64 libm_ref) (point_at 0%float 0%float)
    (ap_at 1%float 1%float) 0%float =
    Ok [ [("WAP001"%string, Some 1.41%float); ("WAP002"%string, None)] ] /\
  exists mp sx sy sh d,
    nth_error [ [("WAP001"%string, Some 1.41%float);
                 ("WAP002"%string, @None float)] ] 0 = Some mp /\
    B64.float_pow_2 libm_ref (PrimFloat.sub 0%float 1%float) = Ok sx /\
    B64.float_pow_2 libm_ref (PrimFloat.sub 0%float 1%float) = Ok sy /\
    B64.float_pow_2 libm_ref 0%float = Ok sh /\
    B64.float_pow_half libm_ref (PrimFloat.add (PrimFloat.add sx sy) sh)
      = Ok d /\
    dict_get mp "WAP001" = Some (Some (B64.py_round2 d)).
Proof.
  assert (Hok : Num.get_distances (binary64 libm_ref)
                  (point_at 0%float 0%float) (ap_at 1%float 1%float) 0%float =
                Ok [ [("WAP001"%string, Some 1.41%float);
                      ("WAP002"%string, @None float)] ])
    by (vm_compute; reflexivity).
  split; [exact Hok |].
  assert (H2 : In "WAP001"%string
                 (Num.wap_columns (point_at 0%float 0%float)))
    by (simpl; auto).
  exact (proj1 (get_distances_euclidean libm_ref (point_at 0%float 0%float)
                  (ap_at 1%float 1%float) 0%float 0
                  {| Num.LABEL := "hall"; Num.DEVICE := "phone";
                     Num.X := 0%float; Num.Y := 0%float |}
                  "WAP001"
                  {| Num.AP := "WAP001"; Num.ap_x := 1%float;
                     Num.ap_y := 1%float |}
                  eq_refl H2 eq_refl) _ Hok).
Defined.

(** C2 as stated fails on the doubles, in two ways.  Rounding: for the point
    (2^-34, 0), the access point (0, 0) and [H = 0.125] the three squares
    and their sum are exact, the root of the sum is the double 0.125, and
    [round(0.125, 2)] is 0.12; the exact distance is larger than 0.125 (its
    square exceeds 1/64), so its rounding to two decimal places is 0.13, and
    the recorded 0.12 is more than 0.005 away from it.  Definedness: for the
    point (1e200, 0) the first square overflows and the call raises
    [OverflowError] instead of recording a distance. *)
Lemma distance_tie_rounds_down :
  Num.get_distances (binary64 libm_ref) (point_at 0x1p-34%float 0%float)
    (ap_at 0%float 0%float) 0.125%float =
    Ok [ [("WAP001"%string, Some 0.12%float); ("WAP002"%string, None)] ] /\
  (exists q s,
     B64.exact 0.12%float = Some q /\
     exact_squares 0x1p-34%float 0%float 0%float 0%float 0.125%float
       = Some s /\
     ((1 # 8) ^ 2 < s)%Q /\
     ((q + (1 # 200)) ^ 2 < s)%Q /\
     (s < ((13 # 100) + (1 # 200)) ^ 2)%Q) /\
  Num.get_distances (binary64 libm_ref) (point_at 1e200%float 0%float)
    (ap_at 0%float 0%float) 0%float = Raise OverflowError.
Proof.
  split; [vm_compute; reflexivity |]. split; [| vm_compute; reflexivity].
  eexists. eexists.
  split; [vm_compute; reflexivity |].
  split; [vm_compute; reflexivity |].
  repeat split; vm_compute; reflexivity.
Qed.

(** ** C1: the expected RSSI of a distance *)




(** ** The doubles: a nan stays a nan *)

Lemma is_nan_Prim2SF (x : float) :
  PrimFloat.is_nan x = true <-> Prim2SF x = S754_nan.
Proof.
  unfold PrimFloat.is_nan. rewrite FloatAxioms.eqb_spec. unfold SFeqb.
  destruct (Prim2SF x) as [s | s | | s mx ex]; simpl.
  - split; discriminate.
  - destruct s; split; discriminate.
  - split; reflexivity.
  - rewrite Z.compare_refl, Pos.compare_cont_refl.
    destruct s; simpl; split; discriminate.
Qed.

Lemma is_nan_sub_l (x y : float) :
  PrimFloat.is_nan x = true -> PrimFloat.is_nan (PrimFloat.sub x y) = true.
Proof.
  rewrite !is_nan_Prim2SF, FloatAxioms.sub_spec. intros ->. reflexivity.
Qed.

Lemma is_nan_sub_r (x y : float) :
  PrimFloat.is_nan y = true -> PrimFloat.is_nan (PrimFloat.sub x y) = true.
Proof.
  rewrite !is_nan_Prim2SF, FloatAxioms.sub_spec. intros ->.
  destruct (Prim2SF x); reflexivity.
Qed.

Lemma is_nan_add_l (x y : float) :
  PrimFloat.is_nan x = true -> PrimFloat.is_nan (PrimFloat.add x y) = true.
Proof.
  rewrite !is_nan_Prim2SF, FloatAxioms.add_spec. intros ->. reflexivity.
Qed.

Lemma is_nan_add_r (x y : float) :
  PrimFloat.is_nan y = true -> PrimFloat.is_nan (PrimFloat.add x y) = true.
Proof.
  rewrite !is_nan_Prim2SF, FloatAxioms.add_spec. intros ->.
  destruct (Prim2SF x); reflexivity.
Qed.

Lemma is_nan_mul_l (x y : float) :
  PrimFloat.is_nan x = true -> PrimFloat.is_nan (PrimFloat.mul x y) = true.
Proof.
  rewrite !is_nan_Prim2SF, FloatAxioms.mul_spec. intros ->. reflexivity.
Qed.

Lemma is_nan_mul_r (x y : float) :
  PrimFloat.is_nan y = true -> PrimFloat.is_nan (PrimFloat.mul x y) = true.
Proof.
  rewrite !is_nan_Prim2SF, FloatAxioms.mul_spec. intros ->.
  destruct (Prim2SF x); reflexivity.
Qed.

Lemma is_nan_div_l (x y : float) :
  PrimFloat.is_nan x = true -> PrimFloat.is_nan (PrimFloat.div x y) = true.
Proof.
  rewrite !is_nan_Prim2SF, FloatAxioms.div_spec. intros ->. reflexivity.
Qed.

Lemma py_round2_nan (x : float) :
  PrimFloat.is_nan x = true -> B64.py_round2 x = x.
Proof.
  rewrite is_nan_Prim2SF. unfold B64.py_round2. intros ->. reflexivity.
Qed.

Lemma np_round2_nan (x : float) :
  PrimFloat.is_nan x = true -> PrimFloat.is_nan (B64.np_round2 x) = true.
Proof.
  intros Hx. unfold B64.np_round2. apply is_nan_div_l.
  unfold B64.rint. rewrite (is_nan_mul_l _ _ Hx). simpl.
  now apply is_nan_mul_l.
Qed.

Lemma num_registry_lookup_known {T : Type} (ap_df : Num.ap_frame T)
    (k : string) (ap : Num.access_point T) :
  Num.registry_lookup ap_df k = Some ap -> Num.recognized ap_df k = true.
Proof.
  unfold Num.recognized, Num.registry_lookup. intros E.
  apply find_some in E. destruct E as [Hin Heq]. apply String.eqb_eq in Heq.
  apply str_in_In. apply in_map_iff. exists ap.
  split; [assumption | now apply in_rev].
Qed.

Lemma num_wap_column_not_identity {T : Type} (df : Num.points_frame T)
    (wap : string) :
  In wap (Num.wap_columns df) -> identity_column wap = false.
Proof.
  intros Hin. destruct (identity_column wap) eqn:E; [| reflexivity].
  unfold Num.wap_columns in Hin. apply filter_In in Hin.
  destruct Hin as [_ Hpre].
  unfold identity_column in E. apply str_in_In in E. simpl in E.
  destruct E as [<- | [<- | [<- | [<- | []]]]]; discriminate.
Qed.

Lemma float_pow_2_nan (m : libm) (x s : float) :
  PrimFloat.is_nan x = true -> B64.float_pow_2 m x = Ok s ->
  PrimFloat.is_nan s = true.
Proof.
  intros Hx. unfold B64.float_pow_2. rewrite Hx. intros E.
  inversion E. now subst.
Qed.

Lemma float_pow_half_nan (m : libm) (x d : float) :
  PrimFloat.is_nan x = true -> B64.float_pow_half m x = Ok d ->
  PrimFloat.is_nan d = true.
Proof.
  intros Hx. unfold B64.float_pow_half. rewrite Hx. intros E.
  inversion E. now subst.
Qed.

(** ** A missing coordinate *)

(** X12.  A point with a missing coordinate (a nan in X or in Y): when
    [get_distances] returns, it has recorded a nan for every channel of the
    point whose access point is known; and when [expected_rssi] returns on
    these mappings, the cell of the output is a nan too, which the clip
    leaves in place ([log10] of a nan being a nan). *)
Theorem missing_coordinate_propagates (m : libm) (df : Num.points_frame float)
    (ap_df : Num.ap_frame float) (H : float)
    (l : list (dict (option float))) (i : nat) (p : Num.point float)
    (wap : string) (ap : Num.access_point float) :
  Num.get_distances (binary64 m) df ap_df H = Ok l ->
  nth_error (Num.df_rows df) i = Some p ->
  In wap (Num.wap_columns df) ->
  Num.registry_lookup ap_df wap = Some ap ->
  PrimFloat.is_nan (Num.X p) = true \/ PrimFloat.is_nan (Num.Y p) = true ->
  (exists mp c,
     nth_error l i = Some mp /\ dict_get mp wap = Some (Some c) /\
     PrimFloat.is_nan c = true) /\
  (forall df_test lp out,
     (forall x, PrimFloat.is_nan x = true ->
                PrimFloat.is_nan (c_log10 m x) = true) ->
     Num.expected_rssi (binary64 m) df_test l ap_df lp = Ok out ->
     exists v,
       Num.cell out i wap = Some (Num.OFloat v) /\
       PrimFloat.is_nan v = true).
Proof.
  intros Hok Hp Hin Hreg Hnan.
  destruct (num_get_distances_entry _ _ _ _ _ _ _ _ _ Hok Hp Hin Hreg)
    as (mp & d & Hmp & Hd & Hget).
  destruct (euclid64_ok _ _ _ _ _ _ _ Hd)
    as (sx & sy & sh & H1 & H2 & H3 & H4).
  assert (Hsum : PrimFloat.is_nan
                   (PrimFloat.add (PrimFloat.add sx sy) sh) = true).
  { apply is_nan_add_l. destruct Hnan as [Hx | Hy].
    - apply is_nan_add_l.
      exact (float_pow_2_nan _ _ _ (is_nan_sub_l _ _ Hx) H1).
    - apply is_nan_add_r.
      exact (float_pow_2_nan _ _ _ (is_nan_sub_l _ _ Hy) H2). }
  assert (Hdn : PrimFloat.is_nan d = true)
    by exact (float_pow_half_nan _ _ _ Hsum H4).
  assert (Hc : PrimFloat.is_nan (B64.py_round2 d) = true)
    by now rewrite py_round2_nan.
  split.
  - exists mp, (B64.py_round2 d). auto.
  - intros df_test lp out Hlog Hout.
    destruct (num_expected_rssi_recognized_cell (binary64 m) _ _ _ _ _ _ _ _ _
                Hout Hmp Hget (num_registry_lookup_known _ _ _ Hreg)
                (num_wap_column_not_identity _ _ Hin)) as [_ Hcell].
    eexists. split; [exact Hcell |].
    assert (Hr : PrimFloat.is_nan
                   (Num.rssi_of_distance (binary64 m) lp (B64.py_round2 d))
                 = true).
    { unfold Num.rssi_of_distance, Num.path_loss. simpl.
      apply np_round2_nan, is_nan_sub_r, is_nan_mul_r, Hlog, Hc. }
    assert (Hclip : forall lower v,
               PrimFloat.is_nan v = true ->
               Num.clip_float (binary64 m) lower v = v).
    { intros lower v Hv. unfold Num.clip_float. simpl. now rewrite Hv. }
    rewrite Hclip by exact Hr. exact Hr.
Qed.

Lemma missing_coordinate_propagates_witness :
  Num.get_distances (binary64 libm_ref) (lost_at 0%float)
    (ap_at 3%float 4%float) 2%float =
    Ok [ [("WAP001"%string, Some PrimFloat.nan); ("WAP002"%string, None)] ] /\
  exists mp c,
    nth_error [ [("WAP001"%string, Some PrimFloat.nan);
                 ("WAP002"%string, @None float)] ] 0 = Some mp /\
    dict_get mp "WAP001" = Some (Some c) /\
    PrimFloat.is_nan c = true.
Proof.
  assert (Hok : Num.get_distances (binary64 libm_ref) (lost_at 0%float)
                  (ap_at 3%float 4%float) 2%float =
                Ok [ [("WAP001"%string, Some PrimFloat.nan);
                      ("WAP002"%string, @None float)] ])
    by (vm_compute; reflexivity).
  split; [exact Hok |].
  assert (H2 : In "WAP001"%string (Num.wap_columns (lost_at 0%float)))
    by (simpl; auto).
  exact (proj1 (missing_coordinate_propagates libm_ref (lost_at 0%float)
                  (ap_at 3%float 4%float) 2%float _ 0
                  {| Num.LABEL := "lost"; Num.DEVICE := "phone";
                     Num.X := PrimFloat.nan; Num.Y := 0%float |}
                  "WAP001"
                  {| Num.AP := "WAP001"; Num.ap_x := 3%float;
                     Num.ap_y := 4%float |}
                  Hok eq_refl H2 eq_refl (or_introl eq_refl))).
Defined.
